(** * ASSUME-BREAK: the debate orchestrator and the reality retrieval engine

    A shallow embedding of [src/assume_break]:
    - [reality/engine.py]: tokenizer, category detection, fact scoring,
      ranked retrieval and the [fetch_reality] node;
    - [agents/llm.py]: [call_claude] and [call_claude_async] with their
      retry loop;
    - [agents/extractor.py], [agents/adversary.py], [agents/proponent.py],
      [agents/judge.py]: the four capabilities, primary and rule-based,
      and the line filter of the extraction;
    - [graph.py]: routing, [MockAssumeBreakGraph.invoke], [stress_test_plan].

    Conventions.
    - Python [str] is [string] (8-bit characters).  [lower] and [upper]
      map the ASCII letters and leave every other character as it is:
      that is what Python's do on text that is all ASCII
      ([Str.isascii]).  On other text Python maps case as Unicode has
      it, which is not modelled.
    - Python [int] is [Z]; [range n] is the list [0; ..; n-1], empty for
      [n <= 0].
    - Python [float] scores are exact rationals [Q].  Every weight of the
      engine is a multiple of 1/4, so binary64 addition of them is exact,
      and the two thresholds compare a quotient of small integers.
    - A node returns a partial dictionary; it is an [Update] record whose
      absent keys are [None], merged by [state_update] as [dict.update].
    - What lies outside the repository is a field of [Env]: the oracle
      transport, the [re] matches on the oracle's reply, [difflib]'s
      [SequenceMatcher.ratio], the float formatter.
    - [stress_test_plan] is modelled as it runs where the optional
      package langgraph is not installed: [build_assume_break_graph]
      warns and returns the mock graph, the call of its [invoke] with a
      [config] argument fails, and after a second warning the run is
      that of [MockAssumeBreakGraph.invoke].  A graph compiled by
      langgraph runs the same nodes over the same routes, but not under
      the loop bound of the mock: the two differ when the cap is
      negative. *)

From Stdlib Require Import Bool Arith ZArith QArith Lia Lqa.
From Stdlib Require Import Ascii String List Permutation Sorted.
From Stdlib Require Import DecimalString.
Import ListNotations.

Local Open Scope string_scope.
Local Open Scope list_scope.

(* ================================================================= *)
(** ** Strings *)

Module Str.

Definition is_upper (c : ascii) : bool :=
  let n := nat_of_ascii c in (65 <=? n)%nat && (n <=? 90)%nat.

Definition is_lower (c : ascii) : bool :=
  let n := nat_of_ascii c in (97 <=? n)%nat && (n <=? 122)%nat.

Definition is_digit (c : ascii) : bool :=
  let n := nat_of_ascii c in (48 <=? n)%nat && (n <=? 57)%nat.

Definition lower_char (c : ascii) : ascii :=
  if is_upper c then ascii_of_nat (nat_of_ascii c + 32) else c.

Definition upper_char (c : ascii) : ascii :=
  if is_lower c then ascii_of_nat (nat_of_ascii c - 32) else c.

(** [s.isascii()] *)
Fixpoint isascii (s : string) : bool :=
  match s with
  | EmptyString => true
  | String c r => (nat_of_ascii c <? 128)%nat && isascii r
  end.

(** [s.lower()], for [s] all ASCII *)
Fixpoint lower (s : string) : string :=
  match s with
  | EmptyString => EmptyString
  | String c r => String (lower_char c) (lower r)
  end.

(** [s.upper()], for [s] all ASCII *)
Fixpoint upper (s : string) : string :=
  match s with
  | EmptyString => EmptyString
  | String c r => String (upper_char c) (upper r)
  end.

(** [needle in hay] on strings *)
Fixpoint contains (needle hay : string) : bool :=
  String.prefix needle hay ||
  match hay with
  | EmptyString => false
  | String _ r => contains needle r
  end.

(** [x in xs] on a list (or set) of strings *)
Definition mem (x : string) (xs : list string) : bool :=
  existsb (String.eqb x) xs.

(** [any(w in s for w in ws)] *)
Definition any_in (ws : list string) (s : string) : bool :=
  existsb (fun w => contains w s) ws.

(** [s + c] for a single character [c] *)
Definition snoc (s : string) (c : ascii) : string :=
  String.append s (String c EmptyString).

(** [str(n)] for a natural number *)
Definition of_nat (n : nat) : string :=
  NilEmpty.string_of_uint (Nat.to_uint n).

(** [str(z)] *)
Definition of_Z (z : Z) : string :=
  NilEmpty.string_of_int (Z.to_int z).

End Str.

(* ================================================================= *)
(** ** state.py *)

Inductive PlanStatus :=
  DRAFT | UNDER_REVIEW | BROKEN | VALIDATED | NEEDS_REVISION.

Inductive CritiqueSeverity := FATAL | MAJOR | MINOR | NONE.

Record RealityFact := {
  category : string;
  fact : string;
  source : string;
  effective_date : string;
  keywords : list string
}.

(** One critique dictionary; [verdict] holds [sev.value]. *)
Record Critique := {
  fracture : string;
  reality : string;
  citation : string;
  verdict : CritiqueSeverity;
  impact : string
}.

(** One defense dictionary.  The primary strategy sets a key only when
    its field was found in the reply. *)
Record Defense := {
  response_to : string;
  defense : option string;
  revision : option string;
  mitigation : option string
}.

(** [{"round": n, "critiques": [...]}] and [{"round": n, "defenses": [...]}] *)
Record CritiqueRound := { round : Z; critiques : list Critique }.
Record DefenseRound := { defense_round : Z; defenses : list Defense }.

Record AgentState := {
  business_plan : string;
  assumption_tree : list string;
  reality_context : string;
  reality_citations : list string;
  critique_history : list CritiqueRound;
  defense_history : list DefenseRound;
  plan_status : PlanStatus;
  critique_severity : CritiqueSeverity;
  revision_count : Z;
  max_revisions : Z;
  human_override : string;
  awaiting_human : bool
}.

(** The dictionary a node returns: a key is present or not. *)
Record Update := {
  u_assumption_tree : option (list string);
  u_reality_context : option string;
  u_reality_citations : option (list string);
  u_critique_history : option (list CritiqueRound);
  u_defense_history : option (list DefenseRound);
  u_plan_status : option PlanStatus;
  u_critique_severity : option CritiqueSeverity;
  u_revision_count : option Z;
  u_human_override : option string;
  u_awaiting_human : option bool
}.

Definition no_update : Update :=
  {| u_assumption_tree := None; u_reality_context := None;
     u_reality_citations := None; u_critique_history := None;
     u_defense_history := None; u_plan_status := None;
     u_critique_severity := None; u_revision_count := None;
     u_human_override := None; u_awaiting_human := None |}.

(** [d.get(key, default)] *)
Definition get {A} (o : option A) (default : A) : A :=
  match o with Some x => x | None => default end.

(** [state.update(result)] *)
Definition state_update (state : AgentState) (u : Update) : AgentState :=
  {| business_plan := business_plan state;
     assumption_tree := get (u_assumption_tree u) (assumption_tree state);
     reality_context := get (u_reality_context u) (reality_context state);
     reality_citations := get (u_reality_citations u) (reality_citations state);
     critique_history := get (u_critique_history u) (critique_history state);
     defense_history := get (u_defense_history u) (defense_history state);
     plan_status := get (u_plan_status u) (plan_status state);
     critique_severity := get (u_critique_severity u) (critique_severity state);
     revision_count := get (u_revision_count u) (revision_count state);
     max_revisions := max_revisions state;
     human_override := get (u_human_override u) (human_override state);
     awaiting_human := get (u_awaiting_human u) (awaiting_human state) |}.

(** [state["critique_history"] = v] and the like. *)
Definition set_critique_history (v : list CritiqueRound) (s : AgentState) :=
  state_update s {| u_assumption_tree := None; u_reality_context := None;
     u_reality_citations := None; u_critique_history := Some v;
     u_defense_history := None; u_plan_status := None;
     u_critique_severity := None; u_revision_count := None;
     u_human_override := None; u_awaiting_human := None |}.

Definition set_critique_severity (v : CritiqueSeverity) (s : AgentState) :=
  state_update s {| u_assumption_tree := None; u_reality_context := None;
     u_reality_citations := None; u_critique_history := None;
     u_defense_history := None; u_plan_status := None;
     u_critique_severity := Some v; u_revision_count := None;
     u_human_override := None; u_awaiting_human := None |}.

Definition set_plan_status (v : PlanStatus) (s : AgentState) :=
  state_update s {| u_assumption_tree := None; u_reality_context := None;
     u_reality_citations := None; u_critique_history := None;
     u_defense_history := None; u_plan_status := Some v;
     u_critique_severity := None; u_revision_count := None;
     u_human_override := None; u_awaiting_human := None |}.

Definition set_defense_history (v : list DefenseRound) (s : AgentState) :=
  state_update s {| u_assumption_tree := None; u_reality_context := None;
     u_reality_citations := None; u_critique_history := None;
     u_defense_history := Some v; u_plan_status := None;
     u_critique_severity := None; u_revision_count := None;
     u_human_override := None; u_awaiting_human := None |}.

Record StressTestResult := {
  r_plan_status : PlanStatus;
  r_critique_severity : CritiqueSeverity;
  r_assumptions : list string;
  r_critiques : list CritiqueRound;
  r_defenses : list DefenseRound;
  r_reality_citations : list string;
  r_revision_count : Z;
  raw_state : AgentState
}.

(* ================================================================= *)
(** ** reality/engine.py *)

Definition CATEGORY_INDICATORS : list (string * list string) :=
  [ ("TAX", ["tax"; "revenue"; "turnover"; "vat"; "income tax"; "withholding"]);
    ("ENERGY", ["fuel"; "diesel"; "petrol"; "electricity"; "power"; "solar";
                "energy"; "generator"]);
    ("FINANCE", ["loan"; "bank"; "interest"; "financing"; "credit"; "lending";
                 "inflation"; "exchange rate"; "forex"; "kwacha"]);
    ("LOGISTICS", ["transport"; "road"; "delivery"; "logistics"; "fleet";
                   "shipping"; "cold chain"; "warehouse"]);
    ("MINING", ["mining"; "mine"; "copper"; "cobalt"; "mineral"; "smelting";
                "ore"; "drill"]);
    ("AGRICULTURE", ["farm"; "agriculture"; "maize"; "crop"; "harvest";
                     "fertilizer"; "seed"; "livestock"; "land"]);
    ("LABOR", ["employee"; "worker"; "salary"; "wage"; "staff"; "hire";
               "payroll"; "labour"; "labor"; "napsa"]);
    ("IMPORT_EXPORT", ["import"; "export"; "customs"; "tariff"; "comesa";
                       "trade"; "shipping"]);
    ("DIGITAL", ["digital"; "mobile"; "app"; "software"; "internet"; "telecom";
                 "fintech"; "data"; "online"; "e-commerce"]);
    ("REGISTRATION", ["register"; "license"; "permit"; "pacra"; "zema";
                      "certification"; "compliance"]) ].

Definition EXACT_KEYWORD_WEIGHT : Q := 3.0.
Definition FUZZY_KEYWORD_WEIGHT : Q := 1.5.
Definition CATEGORY_BOOST_WEIGHT : Q := 2.0.
Definition FUZZY_THRESHOLD : Q := 0.65.
Definition TOP_K : Z := 10.

(** The scanner behind [re.findall(r"[a-z0-9]+(?:'[a-z]+)?", ...)].
    [cur] is the token being read, [suffix] tells whether the apostrophe
    group has been entered.  The apostrophe is taken only when a letter
    follows it; a digit that ends the apostrophe group starts the next
    token. *)
Fixpoint findall_tokens (cur : option string) (suffix : bool)
  (cs : string) : list string :=
  match cs with
  | EmptyString =>
      match cur with Some t => [t] | None => [] end
  | String c rest =>
      let alnum := Str.is_lower c || Str.is_digit c in
      match cur with
      | None =>
          if alnum then findall_tokens (Some (String c EmptyString)) false rest
          else findall_tokens None false rest
      | Some t =>
          if suffix then
            if Str.is_lower c
            then findall_tokens (Some (Str.snoc t c)) true rest
            else t :: (if alnum
                       then findall_tokens (Some (String c EmptyString)) false rest
                       else findall_tokens None false rest)
          else
            if alnum
            then findall_tokens (Some (Str.snoc t c)) false rest
            else if Ascii.eqb c "'"%char &&
                    match rest with
                    | String d _ => Str.is_lower d
                    | EmptyString => false
                    end
            then findall_tokens (Some (Str.snoc t c)) true rest
            else t :: findall_tokens None false rest
      end
  end.

Definition _tokenize (text : string) : list string :=
  findall_tokens None false (Str.lower text).

(** The inner [for indicator in indicators: ... break] decides whether
    one category is added; the outer loop visits the table in order. *)
Definition _detect_categories (plan_text : string) : list string :=
  let plan_lower := Str.lower plan_text in
  fold_left
    (fun detected '(cat, indicators) =>
       if Str.any_in indicators plan_lower then detected ++ [cat]
       else detected)
    CATEGORY_INDICATORS [].

(** [xs[:k]]: a negative bound counts from the end. *)
Definition slice_to {A} (k : Z) (xs : list A) : list A :=
  if (0 <=? k)%Z then firstn (Z.to_nat k) xs
  else firstn (length xs - Z.to_nat (- k)) xs.

(** [scored.sort(key=lambda x: x[1], reverse=True)]: the library sort is
    stable, also with [reverse=True].  [insert_desc] puts an element in
    front of the first one whose score is not strictly greater, so an
    element stays ahead of the later ones it ties with. *)
Fixpoint insert_desc {A} (x : A * Q) (l : list (A * Q)) : list (A * Q) :=
  match l with
  | [] => [x]
  | y :: r =>
      if Qlt_le_dec (snd x) (snd y) then y :: insert_desc x r
      else x :: y :: r
  end.

Fixpoint sort_desc {A} (l : list (A * Q)) : list (A * Q) :=
  match l with
  | [] => []
  | x :: r => insert_desc x (sort_desc r)
  end.

Section Engine.

(** [SequenceMatcher(None, a, b).ratio()] of [difflib]. *)
Variable ratio : string -> string -> Q.

(** The first pass: [for token in plan_tokens: if token == keyword_lower:
    score += EXACT_KEYWORD_WEIGHT; break]. *)
Fixpoint exact_loop (keyword_lower : string) (plan_tokens : list string)
  (score : Q) : Q :=
  match plan_tokens with
  | [] => score
  | token :: rest =>
      if String.eqb token keyword_lower then score + EXACT_KEYWORD_WEIGHT
      else exact_loop keyword_lower rest score
  end.

(** The per-token search of the second pass, left at the first token
    that is similar enough. *)
Fixpoint token_loop (keyword_lower : string) (plan_tokens : list string)
  (score : Q) : Q :=
  match plan_tokens with
  | [] => score
  | token :: rest =>
      if (4 <=? String.length token)%nat
         && (4 <=? String.length keyword_lower)%nat
      then
        if Qle_bool 0.75 (ratio keyword_lower token)
        then score + FUZZY_KEYWORD_WEIGHT * 0.5
        else token_loop keyword_lower rest score
      else token_loop keyword_lower rest score
  end.

(** One iteration of the second pass. *)
Definition fuzzy_step (plan_tokens : list string) (plan_text_joined : string)
  (score : Q) (keyword : string) : Q :=
  let keyword_lower := Str.lower keyword in
  if Str.mem keyword_lower plan_tokens then score
  else if Qle_bool FUZZY_THRESHOLD (ratio keyword_lower plan_text_joined)
  then score + FUZZY_KEYWORD_WEIGHT
  else token_loop keyword_lower plan_tokens score.

Definition _score_fact (f : RealityFact) (plan_tokens : list string)
  (detected_categories : list string) : Q :=
  let score := 0.0 in
  let score :=
    fold_left (fun score keyword =>
                 exact_loop (Str.lower keyword) plan_tokens score)
              (keywords f) score in
  let plan_text_joined := String.concat " " plan_tokens in
  let score :=
    fold_left (fuzzy_step plan_tokens plan_text_joined) (keywords f) score in
  if Str.mem (category f) detected_categories
  then score + CATEGORY_BOOST_WEIGHT
  else score.

(** [for fact in DATABASE: score = ...; if score > 0: scored.append(..)] *)
Definition score_all (database : list RealityFact)
  (plan_tokens detected_categories : list string)
  : list (RealityFact * Q) :=
  fold_left
    (fun scored f =>
       let score := _score_fact f plan_tokens detected_categories in
       if Qlt_le_dec 0 score then scored ++ [(f, score)] else scored)
    database [].

Definition retrieve_relevant_facts (database : list RealityFact)
  (plan_text : string) (top_k : Z) : list (RealityFact * Q) :=
  let plan_tokens := _tokenize plan_text in
  let detected_categories := _detect_categories plan_text in
  let scored := score_all database plan_tokens detected_categories in
  slice_to top_k (sort_desc scored).

End Engine.

(** A model of [difflib]'s ratio for the examples: the Ratcliff-Obershelp
    count of matching characters (longest common block, then the pieces
    to its left and to its right), [2.0 * matches / length], and [1.0]
    when both strings are empty.  It leaves out the junk heuristic, which
    the library applies only to a second string of 200 characters or
    more. *)
Module Difflib.

Fixpoint common_prefix (a b : list ascii) : nat :=
  match a, b with
  | x :: a', y :: b' => if Ascii.eqb x y then S (common_prefix a' b') else 0
  | _, _ => 0
  end.

(** Best block [(i, j, k)] against every start [j] in [b], for a fixed
    suffix of [a] that starts at [i]. *)
Fixpoint scan_b (a b : list ascii) (i j : nat) (best : nat * nat * nat)
  : nat * nat * nat :=
  match b with
  | [] => best
  | _ :: b' =>
      let k := common_prefix a b in
      let best := if (snd best <? k)%nat then (i, j, k) else best in
      scan_b a b' i (S j) best
  end.

Fixpoint scan_a (a b : list ascii) (i : nat) (best : nat * nat * nat)
  : nat * nat * nat :=
  match a with
  | [] => best
  | _ :: a' => scan_a a' b (S i) (scan_b a b i 0%nat best)
  end.

Definition find_longest_match (a b : list ascii) : nat * nat * nat :=
  scan_a a b 0%nat (0%nat, 0%nat, 0%nat).

Fixpoint matches (fuel : nat) (a b : list ascii) : nat :=
  match fuel with
  | O => 0
  | S fuel' =>
      let '(i, j, k) := find_longest_match a b in
      if (k =? 0)%nat then 0%nat
      else (matches fuel' (firstn i a) (firstn j b) + k
            + matches fuel' (skipn (i + k) a) (skipn (j + k) b))%nat
  end.

Definition ratio (a b : string) : Q :=
  let la := list_ascii_of_string a in
  let lb := list_ascii_of_string b in
  let len := (List.length la + List.length lb)%nat in
  match len with
  | O => 1.0
  | S _ =>
      inject_Z (2 * Z.of_nat (matches (S (List.length la)) la lb))
      / inject_Z (Z.of_nat len)
  end.

End Difflib.

(* ================================================================= *)
(** ** reality/engine.py: the retrieval node *)

Definition NO_MATCH_CONTEXT : string :=
  "No specific Zambian regulatory or economic data matched this business plan. General business regulations still apply.".

Definition NO_MATCH_CITATION : string := "No specific matches found".

Section Fetch.

Variable ratio : string -> string -> Q.
(** [f"{score:.1f}"] *)
Variable format_1f : Q -> string.
Variable database : list RealityFact.

(** The body of [for i, (fact, score) in enumerate(results, 1)]. *)
Fixpoint render (i : nat) (results : list (RealityFact * Q))
  : list string * list string :=
  match results with
  | [] => ([], [])
  | (f, score) :: rest =>
      let '(context_parts, citations) := render (S i) rest in
      (("[" ++ Str.of_nat i ++ "] [" ++ category f ++ "] " ++ fact f
        ++ " (Source: " ++ source f ++ ", Effective: " ++ effective_date f
        ++ ", Relevance: " ++ format_1f score ++ ")")%string :: context_parts,
       ("[" ++ Str.of_nat i ++ "] " ++ source f ++ " ("
        ++ effective_date f ++ ")")%string :: citations)
  end.

Definition fetch_reality (state : AgentState) : Update :=
  let plan := business_plan state in
  let results := retrieve_relevant_facts ratio database plan TOP_K in
  match results with
  | [] =>
      {| u_assumption_tree := None;
         u_reality_context := Some NO_MATCH_CONTEXT;
         u_reality_citations := Some [NO_MATCH_CITATION];
         u_critique_history := None; u_defense_history := None;
         u_plan_status := None; u_critique_severity := None;
         u_revision_count := None; u_human_override := None;
         u_awaiting_human := None |}
  | _ :: _ =>
      let '(context_parts, citations) := render 1 results in
      {| u_assumption_tree := None;
         u_reality_context :=
           Some (String.concat (String "010" (String "010" EmptyString))
                               context_parts);
         u_reality_citations := Some citations;
         u_critique_history := None; u_defense_history := None;
         u_plan_status := None; u_critique_severity := None;
         u_revision_count := None; u_human_override := None;
         u_awaiting_human := None |}
  end.

End Fetch.

(* ================================================================= *)
(** ** The world outside the repository *)

(** The four capabilities that have a primary, oracle-backed strategy. *)
Inductive Capability := Extraction | Critiquing | Defending | Judging.

(** The nodes of the graph. *)
Inductive Node :=
  | Node_extract_assumptions
  | Node_retrieve_reality
  | Node_adversary_critique
  | Node_proponent_revise
  | Node_human_judge.

(** What one [client.messages.create] does: a reply, [RateLimitError],
    another [APIError], or any other exception. *)
Inductive TransportResult :=
  | Text (response : string)
  | RateLimitError
  | APIError
  | OtherError.

(** What [call_claude] does: it returns the reply, raises [NoAPIKeyError],
    or raises something else. *)
Inductive CallResult :=
  | Response (response : string)
  | NoAPIKeyError
  | Raised.

(** A block of [parse_structured_response]: the fields that were found. *)
Record Block := {
  b_fracture : option string;
  b_reality : option string;
  b_citation : option string;
  b_verdict : option string;
  b_impact : option string
}.

Inductive JudgeVerdict := V_VALIDATED | V_NEEDS_REVISION | V_BROKEN.

Record Env := {
  (** [get_settings()] *)
  anthropic_api_key : string;
  settings_max_revisions : Z;
  (** The reply to the [attempt]-th request of the [call]-th invocation
      of a capability: the oracle may answer differently each time. *)
  messages_create : Capability -> nat -> nat -> TransportResult;
  (** [difflib] and the float formatter. *)
  SequenceMatcher_ratio : string -> string -> Q;
  format_1f : Q -> string;
  (** [reality/database.py] *)
  ZAMBIAN_REALITY_DATABASE : list RealityFact;
  (** The [re] matches on a reply: the lines that match the assumption
      pattern; the blocks of [parse_structured_response]; the defenses
      split at [RESPONSE TO:]; the verdict found by [re.search]. *)
  assumption_lines : string -> list string;
  parse_structured_response : string -> list Block;
  defense_blocks : string -> list Defense;
  search_verdict : string -> option JudgeVerdict
}.

(** The two warnings [graph.py] raises itself: "langgraph not installed
    — using MockAssumeBreakGraph fallback" in [build_assume_break_graph],
    and "LangGraph execution failed, falling back to mock graph" in
    [stress_test_plan]. *)
Inductive GraphNotice := LanggraphMissing | GraphExecutionFailed.

(** What a run does besides computing: requests to the oracle,
    warnings of the capabilities and of the graph, the nodes the graph
    enters, and every value the state dictionary takes. *)
Inductive Event :=
  | Request (c : Capability) (call attempt : nat)
  | Warning (c : Capability)
  | Enter (n : Node)
  | Store (state : AgentState)
  | GraphWarning (n : GraphNotice).

(** Computations that emit events. *)
Definition W (A : Type) : Type := (A * list Event)%type.

Definition ret {A} (a : A) : W A := (a, []).

Definition bind {A B} (m : W A) (k : A -> W B) : W B :=
  let '(a, l1) := m in
  let '(b, l2) := k a in
  (b, l1 ++ l2).

Definition tell (e : Event) : W unit := (tt, [e]).

Notation "x <- m ;; k" := (bind m (fun x => k))
  (at level 61, m at next level, right associativity).
Notation "m ;;; k" := (bind m (fun _ => k))
  (at level 61, right associativity).

(** [range(n)] *)
Definition range (n : Z) : list nat := seq 0 (Z.to_nat n).

(* ================================================================= *)
(** ** agents/llm.py *)

(** The retry loop of [call_claude], [attempts] being what is left of
    [range(max_retries)].  Leaving the loop raises [last_error]. *)
Fixpoint retry_loop (env : Env) (c : Capability) (call : nat)
  (max_retries : Z) (attempts : list nat) : W CallResult :=
  match attempts with
  | [] => ret Raised
  | attempt :: rest =>
      tell (Request c call attempt) ;;;
      match messages_create env c call attempt with
      | Text response => ret (Response response)
      | RateLimitError => retry_loop env c call max_retries rest
      | APIError =>
          if (Z.of_nat attempt <? max_retries - 1)%Z
          then retry_loop env c call max_retries rest
          else ret Raised
      | OtherError => ret Raised
      end
  end.

Definition call_claude (env : Env) (c : Capability) (call : nat) : W CallResult :=
  let max_retries := 3%Z in
  if String.eqb (anthropic_api_key env) "" then ret NoAPIKeyError
  else retry_loop env c call max_retries (range max_retries).

(* ================================================================= *)
(** ** agents/extractor.py *)

Definition EXTRACTION_RULES : list (list string * string) :=
  [ (["revenue"; "income"; "turnover"; "sales"; "zmw"],
     "[Financial] ASSUMPTION: Revenue projections are achievable given current market conditions and tax obligations.");
    (["loan"; "bank"; "financing"; "credit"; "borrow"],
     "[Financial] ASSUMPTION: Bank financing is available at the assumed interest rate and terms.");
    (["diesel"; "fuel"; "petrol"; "energy"],
     "[Operational] ASSUMPTION: Fuel costs will remain stable at the assumed price level.");
    (["transport"; "delivery"; "logistics"; "fleet"; "road"],
     "[Operational] ASSUMPTION: Transport routes will remain passable year-round without significant disruption.");
    (["tax"; "vat"; "turnover tax"],
     "[Regulatory] ASSUMPTION: The business qualifies for the assumed tax regime and rates.");
    (["farm"; "agriculture"; "crop"; "harvest"; "maize"],
     "[Market] ASSUMPTION: Agricultural commodity prices will meet the projected levels.");
    (["mine"; "mining"; "copper"; "mineral"],
     "[Regulatory] ASSUMPTION: Mining licenses and permits can be obtained within the projected timeline.");
    (["employee"; "staff"; "worker"; "hire"; "salary"],
     "[Operational] ASSUMPTION: Labor costs align with the assumed wage levels and statutory contributions are accounted for.");
    (["import"; "export"; "customs"],
     "[Regulatory] ASSUMPTION: Import/export duties and fees are correctly estimated in the financial model.");
    (["app"; "digital"; "online"; "mobile"; "software"],
     "[Regulatory] ASSUMPTION: All digital/telecom licensing and data protection requirements are met.");
    (["property"; "land"; "building"; "premises"],
     "[Financial] ASSUMPTION: Property costs (rent/purchase/transfer) match the assumed levels.");
    (["western"; "northern"; "rural"; "province"],
     "[Environmental] ASSUMPTION: Geographic and seasonal conditions will not materially impact operations.");
    (["margin"; "profit"; "net"],
     "[Financial] ASSUMPTION: Projected profit margins are achievable after accounting for all costs and regulatory burdens.") ].

(** The thirteen [if any(w in plan_lower for w in [...])] statements in
    their order, then the two defaults when nothing was added. *)
Definition _extract_assumptions_rule_based (plan : string) : list string :=
  let plan_lower := Str.lower plan in
  let assumptions :=
    fold_left
      (fun assumptions '(ws, a) =>
         if Str.any_in ws plan_lower then assumptions ++ [a] else assumptions)
      EXTRACTION_RULES [] in
  match assumptions with
  | [] =>
      [ "[Financial] ASSUMPTION: The business plan's financial projections are realistic given Zambian market conditions.";
        "[Regulatory] ASSUMPTION: All necessary licenses, permits, and regulatory requirements have been identified." ]
  | _ :: _ => assumptions
  end.

Definition extraction_result (assumptions : list string) : Update :=
  {| u_assumption_tree := Some assumptions;
     u_reality_context := None; u_reality_citations := None;
     u_critique_history := None; u_defense_history := None;
     u_plan_status := Some UNDER_REVIEW;
     u_critique_severity := None; u_revision_count := None;
     u_human_override := None; u_awaiting_human := None |}.

Definition extract_assumptions (env : Env) (call : nat) (state : AgentState)
  : W Update :=
  let plan := business_plan state in
  let fallback := extraction_result (_extract_assumptions_rule_based plan) in
  r <- call_claude env Extraction call ;;
  match r with
  | Response response =>
      match assumption_lines env response with
      | [] => ret fallback
      | (_ :: _) as assumptions => ret (extraction_result assumptions)
      end
  | NoAPIKeyError => ret fallback
  | Raised => tell (Warning Extraction) ;;; ret fallback
  end.

(* ================================================================= *)
(** ** agents/adversary.py *)

(** The three-way update of [max_severity] after each critique. *)
Definition raise_severity (max_severity sev : CritiqueSeverity)
  : CritiqueSeverity :=
  match sev with
  | FATAL => FATAL
  | MAJOR => match max_severity with FATAL => max_severity | _ => MAJOR end
  | MINOR => match max_severity with NONE => MINOR | _ => max_severity end
  | NONE => max_severity
  end.

(** The [if / elif] chain on one assumption. *)
Definition rule_based_critique (reality_lower assumption : string) : Critique :=
  let assumption_lower := Str.lower assumption in
  if Str.contains "fuel" assumption_lower && Str.contains "k25" reality_lower
  then {| fracture := assumption;
          reality := "Diesel is K25.11/litre with 5-8% monthly volatility. Fixed fuel cost assumptions are unreliable.";
          citation := "ERB Q1 2025 Price Schedule";
          verdict := MAJOR;
          impact := "Fuel cost variance could erode margins by 5-15% annually." |}
  else if Str.contains "tax" assumption_lower
          && Str.contains "turnover" reality_lower
  then {| fracture := assumption;
          reality := "Turnover Tax is 5% on gross revenue with NO deductions. If revenue exceeds ZMW 5M, CIT at 30% applies.";
          citation := "ZRA 2025 Tax Guide";
          verdict := MAJOR;
          impact := "Tax miscalculation could increase tax burden by 200-500%." |}
  else if Str.contains "transport" assumption_lower
          || Str.contains "logistics" assumption_lower
          || Str.contains "road" assumption_lower
  then {| fracture := assumption;
          reality := "40-60% of rural roads are impassable during rainy season (Nov-Apr). La Niña flooding confirmed for 2025.";
          citation := "Road Development Agency 2025";
          verdict := FATAL;
          impact := "Complete supply chain disruption for 2-6 weeks per flood event." |}
  else if Str.contains "financ" assumption_lower
          || Str.contains "loan" assumption_lower
          || Str.contains "bank" assumption_lower
  then {| fracture := assumption;
          reality := "SME lending rates are 24-32%, not typical plan assumptions of 10-15%. Collateral requirement is 150-200% of loan value.";
          citation := "Bankers Association Survey 2025";
          verdict := MAJOR;
          impact := "Debt servicing costs likely 2-3x higher than projected." |}
  else if Str.contains "margin" assumption_lower
          || Str.contains "profit" assumption_lower
  then {| fracture := assumption;
          reality := "With inflation at 11%, fuel volatility of 5-8%, and lending rates of 24-32%, single-digit margins are extremely fragile.";
          citation := "ZamStats CPI Report + BoZ Policy Rate 2025";
          verdict := MAJOR;
          impact := "Projected margins may turn negative within 6 months under stress conditions." |}
  else {| fracture := assumption;
          reality := "This assumption requires further verification against current Zambian regulatory and economic conditions.";
          citation := "General regulatory framework";
          verdict := MINOR;
          impact := "Potential unquantified risk to business operations." |}.

(** The maximum severity a loop over [critiques] leaves in
    [max_severity], started at [NONE]. *)
Definition max_severity_of (critiques : list Critique) : CritiqueSeverity :=
  fold_left (fun m c => raise_severity m (verdict c)) critiques NONE.

(** The dictionary both strategies return. *)
Definition critique_result (state : AgentState) (critiques : list Critique)
  : Update :=
  let max_severity := max_severity_of critiques in
  {| u_assumption_tree := None; u_reality_context := None;
     u_reality_citations := None;
     u_critique_history :=
       Some [ {| round := (revision_count state + 1)%Z;
                 critiques := critiques |} ];
     u_defense_history := None;
     u_plan_status :=
       Some (match max_severity with FATAL => BROKEN | _ => UNDER_REVIEW end);
     u_critique_severity := Some max_severity;
     u_revision_count := None; u_human_override := None;
     u_awaiting_human := None |}.

Definition _adversary_critique_rule_based (state : AgentState) : Update :=
  let assumptions := assumption_tree state in
  let reality_lower := Str.lower (reality_context state) in
  critique_result state (map (rule_based_critique reality_lower) assumptions).

(** [block.get("verdict", "MINOR").upper().strip()] and the two
    containment tests; stripping blanks at the ends does not change
    whether [FATAL] or [MAJOR] occurs. *)
Definition block_severity (b : Block) : CritiqueSeverity :=
  let verdict_str := Str.upper (get (b_verdict b) "MINOR") in
  if Str.contains "FATAL" verdict_str then FATAL
  else if Str.contains "MAJOR" verdict_str then MAJOR
  else MINOR.

Definition block_critique (b : Block) : Critique :=
  {| fracture := get (b_fracture b) "Unknown assumption";
     reality := get (b_reality b) "";
     citation := get (b_citation b) "";
     verdict := block_severity b;
     impact := get (b_impact b) "" |}.

Definition adversary_critique (env : Env) (call : nat) (state : AgentState)
  : W Update :=
  r <- call_claude env Critiquing call ;;
  match r with
  | Response response =>
      let blocks := parse_structured_response env response in
      match map block_critique blocks with
      | [] => ret (_adversary_critique_rule_based state)
      | (_ :: _) as critiques => ret (critique_result state critiques)
      end
  | NoAPIKeyError => ret (_adversary_critique_rule_based state)
  | Raised =>
      tell (Warning Critiquing) ;;; ret (_adversary_critique_rule_based state)
  end.

(* ================================================================= *)
(** ** agents/proponent.py *)

Definition rule_based_defense (c : Critique) : Defense :=
  match verdict c with
  | FATAL =>
      {| response_to := fracture c;
         defense := Some "ACCEPTED — this is a critical flaw requiring fundamental plan restructuring.";
         revision := Some "Conduct detailed feasibility study addressing this specific risk before proceeding.";
         mitigation := Some "Engage local consultants with sector-specific expertise to redesign this component." |}
  | MAJOR =>
      {| response_to := fracture c;
         defense := Some "Partially accepted — the critique identifies a real risk but the impact may be mitigable.";
         revision := Some "Revise financial model to incorporate realistic cost assumptions from the cited sources.";
         mitigation := Some "Build contingency buffer of 20-30% on affected cost lines and develop alternative supply chains." |}
  | _ =>
      {| response_to := fracture c;
         defense := Some "Noted — this is a minor optimization opportunity rather than a fundamental flaw.";
         revision := Some "No major revision needed; will incorporate into detailed planning phase.";
         mitigation := Some "Monitor this factor and adjust operations as needed." |}
  end.

Definition defense_result (state : AgentState) (ds : list Defense) : Update :=
  {| u_assumption_tree := None; u_reality_context := None;
     u_reality_citations := None; u_critique_history := None;
     u_defense_history :=
       Some [ {| defense_round := (revision_count state + 1)%Z;
                 defenses := ds |} ];
     u_plan_status := None; u_critique_severity := None;
     u_revision_count := None; u_human_override := None;
     u_awaiting_human := None |}.

(** [critiques[-1] if critiques else {"critiques": []}], then its items. *)
Definition latest_critiques (state : AgentState) : list Critique :=
  match rev (critique_history state) with
  | latest :: _ => critiques latest
  | [] => []
  end.

Definition _proponent_revise_rule_based (state : AgentState) : Update :=
  defense_result state (map rule_based_defense (latest_critiques state)).

Definition proponent_revise (env : Env) (call : nat) (state : AgentState)
  : W Update :=
  r <- call_claude env Defending call ;;
  match r with
  | Response response =>
      match defense_blocks env response with
      | [] => ret (_proponent_revise_rule_based state)
      | (_ :: _) as ds => ret (defense_result state ds)
      end
  | NoAPIKeyError => ret (_proponent_revise_rule_based state)
  | Raised =>
      tell (Warning Defending) ;;; ret (_proponent_revise_rule_based state)
  end.

(* ================================================================= *)
(** ** agents/judge.py *)

Definition judge_result (status : PlanStatus) (awaiting : bool)
  (note : option string) (count : option Z) : Update :=
  {| u_assumption_tree := None; u_reality_context := None;
     u_reality_citations := None; u_critique_history := None;
     u_defense_history := None;
     u_plan_status := Some status;
     u_critique_severity := None;
     u_revision_count := count;
     u_human_override := note;
     u_awaiting_human := Some awaiting |}.

Definition CAP_FATAL_NOTE (max_revisions : Z) : string :=
  "Max revisions (" ++ Str.of_Z max_revisions
  ++ ") reached with FATAL issues unresolved.".

Definition CAP_NOTE (max_revisions : Z) : string :=
  "Max revisions (" ++ Str.of_Z max_revisions
  ++ ") reached. Plan needs external review.".

Definition FATAL_NOTE : string :=
  "FATAL critique detected — human review required before proceeding.".

(** The rule-based judgment at the end of [human_judge]. *)
Definition judge_fallback (critique_severity : CritiqueSeverity)
  (revision_count : Z) : Update :=
  match critique_severity with
  | MINOR => judge_result VALIDATED false None (Some revision_count)
  | _ => judge_result NEEDS_REVISION false None (Some (revision_count + 1)%Z)
  end.

Definition human_judge (env : Env) (call : nat) (state : AgentState)
  : W Update :=
  let critique_severity := critique_severity state in
  let revision_count := revision_count state in
  let max_revisions := max_revisions state in
  if (max_revisions <=? revision_count)%Z then
    match critique_severity with
    | FATAL =>
        ret (judge_result BROKEN true (Some (CAP_FATAL_NOTE max_revisions)) None)
    | _ =>
        ret (judge_result BROKEN true (Some (CAP_NOTE max_revisions))
                          (Some revision_count))
    end
  else
    match critique_severity with
    | FATAL =>
        ret (judge_result BROKEN true (Some FATAL_NOTE) (Some revision_count))
    | _ =>
        r <- call_claude env Judging call ;;
        match r with
        | Response response =>
            match search_verdict env response with
            | Some V_VALIDATED =>
                ret (judge_result VALIDATED false None (Some revision_count))
            | Some V_BROKEN =>
                ret (judge_result BROKEN true (Some response)
                                  (Some revision_count))
            | Some V_NEEDS_REVISION =>
                ret (judge_result NEEDS_REVISION false None
                                  (Some (revision_count + 1)%Z))
            | None => ret (judge_fallback critique_severity revision_count)
            end
        | NoAPIKeyError =>
            ret (judge_fallback critique_severity revision_count)
        | Raised =>
            tell (Warning Judging) ;;;
            ret (judge_fallback critique_severity revision_count)
        end
    end.

(* ================================================================= *)
(** ** graph.py *)

Inductive Route :=
  | route_end
  | route_proponent_revise
  | route_human_judge
  | route_adversary_critique.

Definition should_continue (state : AgentState) : Route :=
  match critique_severity state with
  | FATAL => route_end
  | MAJOR => route_proponent_revise
  | _ => route_human_judge
  end.

Definition route_after_judge (state : AgentState) : Route :=
  match plan_status state with
  | VALIDATED | BROKEN => route_end
  | _ => route_adversary_critique
  end.

(** An assignment to the state dictionary; the new value is observable. *)
Definition assign (f : AgentState -> AgentState) (state : AgentState)
  : W AgentState :=
  let state' := f state in (state', [Store state']).

(** One pass through the body of the debate loop; the boolean tells
    whether the body left the loop by [break]. *)
Definition loop_body (env : Env) (i : nat) (state : AgentState)
  : W (AgentState * bool) :=
  tell (Enter Node_adversary_critique) ;;;
  critique_result <- adversary_critique env i state ;;
  state <- assign (set_critique_history
                     (critique_history state
                      ++ get (u_critique_history critique_result) [])) state ;;
  state <- assign (set_critique_severity
                     (get (u_critique_severity critique_result)
                          (critique_severity state))) state ;;
  state <- assign (set_plan_status
                     (get (u_plan_status critique_result)
                          (plan_status state))) state ;;
  match should_continue state with
  | route_end => ret (state, true)
  | route =>
      state <-
        match route with
        | route_proponent_revise =>
            tell (Enter Node_proponent_revise) ;;;
            revise_result <- proponent_revise env i state ;;
            assign (set_defense_history
                      (defense_history state
                       ++ get (u_defense_history revise_result) [])) state
        | _ => ret state
        end ;;
      tell (Enter Node_human_judge) ;;;
      judge_result <- human_judge env i state ;;
      state <- assign (fun s => state_update s judge_result) state ;;
      match route_after_judge state with
      | route_end => ret (state, true)
      | _ => ret (state, false)
      end
  end.

(** [for _ in range(state["max_revisions"] + 1): ...] *)
Fixpoint debate_loop (env : Env) (iterations : list nat) (state : AgentState)
  : W AgentState :=
  match iterations with
  | [] => ret state
  | i :: rest =>
      r <- loop_body env i state ;;
      let '(state, stop) := r in
      if stop then ret state else debate_loop env rest state
  end.

(** The dictionary passed to [MockAssumeBreakGraph.invoke]: any key may
    be missing. *)
Record StateDict := {
  d_business_plan : option string;
  d_assumption_tree : option (list string);
  d_reality_context : option string;
  d_reality_citations : option (list string);
  d_critique_history : option (list CritiqueRound);
  d_defense_history : option (list DefenseRound);
  d_plan_status : option PlanStatus;
  d_critique_severity : option CritiqueSeverity;
  d_revision_count : option Z;
  d_max_revisions : option Z;
  d_human_override : option string;
  d_awaiting_human : option bool
}.

(** The six [setdefault] calls.  The other keys are read through
    [state.get(key, default)], and [plan_status] is written by the
    extraction before it is read: a missing key is represented by the
    value its readers see. *)
Definition setdefaults (d : StateDict) : AgentState :=
  {| business_plan := get (d_business_plan d) "";
     assumption_tree := get (d_assumption_tree d) [];
     reality_context := get (d_reality_context d) "";
     reality_citations := get (d_reality_citations d) [];
     critique_history := get (d_critique_history d) [];
     defense_history := get (d_defense_history d) [];
     plan_status := get (d_plan_status d) DRAFT;
     critique_severity := get (d_critique_severity d) NONE;
     revision_count := get (d_revision_count d) 0%Z;
     max_revisions := get (d_max_revisions d) 3%Z;
     human_override := get (d_human_override d) "";
     awaiting_human := get (d_awaiting_human d) false |}.

(** [class MockAssumeBreakGraph] *)
Module MockAssumeBreakGraph.

Definition invoke (env : Env) (d : StateDict) : W AgentState :=
  let state := setdefaults d in
  tell (Store state) ;;;
  tell (Enter Node_extract_assumptions) ;;;
  u <- extract_assumptions env 0 state ;;
  state <- assign (fun s => state_update s u) state ;;
  tell (Enter Node_retrieve_reality) ;;;
  state <- assign (fun s =>
                     state_update s
                       (fetch_reality (SequenceMatcher_ratio env)
                          (format_1f env) (ZAMBIAN_REALITY_DATABASE env) s))
                  state ;;
  debate_loop env (range (max_revisions state + 1)) state.

End MockAssumeBreakGraph.

Definition initial_state (business_plan : string) (max_revisions : Z)
  : StateDict :=
  {| d_business_plan := Some business_plan;
     d_assumption_tree := Some [];
     d_reality_context := Some "";
     d_reality_citations := Some [];
     d_critique_history := Some [];
     d_defense_history := Some [];
     d_plan_status := Some DRAFT;
     d_critique_severity := Some NONE;
     d_revision_count := Some 0%Z;
     d_max_revisions := Some max_revisions;
     d_human_override := Some "";
     d_awaiting_human := Some false |}.

(** [build_assume_break_graph] where langgraph is not installed: the
    import fails, the function warns and returns the mock graph.  The
    compiled graph of an installed langgraph is run by that library and
    is not part of this development. *)
Definition build_assume_break_graph : W unit :=
  tell (GraphWarning LanggraphMissing).

(** [stress_test_plan] where langgraph is not installed.  The graph it
    builds is the mock; [graph.invoke(initial_state, config=config)]
    raises [TypeError] before the body runs, the mock's [invoke] having
    no [config] parameter; the [except] branch warns and invokes a new
    mock on the same initial state. *)
Definition stress_test_plan (env : Env) (business_plan : string)
  (max_revisions : option Z) : W StressTestResult :=
  let max_revisions := get max_revisions (settings_max_revisions env) in
  build_assume_break_graph ;;;
  tell (GraphWarning GraphExecutionFailed) ;;;
  final_state <- MockAssumeBreakGraph.invoke env
                   (initial_state business_plan max_revisions) ;;
  ret {| r_plan_status := plan_status final_state;
         r_critique_severity := critique_severity final_state;
         r_assumptions := assumption_tree final_state;
         r_critiques := critique_history final_state;
         r_defenses := defense_history final_state;
         r_reality_citations := reality_citations final_state;
         r_revision_count := revision_count final_state;
         raw_state := final_state |}.

(* ================================================================= *)
(** ** A concrete world for the examples *)

Module Offline.

(** Three facts of [reality/database.py]. *)
Definition database : list RealityFact :=
  [ {| category := "TAX";
       fact := "Turnover Tax (TOT) applies to businesses with annual turnover ≤ ZMW 5,000,000 at a flat rate of 5% on gross revenue. No deductions for expenses are allowed under TOT.";
       source := "Zambia Revenue Authority – 2025 Tax Guide";
       effective_date := "2025-01-01";
       keywords := ["turnover"; "tax"; "tot"; "revenue"; "small business";
                    "5%"; "zmw"] |};
    {| category := "ENERGY";
       fact := "Fuel pump prices as of Q1 2025: Petrol K29.92/litre, Diesel K25.11/litre. Prices are set by the Energy Regulation Board (ERB) and adjusted monthly based on international crude oil prices and ZMW/USD exchange rate.";
       source := "Energy Regulation Board – Q1 2025 Price Schedule";
       effective_date := "2025-01-15";
       keywords := ["fuel"; "petrol"; "diesel"; "price"; "erb"; "energy";
                    "pump"] |};
    {| category := "LOGISTICS";
       fact := "Rural feeder roads in Western and Northern provinces are unpaved. During rainy season (Nov-Apr), 40-60% of rural roads become impassable. Cold chain logistics impossible without 4x4 vehicles.";
       source := "Road Development Agency – Network Status Report 2025";
       effective_date := "2025-01-01";
       keywords := ["road"; "rural"; "feeder"; "unpaved"; "rainy"; "season";
                    "4x4"; "western"; "northern"] |} ].

(** One decimal, ties to even, for a score that is not negative. *)
Definition one_decimal (q : Q) : string :=
  let n := (20 * Qnum q)%Z in
  let d := Zpos (Qden q) in
  let t := (n / (2 * d))%Z in
  let r := (n mod (2 * d))%Z in
  let t := if (d <? r)%Z then (t + 1)%Z
           else if (r =? d)%Z && Z.odd t then (t + 1)%Z else t in
  (Str.of_Z (t / 10) ++ "." ++ Str.of_Z (t mod 10))%string.

(** No API key is configured: every capability runs its rule-based
    strategy. *)
Definition env : Env :=
  {| anthropic_api_key := "";
     settings_max_revisions := 3%Z;
     messages_create := fun _ _ _ => OtherError;
     SequenceMatcher_ratio := Difflib.ratio;
     format_1f := one_decimal;
     ZAMBIAN_REALITY_DATABASE := database;
     assumption_lines := fun _ => [];
     parse_structured_response := fun _ => [];
     defense_blocks := fun _ => [];
     search_verdict := fun _ => None |}.

(** A key is configured and the oracle always answers with [reply],
    in which the parsers find nothing. *)
Definition env_unparsed (reply : string) : Env :=
  {| anthropic_api_key := "sk-test";
     settings_max_revisions := 3%Z;
     messages_create := fun _ _ _ => Text reply;
     SequenceMatcher_ratio := Difflib.ratio;
     format_1f := one_decimal;
     ZAMBIAN_REALITY_DATABASE := database;
     assumption_lines := fun _ => [];
     parse_structured_response := fun _ => [];
     defense_blocks := fun _ => [];
     search_verdict := fun _ => None |}.

End Offline.

(* ================================================================= *)
(** ** Specification of the score (claim C4) *)

(** The score as one contribution per keyword, then the category boost.
    As in the code, the keyword is put in lower case before it is
    compared; the claim does not say so, see [claimed_keyword_points]
    below. *)
Definition keyword_points (ratio : string -> string -> Q)
  (plan_tokens : list string) (keyword : string) : Q :=
  let keyword_lower := Str.lower keyword in
  if Str.mem keyword_lower plan_tokens then 3.0
  else if Qle_bool 0.65 (ratio keyword_lower (String.concat " " plan_tokens))
  then 1.5
  else if existsb (fun token =>
                     (4 <=? String.length token)%nat
                     && (4 <=? String.length keyword_lower)%nat
                     && Qle_bool 0.75 (ratio keyword_lower token))
                  plan_tokens
  then 0.75
  else 0.

Definition category_points (f : RealityFact) (detected : list string) : Q :=
  if Str.mem (category f) detected then 2.0 else 0.

Fixpoint Qsum (l : list Q) : Q :=
  match l with
  | [] => 0
  | x :: r => x + Qsum r
  end.

Definition spec_score ratio (f : RealityFact) plan_tokens detected : Q :=
  Qsum (map (keyword_points ratio plan_tokens) (keywords f))
  + category_points f detected.

(** The contribution of a keyword as claim C4 words it: the keyword
    itself, as the fact holds it, is compared with the tokens. *)
Definition claimed_keyword_points (ratio : string -> string -> Q)
  (plan_tokens : list string) (keyword : string) : Q :=
  if Str.mem keyword plan_tokens then 3.0
  else if Qle_bool 0.65 (ratio keyword (String.concat " " plan_tokens))
  then 1.5
  else if existsb (fun token =>
                     (4 <=? String.length token)%nat
                     && (4 <=? String.length keyword)%nat
                     && Qle_bool 0.75 (ratio keyword token))
                  plan_tokens
  then 0.75
  else 0.

Definition claimed_score ratio (f : RealityFact) plan_tokens detected : Q :=
  Qsum (map (claimed_keyword_points ratio plan_tokens) (keywords f))
  + category_points f detected.

(** A fact whose keyword is written in capitals. *)
Definition vat_fact : RealityFact :=
  {| category := "ENERGY";
     fact := "Fuel is subject to VAT.";
     source := "ZRA";
     effective_date := "2024";
     keywords := ["VAT"] |}.

(** What the first pass adds for one keyword. *)
Definition exact_points tokens (keyword : string) : Q :=
  if Str.mem (Str.lower keyword) tokens then 3.0 else 0.

(** What the second pass adds for one keyword. *)
Definition fuzzy_points ratio tokens (keyword : string) : Q :=
  let k := Str.lower keyword in
  if Str.mem k tokens then 0
  else if Qle_bool 0.65 (ratio k (String.concat " " tokens)) then 1.5
  else if existsb (fun token =>
                     (4 <=? String.length token)%nat
                     && (4 <=? String.length k)%nat
                     && Qle_bool 0.75 (ratio k token)) tokens
  then 0.75 else 0.

(* ================================================================= *)
(** ** Ranking (claim C7) *)

(** [score > 0] *)
Definition positive {A : Type} (p : A * Q) : bool :=
  if Qlt_le_dec 0 (snd p) then true else false.

(** [p] has score [s] *)
Definition tie {A : Type} (s : Q) (p : A * Q) : bool := Qeq_bool (snd p) s.

(** Scores never increase along the list. *)
Definition descending {A : Type} (l : list (A * Q)) : Prop :=
  StronglySorted (fun a b => snd b <= snd a) l.

(** Every fact of the corpus with its score, in corpus order. *)
Definition scored_corpus ratio (database : list RealityFact)
  (plan_text : string) : list (RealityFact * Q) :=
  map (fun f => (f, _score_fact ratio f (_tokenize plan_text)
                                (_detect_categories plan_text)))
      database.

(* ================================================================= *)
(** ** Empty input (claim C8) *)

(** A fact whose only keyword is the empty string. *)
Definition blank_keyword_fact : RealityFact :=
  {| category := "TAX"; fact := "Test fact"; source := "Test";
     effective_date := "2025-01-01"; keywords := [""] |}.

(** No keyword of [f] is the empty string. *)
Definition keywords_nonempty (f : RealityFact) : bool :=
  forallb (fun kw => negb (String.eqb kw "")) (keywords f).

(** The ratio of a non-empty string against the empty one stays below
    the fuzzy threshold; [difflib] gives [0.0]. *)
Definition low_against_empty (ratio : string -> string -> Q) : Prop :=
  forall a, a <> "" -> ratio a "" < FUZZY_THRESHOLD.

(** The dictionary [fetch_reality] returns when nothing was retrieved. *)
Definition sentinel_update : Update :=
  {| u_assumption_tree := None;
     u_reality_context := Some NO_MATCH_CONTEXT;
     u_reality_citations := Some [NO_MATCH_CITATION];
     u_critique_history := None; u_defense_history := None;
     u_plan_status := None; u_critique_severity := None;
     u_revision_count := None; u_human_override := None;
     u_awaiting_human := None |}.

(* ================================================================= *)
(** ** Observing a run *)

(** An event of the oracle layer of capability [c]. *)
Definition oracle_event (c : Capability) (e : Event) : Prop :=
  match e with
  | Request c' _ _ | Warning c' => c' = c
  | _ => False
  end.

Definition is_request (e : Event) : Prop :=
  match e with Request _ _ _ => True | _ => False end.

Definition Node_eqb (a b : Node) : bool :=
  match a, b with
  | Node_extract_assumptions, Node_extract_assumptions
  | Node_retrieve_reality, Node_retrieve_reality
  | Node_adversary_critique, Node_adversary_critique
  | Node_proponent_revise, Node_proponent_revise
  | Node_human_judge, Node_human_judge => true
  | _, _ => false
  end.

(** The number of times the graph entered node [n]. *)
Definition entered (n : Node) (evs : list Event) : nat :=
  List.length
    (filter (fun e => match e with
                      | Enter n' => Node_eqb n n'
                      | _ => false
                      end) evs).

(** [awaiting_human] is raised only together with [BROKEN]. *)
Definition escalation_ok (s : AgentState) : Prop :=
  awaiting_human s = true -> plan_status s = BROKEN.

(** Some critique of some round is FATAL. *)
Definition has_fatal (history : list CritiqueRound) : Prop :=
  exists rd c, In rd history /\ In c (critiques rd) /\ verdict c = FATAL.

(** The verdicts [human_judge] can return, as updates. *)
Inductive judge_outcome (st : AgentState) : Update -> Prop :=
  | jo_cap_fatal note :
      (max_revisions st <= revision_count st)%Z ->
      judge_outcome st (judge_result BROKEN true (Some note) None)
  | jo_broken note :
      judge_outcome st
        (judge_result BROKEN true (Some note) (Some (revision_count st)))
  | jo_validated :
      (revision_count st < max_revisions st)%Z ->
      judge_outcome st
        (judge_result VALIDATED false None (Some (revision_count st)))
  | jo_needs_revision :
      (revision_count st < max_revisions st)%Z ->
      judge_outcome st
        (judge_result NEEDS_REVISION false None
                      (Some (revision_count st + 1)%Z)).

(** The state after the three assignments that follow the critique. *)
Definition after_critique (st : AgentState) (cs : list Critique) : AgentState :=
  set_plan_status
    (match max_severity_of cs with FATAL => BROKEN | _ => UNDER_REVIEW end)
    (set_critique_severity (max_severity_of cs)
       (set_critique_history
          (critique_history st
           ++ [ {| round := (revision_count st + 1)%Z; critiques := cs |} ])
          st)).

Definition critique_events (st : AgentState) (cs : list Critique)
  (ea : list Event) : list Event :=
  let st1 := set_critique_history
               (critique_history st
                ++ [ {| round := (revision_count st + 1)%Z;
                        critiques := cs |} ]) st in
  let st2 := set_critique_severity (max_severity_of cs) st1 in
  Enter Node_adversary_critique
    :: ea ++ [Store st1; Store st2; Store (after_critique st cs)].

Definition after_defense (st3 : AgentState) (ds : list Defense) : AgentState :=
  set_defense_history
    (defense_history st3
     ++ [ {| defense_round := (revision_count st3 + 1)%Z; defenses := ds |} ])
    st3.

Definition stops (st : AgentState) : bool :=
  match route_after_judge st with route_end => true | _ => false end.

(** What one pass of the loop body does, case by case. *)
Inductive body_run (env : Env) (i : nat) (st : AgentState)
  : AgentState * bool -> list Event -> Prop :=
  | run_fatal cs ea :
      Forall (oracle_event Critiquing) ea ->
      max_severity_of cs = FATAL ->
      body_run env i st (after_critique st cs, true) (critique_events st cs ea)
  | run_major cs ea ds er ju ej :
      Forall (oracle_event Critiquing) ea ->
      max_severity_of cs = MAJOR ->
      Forall (oracle_event Defending) er ->
      let st3 := after_critique st cs in
      let st4 := after_defense st3 ds in
      human_judge env i st4 = (ju, ej) ->
      let st5 := state_update st4 ju in
      body_run env i st (st5, stops st5)
        (critique_events st cs ea
         ++ Enter Node_proponent_revise :: er ++ [Store st4]
         ++ Enter Node_human_judge :: ej ++ [Store st5])
  | run_minor cs ea ju ej :
      Forall (oracle_event Critiquing) ea ->
      max_severity_of cs = MINOR \/ max_severity_of cs = NONE ->
      let st3 := after_critique st cs in
      human_judge env i st3 = (ju, ej) ->
      let st5 := state_update st3 ju in
      body_run env i st (st5, stops st5)
        (critique_events st cs ea
         ++ Enter Node_human_judge :: ej ++ [Store st5]).

(** The state when the debate loop starts. *)
Definition extracted (env : Env) (d : StateDict) : AgentState :=
  state_update (setdefaults d)
    (fst (extract_assumptions env 0 (setdefaults d))).

Definition prepared (env : Env) (d : StateDict) : AgentState :=
  state_update (extracted env d)
    (fetch_reality (SequenceMatcher_ratio env) (format_1f env)
       (ZAMBIAN_REALITY_DATABASE env) (extracted env d)).

(** The events before the loop. *)
Definition prelude (env : Env) (d : StateDict) : list Event :=
  Store (setdefaults d) :: Enter Node_extract_assumptions
  :: snd (extract_assumptions env 0 (setdefaults d))
  ++ [Store (extracted env d); Enter Node_retrieve_reality;
      Store (prepared env d)].

(** The note of the cap gate. *)
Definition cap_note (st : AgentState) : string :=
  match critique_severity st with
  | FATAL => CAP_FATAL_NOTE (max_revisions st)
  | _ => CAP_NOTE (max_revisions st)
  end.

(** The judge's oracle gives no verdict at invocation [call]: no key,
    an error, or a reply in which no verdict is found. *)
Definition no_oracle_verdict (env : Env) (call : nat) : Prop :=
  match fst (call_claude env Judging call) with
  | Response response => search_verdict env response = None
  | _ => True
  end.

(* ================================================================= *)
(** ** Capabilities, uniformly (claim C6) *)

(** The ways a primary strategy fails to produce a result. *)
Inductive PrimaryFailure := CredentialsAbsent | OracleError | NothingParsed.

(** Nothing usable is found in the oracle's reply. *)
Definition parsed_nothing (env : Env) (c : Capability) (response : string)
  : bool :=
  match c with
  | Extraction =>
      match assumption_lines env response with [] => true | _ => false end
  | Critiquing =>
      match parse_structured_response env response with
      | [] => true | _ => false
      end
  | Defending =>
      match defense_blocks env response with [] => true | _ => false end
  | Judging =>
      match search_verdict env response with None => true | _ => false end
  end.

Definition primary_failure (env : Env) (c : Capability) (call : nat)
  : option PrimaryFailure :=
  match fst (call_claude env c call) with
  | NoAPIKeyError => Some CredentialsAbsent
  | Raised => Some OracleError
  | Response response =>
      if parsed_nothing env c response then Some NothingParsed else None
  end.

Definition run_capability (env : Env) (c : Capability) (call : nat)
  (st : AgentState) : W Update :=
  match c with
  | Extraction => extract_assumptions env call st
  | Critiquing => adversary_critique env call st
  | Defending => proponent_revise env call st
  | Judging => human_judge env call st
  end.

Definition fallback_outcome (c : Capability) (st : AgentState) : Update :=
  match c with
  | Extraction =>
      extraction_result (_extract_assumptions_rule_based (business_plan st))
  | Critiquing => _adversary_critique_rule_based st
  | Defending => _proponent_revise_rule_based st
  | Judging => judge_fallback (critique_severity st) (revision_count st)
  end.

(** The judge consults its capability only past its two gates. *)
Definition primary_reached (c : Capability) (st : AgentState) : Prop :=
  match c with
  | Judging =>
      (revision_count st < max_revisions st)%Z /\
      critique_severity st <> FATAL
  | _ => True
  end.

(* ================================================================= *)
(** ** Concrete runs *)

(** The state a run of the plan "we need a loan" ends in, the cap
    being one revision. *)
Definition loan_run : W StressTestResult :=
  stress_test_plan Offline.env "we need a loan" (Some 1%Z).

Definition crop_run : W StressTestResult :=
  stress_test_plan Offline.env "crop" None.

(** An oracle that answers, and in whose answer no block is found. *)
Definition unparsed_env : Env := Offline.env_unparsed "I cannot help with that.".

Definition road_state : AgentState := setdefaults (initial_state "road" 1).

Definition road_run : W StressTestResult :=
  stress_test_plan Offline.env "road" (Some 1%Z).

(* ================================================================= *)
(** ** agents/llm.py: the asynchronous client *)

(** [call_claude_async]: the loop of [call_claude] with the requests
    awaited; [messages_create] stands for the asynchronous transport
    as well.  The settings are read but the key is not tested. *)
Definition call_claude_async (env : Env) (c : Capability) (call : nat)
  : W CallResult :=
  let max_retries := 3%Z in
  retry_loop env c call max_retries (range max_retries).

(* ================================================================= *)
(** ** Observing the oracle layer *)

(** The requests [Request c call 0 .. Request c call (k-1)], in order. *)
Definition requests_upto (c : Capability) (call : nat) (k : nat) : list Event :=
  map (Request c call) (seq 0 k).

(** An error after which [call_claude] tries again, when attempts are
    left: [RateLimitError] or another [APIError]. *)
Definition retryable (r : TransportResult) : Prop :=
  r = RateLimitError \/ r = APIError.

(** A world with credentials whose transport fails twice, with a rate
    limit and then another API error, before it answers. *)
Definition flaky_env : Env :=
  {| anthropic_api_key := "sk-test";
     settings_max_revisions := 3%Z;
     messages_create := fun _ _ attempt =>
       match attempt with
       | O => RateLimitError
       | S O => APIError
       | _ => Text "VERDICT: VALIDATED"
       end;
     SequenceMatcher_ratio := Difflib.ratio;
     format_1f := Offline.one_decimal;
     ZAMBIAN_REALITY_DATABASE := Offline.database;
     assumption_lines := fun _ => [];
     parse_structured_response := fun _ => [];
     defense_blocks := fun _ => [];
     search_verdict := fun _ => None |}.

(** A world with credentials whose transport raises something that is
    not an API error on the second attempt. *)
Definition crashing_env : Env :=
  {| anthropic_api_key := "sk-test";
     settings_max_revisions := 3%Z;
     messages_create := fun _ _ attempt =>
       match attempt with
       | O => APIError
       | _ => OtherError
       end;
     SequenceMatcher_ratio := Difflib.ratio;
     format_1f := Offline.one_decimal;
     ZAMBIAN_REALITY_DATABASE := Offline.database;
     assumption_lines := fun _ => [];
     parse_structured_response := fun _ => [];
     defense_blocks := fun _ => [];
     search_verdict := fun _ => None |}.

(* ================================================================= *)
(** ** Observing texts and tokens *)

(** [all(p(c) for c in s)] *)
Fixpoint all_chars (p : ascii -> bool) (s : string) : bool :=
  match s with
  | EmptyString => true
  | String c r => p c && all_chars p r
  end.

(** A character a token can hold: [a-z], [0-9] or the apostrophe. *)
Definition token_char (c : ascii) : bool :=
  Str.is_lower c || Str.is_digit c || Ascii.eqb c "'"%char.


(** A character that, lower-cased, cannot be part of a token. *)
Definition is_separator (c : ascii) : bool :=
  negb (token_char (Str.lower_char c)).

(** No element occurs twice. *)
Fixpoint nodupb (l : list string) : bool :=
  match l with
  | [] => true
  | x :: r => negb (Str.mem x r) && nodupb r
  end.

(** The two assumptions the rule-based extraction falls back to. *)
Definition DEFAULT_ASSUMPTIONS : list string :=
  [ "[Financial] ASSUMPTION: The business plan's financial projections are realistic given Zambian market conditions.";
    "[Regulatory] ASSUMPTION: All necessary licenses, permits, and regulatory requirements have been identified." ].

(** The rules whose trigger words occur in the plan. *)
Definition fired_rules (plan : string) : list (list string * string) :=
  filter (fun r => Str.any_in (fst r) (Str.lower plan)) EXTRACTION_RULES.

(* ================================================================= *)
(** ** Observing critiques and verdicts *)

(** The order of the severities: NONE < MINOR < MAJOR < FATAL. *)
Definition severity_rank (s : CritiqueSeverity) : nat :=
  match s with
  | NONE => 0
  | MINOR => 1
  | MAJOR => 2
  | FATAL => 3
  end.

(** The critiques the rule-based strategy gives for [state]. *)
Definition rule_based_critiques (state : AgentState) : list Critique :=
  map (rule_based_critique (Str.lower (reality_context state)))
      (assumption_tree state).

(** A defense with its three fields present. *)
Definition complete_defense (d : Defense) : Prop :=
  defense d <> None /\ revision d <> None /\ mitigation d <> None.

(* ================================================================= *)
(** ** Observing retrieval *)

(** The citation [fetch_reality] writes for the fact ranked [i]. *)
Definition citation_of (i : nat) (p : RealityFact * Q) : string :=
  "[" ++ Str.of_nat i ++ "] " ++ source (fst p) ++ " ("
  ++ effective_date (fst p) ++ ")".

(** The citations of a ranked list, numbered from [i]. *)
Fixpoint citations_from (i : nat) (results : list (RealityFact * Q))
  : list string :=
  match results with
  | [] => []
  | p :: rest => citation_of i p :: citations_from (S i) rest
  end.

(** The number of entries of [xs[:k]] for a list of [n] entries. *)
Definition slice_length (k : Z) (n : nat) : nat :=
  if (0 <=? k)%Z then Nat.min (Z.to_nat k) n else (n - Z.to_nat (- k))%nat.

(* ================================================================= *)
(** ** Observing the rounds of a run *)

Definition is_major (s : CritiqueSeverity) : bool :=
  match s with MAJOR => true | _ => false end.

Definition is_fatal (s : CritiqueSeverity) : bool :=
  match s with FATAL => true | _ => false end.

(** The severity of a recorded round. *)
Definition round_severity (rd : CritiqueRound) : CritiqueSeverity :=
  max_severity_of (critiques rd).

(** The round numbers [k+1, k+2, .., k+n]. *)
Definition round_numbers (k n : nat) : list Z :=
  map (fun j => (Z.of_nat j + 1)%Z) (seq k n).

Definition is_requestb (e : Event) : bool :=
  match e with Request _ _ _ => true | _ => false end.

(** The number of requests sent to the oracle. *)
Definition requests (evs : list Event) : nat :=
  List.length (filter is_requestb evs).

(** A request to the oracle, or a warning: of a node whose call to the
    oracle failed, or of [graph.py] itself. *)
Definition is_oracle_eventb (e : Event) : bool :=
  match e with
  | Request _ _ _ | Warning _ | GraphWarning _ => true
  | _ => false
  end.

(** The snapshot [stress_test_plan] builds from the final state. *)
Definition result_of (final_state : AgentState) : StressTestResult :=
  {| r_plan_status := plan_status final_state;
     r_critique_severity := critique_severity final_state;
     r_assumptions := assumption_tree final_state;
     r_critiques := critique_history final_state;
     r_defenses := defense_history final_state;
     r_reality_citations := reality_citations final_state;
     r_revision_count := revision_count final_state;
     raw_state := final_state |}.

(** The state a run of [stress_test_plan] enters the debate loop with. *)
Definition debate_start (env : Env) (business_plan : string)
  (cap : option Z) : AgentState :=
  prepared env
    (initial_state business_plan (get cap (settings_max_revisions env))).

(** No request and no warning of any kind. *)
Definition quiet (evs : list Event) : bool :=
  forallb (fun e => negb (is_oracle_eventb e)) evs.

(** The rounds a debate without credentials records from revision [k]
    on: [n] times the same critiques, and the same defenses. *)
Definition repeated_critique_rounds (cs : list Critique) (k n : nat)
  : list CritiqueRound :=
  map (fun j => {| round := (Z.of_nat j + 1)%Z; critiques := cs |}) (seq k n).

Definition repeated_defense_rounds (cs : list Critique) (k n : nat)
  : list DefenseRound :=
  map (fun j => {| defense_round := (Z.of_nat j + 1)%Z;
                   defenses := map rule_based_defense cs |}) (seq k n).

(** A recorded round that holds a critique, and none without a verdict. *)
Definition substantive_round (rd : CritiqueRound) : Prop :=
  critiques rd <> [] /\ Forall (fun c => verdict c <> NONE) (critiques rd).

(* ================================================================= *)
(** ** Observing the stored states *)

(** The values the state dictionary took, in order. *)
Fixpoint stored (evs : list Event) : list AgentState :=
  match evs with
  | [] => []
  | Store s :: rest => s :: stored rest
  | _ :: rest => stored rest
  end.

(** [b] continues [a]: both histories of [b] extend those of [a] at
    the end, the revision count has not decreased, and the plan and
    the cap are the same. *)
Definition continues (a b : AgentState) : Prop :=
  (exists l, critique_history b = critique_history a ++ l) /\
  (exists l, defense_history b = defense_history a ++ l) /\
  (revision_count a <= revision_count b)%Z /\
  max_revisions b = max_revisions a /\
  business_plan b = business_plan a.

(* ================================================================= *)
(** ** agents/extractor.py: the line filter of the primary strategy *)

(** The ASCII characters [str.strip()] removes and [\s] matches: tab to
    carriage return, the four separators [\x1c..\x1f], and the space. *)
Definition is_space (c : ascii) : bool :=
  let n := nat_of_ascii c in
  ((9 <=? n)%nat && (n <=? 13)%nat) || ((28 <=? n)%nat && (n <=? 32)%nat).

(** [s.lstrip()] *)
Fixpoint lstrip (s : string) : string :=
  match s with
  | EmptyString => EmptyString
  | String c r => if is_space c then lstrip r else s
  end.

(** [s.rstrip()] *)
Fixpoint rstrip (s : string) : string :=
  match s with
  | EmptyString => EmptyString
  | String c r =>
      match rstrip r with
      | EmptyString => if is_space c then EmptyString else String c EmptyString
      | String _ _ as r' => String c r'
      end
  end.

(** [s.strip()] *)
Definition strip (s : string) : string := lstrip (rstrip s).

Definition newline : ascii := "010"%char.

(** [s.split("\n")]: never empty, [[""]] for the empty string. *)
Fixpoint split_newline (s : string) : list string :=
  match s with
  | EmptyString => [EmptyString]
  | String c r =>
      if Ascii.eqb c newline then EmptyString :: split_newline r
      else match split_newline r with
           | x :: xs => String c x :: xs
           | [] => [String c EmptyString]
           end
  end.

(** Matching the literal [p] at the start of [s] under [re.IGNORECASE]:
    what is left of [s], or [None]. *)
Fixpoint skip_ci (p s : string) : option string :=
  match p with
  | EmptyString => Some s
  | String a p' =>
      match s with
      | EmptyString => None
      | String b s' =>
          if Ascii.eqb (Str.lower_char a) (Str.lower_char b)
          then skip_ci p' s' else None
      end
  end.

Definition ASSUMPTION_TAGS : list string :=
  ["Financial"; "Operational"; "Market"; "Regulatory"; "Environmental"].

(** [re.match(r"\[(?:Financial|Operational|Market|Regulatory|Environmental)\]\s*ASSUMPTION:",
    line, re.IGNORECASE)]: one of the tags in brackets, any white
    space, then the marker.  The marker starts with a letter, so the
    greedy [\s*] has one way to match. *)
Definition match_assumption (line : string) : bool :=
  existsb
    (fun tag =>
       match skip_ci ("[" ++ tag ++ "]") line with
       | Some rest =>
           match skip_ci "ASSUMPTION:" (lstrip rest) with
           | Some _ => true
           | None => false
           end
       | None => false
       end)
    ASSUMPTION_TAGS.

(** [for line in response.strip().split("\n"): line = line.strip();
    if re.match(...): assumptions.append(line)] *)
Definition parse_assumption_lines (response : string) : list string :=
  filter match_assumption (map strip (split_newline (strip response))).

(** No line feed occurs in [s]. *)
Definition no_newline (s : string) : bool :=
  all_chars (fun c => negb (Ascii.eqb c newline)) s.

(** A line as the filter returns it: stripped, without a line feed, and
    matching the pattern. *)
Definition assumption_line (l : string) : bool :=
  match_assumption l && String.eqb (strip l) l && no_newline l.

(** A world whose oracle answers every request with [reply], parsed by
    the line filter of the repository. *)
Definition env_replying (reply : string) : Env :=
  {| anthropic_api_key := "sk-test";
     settings_max_revisions := 3%Z;
     messages_create := fun _ _ _ => Text reply;
     SequenceMatcher_ratio := Difflib.ratio;
     format_1f := Offline.one_decimal;
     ZAMBIAN_REALITY_DATABASE := Offline.database;
     assumption_lines := parse_assumption_lines;
     parse_structured_response := fun _ => [];
     defense_blocks := fun _ => [];
     search_verdict := fun _ => None |}.

(* ================================================================= *)
(** * Properties *)

(* ----------------------------------------------------------------- *)
(** ** The score (claim C4) *)

Lemma mem_eqb_sym k tokens :
  Str.mem k tokens = existsb (fun t => String.eqb t k) tokens.
Proof.
  unfold Str.mem. induction tokens as [|t r IH]; simpl; auto.
  now rewrite IH, String.eqb_sym.
Qed.

Lemma exact_loop_eq k tokens s :
  exact_loop k tokens s == s + (if Str.mem k tokens then 3.0 else 0).
Proof.
  rewrite mem_eqb_sym.
  induction tokens as [|t r IH]; cbn [exact_loop existsb].
  - lra.
  - destruct (String.eqb t k); cbn [orb].
    + unfold EXACT_KEYWORD_WEIGHT. lra.
    + exact IH.
Qed.

Lemma token_loop_eq ratio k tokens s :
  token_loop ratio k tokens s ==
  s + (if existsb (fun token =>
                     (4 <=? String.length token)%nat
                     && (4 <=? String.length k)%nat
                     && Qle_bool 0.75 (ratio k token)) tokens
       then 0.75 else 0).
Proof.
  induction tokens as [|t r IH]; cbn [token_loop existsb].
  - lra.
  - destruct ((4 <=? String.length t)%nat && (4 <=? String.length k)%nat);
      cbn [andb orb].
    + destruct (Qle_bool 0.75 (ratio k t)); cbn [orb].
      * unfold FUZZY_KEYWORD_WEIGHT. lra.
      * exact IH.
    + exact IH.
Qed.

Lemma exact_pass_eq tokens kws : forall s,
  fold_left (fun score keyword => exact_loop (Str.lower keyword) tokens score)
            kws s
  == s + Qsum (map (exact_points tokens) kws).
Proof.
  induction kws as [|kw r IH]; intros s; cbn [fold_left map Qsum].
  - lra.
  - rewrite IH, exact_loop_eq. unfold exact_points at 2. lra.
Qed.

Lemma fuzzy_pass_eq ratio tokens kws : forall s,
  fold_left (fuzzy_step ratio tokens (String.concat " " tokens)) kws s
  == s + Qsum (map (fuzzy_points ratio tokens) kws).
Proof.
  induction kws as [|kw r IH]; intros s; cbn [fold_left map Qsum].
  - lra.
  - rewrite IH. unfold fuzzy_step, fuzzy_points at 2.
    destruct (Str.mem (Str.lower kw) tokens); [lra|].
    unfold FUZZY_THRESHOLD, FUZZY_KEYWORD_WEIGHT.
    destruct (Qle_bool 0.65 _); [lra|].
    rewrite token_loop_eq. lra.
Qed.

Lemma points_split ratio tokens kws :
  Qsum (map (exact_points tokens) kws) + Qsum (map (fuzzy_points ratio tokens) kws)
  == Qsum (map (keyword_points ratio tokens) kws).
Proof.
  induction kws as [|kw r IH]; cbn [map Qsum].
  - lra.
  - assert (exact_points tokens kw + fuzzy_points ratio tokens kw
            == keyword_points ratio tokens kw) as H.
    { unfold exact_points, fuzzy_points, keyword_points.
      destruct (Str.mem (Str.lower kw) tokens); [lra|].
      destruct (Qle_bool 0.65 _); [lra|].
      destruct (existsb _ tokens); lra. }
    lra.
Qed.

(** Claim C4, amended.  The score of a fact is the sum over its keywords,
    each taken in lower case, of 3.0 for an exact token match, else 1.5
    when the ratio against the joined tokens is at least 0.65, else
    0.75 when some token of length at least 4 has ratio at least 0.75
    to the keyword of length at least 4 (once per keyword), plus 2.0
    when the fact's category is detected. *)
Theorem score_fact_is_keyword_sum ratio f plan_tokens detected :
  _score_fact ratio f plan_tokens detected
  == spec_score ratio f plan_tokens detected.
Proof.
  unfold _score_fact, spec_score, category_points.
  pose proof (exact_pass_eq plan_tokens (keywords f) 0.0) as He.
  pose proof (fuzzy_pass_eq ratio plan_tokens (keywords f)
                (fold_left (fun score keyword =>
                   exact_loop (Str.lower keyword) plan_tokens score)
                   (keywords f) 0.0)) as Hf.
  pose proof (points_split ratio plan_tokens (keywords f)) as Hs.
  unfold CATEGORY_BOOST_WEIGHT.
  destruct (Str.mem (category f) detected); lra.
Qed.

(** Claim C4 as stated fails for a keyword that is not in lower case:
    on the text "we pay vat" the fact with the keyword "VAT" scores 3.0,
    the keyword being lowered before it is compared with the token
    "vat", where the sum the claim describes is 0. *)
Lemma uppercase_keyword_matches_token :
  _score_fact Difflib.ratio vat_fact
    (_tokenize "we pay vat") (_detect_categories "we pay vat") == 3.0 /\
  claimed_score Difflib.ratio vat_fact
    (_tokenize "we pay vat") (_detect_categories "we pay vat") == 0 /\
  ~ _score_fact Difflib.ratio vat_fact
      (_tokenize "we pay vat") (_detect_categories "we pay vat")
    == claimed_score Difflib.ratio vat_fact
         (_tokenize "we pay vat") (_detect_categories "we pay vat").
Proof.
  split; [vm_compute; reflexivity|]. split; [vm_compute; reflexivity|].
  vm_compute. discriminate.
Qed.

(* ----------------------------------------------------------------- *)
(** ** Ranking (claim C7) *)

Section Ranking.

Context {A : Type}.

Lemma insert_desc_perm (x : A * Q) l : Permutation (insert_desc x l) (x :: l).
Proof.
  induction l as [|y r IH]; cbn [insert_desc]; [reflexivity|].
  destruct (Qlt_le_dec (snd x) (snd y)); [|reflexivity].
  rewrite IH. apply perm_swap.
Qed.

Lemma sort_desc_perm (l : list (A * Q)) : Permutation (sort_desc l) l.
Proof.
  induction l as [|x r IH]; cbn [sort_desc]; [reflexivity|].
  rewrite insert_desc_perm. now constructor.
Qed.

Lemma insert_desc_sorted (x : A * Q) l :
  descending l -> descending (insert_desc x l).
Proof.
  unfold descending.
  induction l as [|y r IH]; intros Hs; cbn [insert_desc].
  - repeat constructor.
  - inversion Hs as [|? ? Hr Hy]; subst.
    destruct (Qlt_le_dec (snd x) (snd y)) as [Hlt|Hle].
    + constructor; [now apply IH|].
      eapply Permutation_Forall; [symmetry; apply insert_desc_perm|].
      constructor; [lra|assumption].
    + constructor; [assumption|].
      constructor; [assumption|].
      eapply Forall_impl; [|exact Hy]. cbv beta. intros; lra.
Qed.

Lemma sort_desc_sorted (l : list (A * Q)) : descending (sort_desc l).
Proof.
  induction l as [|x r IH]; cbn [sort_desc].
  - constructor.
  - now apply insert_desc_sorted.
Qed.

Lemma insert_desc_stable s (x : A * Q) l :
  filter (tie s) (insert_desc x l) = filter (tie s) (x :: l).
Proof.
  induction l as [|y r IH]; cbn [insert_desc]; [reflexivity|].
  destruct (Qlt_le_dec (snd x) (snd y)) as [Hlt|Hle]; [|reflexivity].
  cbn [filter] in *. rewrite IH.
  destruct (tie s x) eqn:Hx, (tie s y) eqn:Hy; try reflexivity.
  unfold tie in *. apply Qeq_bool_iff in Hx, Hy. lra.
Qed.

Lemma sort_desc_stable s (l : list (A * Q)) :
  filter (tie s) (sort_desc l) = filter (tie s) l.
Proof.
  induction l as [|x r IH]; cbn [sort_desc]; [reflexivity|].
  rewrite insert_desc_stable. cbn [filter]. now rewrite IH.
Qed.

Lemma tie_refl (x : A * Q) : tie (snd x) x = true.
Proof. unfold tie. apply Qeq_bool_iff. reflexivity. Qed.

Lemma descending_head_max (x : A * Q) l y :
  descending (x :: l) -> In y (x :: l) -> snd y <= snd x.
Proof.
  intros Hs [->|Hin]; [lra|].
  inversion Hs as [|? ? _ Hall]; subst.
  rewrite Forall_forall in Hall. now apply Hall.
Qed.

(** A list that is descending and keeps the order of equal scores is
    determined by that order. *)
Lemma stable_sorted_unique (l1 : list (A * Q)) : forall l2,
  descending l1 -> descending l2 ->
  (forall s, filter (tie s) l1 = filter (tie s) l2) ->
  l1 = l2.
Proof.
  induction l1 as [|x l1 IH]; intros l2 H1 H2 Hf.
  - destruct l2 as [|y l2]; [reflexivity|].
    specialize (Hf (snd y)). cbn [filter] in Hf.
    rewrite tie_refl in Hf. discriminate.
  - destruct l2 as [|y l2].
    { specialize (Hf (snd x)). cbn [filter] in Hf.
      rewrite tie_refl in Hf. discriminate. }
    assert (In x (y :: l2)) as Hx.
    { pose proof (Hf (snd x)) as E. cbn [filter] in E.
      rewrite tie_refl in E.
      assert (In x (filter (tie (snd x)) (y :: l2))) as I
        by (cbn [filter]; rewrite <- E; now left).
      now apply filter_In in I. }
    assert (In y (x :: l1)) as Hy.
    { pose proof (Hf (snd y)) as E. cbn [filter] in E.
      rewrite tie_refl in E.
      assert (In y (filter (tie (snd y)) (x :: l1))) as I
        by (cbn [filter]; rewrite E; now left).
      now apply filter_In in I. }
    pose proof (descending_head_max _ _ _ H2 Hx) as Lx.
    pose proof (descending_head_max _ _ _ H1 Hy) as Ly.
    assert (tie (snd x) y = true) as Ty
      by (unfold tie; apply Qeq_bool_iff; lra).
    pose proof (Hf (snd x)) as E. cbn [filter] in E.
    rewrite tie_refl, Ty in E. injection E as Exy _. subst y.
    f_equal. apply IH.
    + now inversion H1.
    + now inversion H2.
    + intros s. specialize (Hf s). cbn [filter] in Hf.
      destruct (tie s x); [now injection Hf|exact Hf].
Qed.

End Ranking.

Lemma slice_to_nat {A} (k : nat) (l : list A) :
  slice_to (Z.of_nat k) l = firstn k l.
Proof.
  unfold slice_to.
  destruct (0 <=? Z.of_nat k)%Z eqn:E; [now rewrite Nat2Z.id|].
  apply Z.leb_gt in E. lia.
Qed.

Lemma score_all_filter ratio db tokens cats :
  score_all ratio db tokens cats
  = filter positive (map (fun f => (f, _score_fact ratio f tokens cats)) db).
Proof.
  unfold score_all.
  enough (forall acc,
    fold_left (fun scored f =>
       let score := _score_fact ratio f tokens cats in
       if Qlt_le_dec 0 score then scored ++ [(f, score)] else scored) db acc
    = acc ++ filter positive
               (map (fun f => (f, _score_fact ratio f tokens cats)) db))
    as H by apply (H []).
  induction db as [|f r IH]; intros acc; cbn [fold_left map filter].
  - now rewrite app_nil_r.
  - rewrite IH. unfold positive at 2. cbn [snd].
    destruct (Qlt_le_dec 0 (_score_fact ratio f tokens cats)).
    + now rewrite <- app_assoc.
    + reflexivity.
Qed.

(** Claim C7.  Retrieval keeps exactly the facts whose score is
    positive, in descending order of score, facts of equal score in
    corpus order, and cuts the list to the first [k] entries (10 by
    default).  That order is the only one with these properties, and
    the result is a function of the input alone. *)
Theorem retrieval_is_stable_ranking ratio database plan_text :
  let kept := filter positive (scored_corpus ratio database plan_text) in
  exists ranked,
    Permutation ranked kept /\
    Forall (fun p => 0 < snd p) ranked /\
    descending ranked /\
    (forall s, filter (tie s) ranked = filter (tie s) kept) /\
    (forall ranked', descending ranked' ->
       (forall s, filter (tie s) ranked' = filter (tie s) kept) ->
       ranked' = ranked) /\
    (forall k : nat,
       retrieve_relevant_facts ratio database plan_text (Z.of_nat k)
       = firstn k ranked) /\
    retrieve_relevant_facts ratio database plan_text TOP_K
    = firstn 10 ranked /\
    (forall plan_text' top_k top_k',
       plan_text' = plan_text -> top_k' = top_k ->
       retrieve_relevant_facts ratio database plan_text' top_k'
       = retrieve_relevant_facts ratio database plan_text top_k).
Proof.
  intros kept. exists (sort_desc kept).
  assert (forall k,
    retrieve_relevant_facts ratio database plan_text k
    = slice_to k (sort_desc kept)) as Hr.
  { intros k. unfold retrieve_relevant_facts.
    now rewrite score_all_filter. }
  repeat split.
  - apply sort_desc_perm.
  - eapply Permutation_Forall; [symmetry; apply sort_desc_perm|].
    apply Forall_forall. intros p Hp. apply filter_In in Hp as [_ Hp].
    unfold positive in Hp. now destruct (Qlt_le_dec 0 (snd p)).
  - apply sort_desc_sorted.
  - intros s. apply sort_desc_stable.
  - intros ranked' Hd Hs. apply stable_sorted_unique.
    + exact Hd.
    + apply sort_desc_sorted.
    + intros s. now rewrite Hs, sort_desc_stable.
  - intros k. now rewrite Hr, slice_to_nat.
  - rewrite Hr. apply (slice_to_nat 10).
  - intros; subst; reflexivity.
Qed.

(* ----------------------------------------------------------------- *)
(** ** Empty input (claim C8) *)

Lemma scan_a_nil a : forall i best, Difflib.scan_a a [] i best = best.
Proof. induction a as [|c a IH]; intros; cbn; [reflexivity|apply IH]. Qed.

Lemma difflib_low_against_empty : low_against_empty Difflib.ratio.
Proof.
  intros a Ha. unfold Difflib.ratio.
  destruct a as [|c a]; [congruence|].
  cbn [list_ascii_of_string List.length Nat.add].
  change (list_ascii_of_string "") with (@nil ascii).
  cbn [List.length]. rewrite Nat.add_0_r.
  cbn [Difflib.matches]. unfold Difflib.find_longest_match.
  rewrite scan_a_nil. cbn [Nat.eqb Z.of_nat Z.mul].
  unfold Qdiv. rewrite Qmult_0_l. reflexivity.
Qed.

Lemma lower_nonempty kw : kw <> "" -> Str.lower kw <> "".
Proof. destruct kw; [congruence|discriminate]. Qed.

Lemma score_empty_tokens ratio f :
  low_against_empty ratio -> keywords_nonempty f = true ->
  _score_fact ratio f [] [] == 0.
Proof.
  intros Hr Hk. unfold _score_fact, keywords_nonempty in *.
  cbn [Str.mem existsb String.concat].
  induction (keywords f) as [|kw r IH]; cbn [fold_left].
  - reflexivity.
  - cbn [forallb] in Hk. apply andb_true_iff in Hk as [Hkw Hk].
    cbn [exact_loop]. unfold fuzzy_step at 2.
    cbn [Str.mem existsb token_loop].
    assert (Qle_bool FUZZY_THRESHOLD (ratio (Str.lower kw) "") = false) as E.
    { destruct (Qle_bool _ _) eqn:E; [|reflexivity].
      apply Qle_bool_iff in E.
      assert (kw <> "") as Hne.
      { intros ->. discriminate. }
      pose proof (Hr _ (lower_nonempty _ Hne)). lra. }
    rewrite E. now apply IH.
Qed.

(* ----------------------------------------------------------------- *)
(** ** The nodes *)

Lemma retry_loop_events env c call m attempts :
  Forall (oracle_event c) (snd (retry_loop env c call m attempts)).
Proof.
  induction attempts as [|a r IH]; cbn [retry_loop]; [constructor|].
  unfold bind, tell, ret in *.
  destruct (messages_create env c call a);
    try (cbn; repeat constructor; fail).
  - destruct (retry_loop env c call m r) as [x l]. cbn in *.
    constructor; [reflexivity|exact IH].
  - destruct (Z.of_nat a <? m - 1)%Z.
    + destruct (retry_loop env c call m r) as [x l]. cbn in *.
      constructor; [reflexivity|exact IH].
    + cbn. repeat constructor.
Qed.

Lemma call_claude_events env c call :
  Forall (oracle_event c) (snd (call_claude env c call)).
Proof.
  unfold call_claude. destruct (String.eqb _ _); [constructor|].
  apply retry_loop_events.
Qed.

Lemma adversary_shape env i st :
  exists cs, fst (adversary_critique env i st) = critique_result st cs.
Proof.
  unfold adversary_critique, bind, tell, ret.
  destruct (call_claude env Critiquing i) as [[response| |] l].
  - destruct (map block_critique _) eqn:E; cbn; eauto.
    unfold _adversary_critique_rule_based; eauto.
  - cbn. unfold _adversary_critique_rule_based; eauto.
  - cbn. unfold _adversary_critique_rule_based; eauto.
Qed.

Lemma adversary_events env i st :
  Forall (oracle_event Critiquing) (snd (adversary_critique env i st)).
Proof.
  unfold adversary_critique, bind, tell, ret.
  pose proof (call_claude_events env Critiquing i) as H.
  destruct (call_claude env Critiquing i) as [[response| |] l]; cbn [snd] in *.
  - destruct (map block_critique _); cbn; now rewrite app_nil_r.
  - cbn. now rewrite app_nil_r.
  - cbn. apply Forall_app; split; [exact H|repeat constructor].
Qed.

Lemma proponent_shape env i st :
  exists ds, fst (proponent_revise env i st) = defense_result st ds.
Proof.
  unfold proponent_revise, bind, tell, ret.
  destruct (call_claude env Defending i) as [[response| |] l].
  - destruct (defense_blocks env response) eqn:E; cbn; eauto.
    unfold _proponent_revise_rule_based; eauto.
  - cbn. unfold _proponent_revise_rule_based; eauto.
  - cbn. unfold _proponent_revise_rule_based; eauto.
Qed.

Lemma proponent_events env i st :
  Forall (oracle_event Defending) (snd (proponent_revise env i st)).
Proof.
  unfold proponent_revise, bind, tell, ret.
  pose proof (call_claude_events env Defending i) as H.
  destruct (call_claude env Defending i) as [[response| |] l]; cbn [snd] in *.
  - destruct (defense_blocks env response); cbn; now rewrite app_nil_r.
  - cbn. now rewrite app_nil_r.
  - cbn. apply Forall_app; split; [exact H|repeat constructor].
Qed.

Lemma judge_events env i st :
  Forall (oracle_event Judging) (snd (human_judge env i st)).
Proof.
  unfold human_judge, bind, tell, ret.
  pose proof (call_claude_events env Judging i) as H.
  destruct (max_revisions st <=? revision_count st)%Z.
  - destruct (critique_severity st); constructor.
  - destruct (critique_severity st); try constructor;
    destruct (call_claude env Judging i) as [[response| |] l]; cbn [snd] in *;
    try (destruct (search_verdict env response) as [[]|]);
    cbn; rewrite ?app_nil_r; try exact H;
    apply Forall_app; split; try exact H; repeat constructor.
Qed.

Lemma judge_outcomes env i st :
  judge_outcome st (fst (human_judge env i st)) /\
  ((max_revisions st <= revision_count st)%Z ->
   u_plan_status (fst (human_judge env i st)) = Some BROKEN).
Proof.
  unfold human_judge, bind, tell, ret.
  destruct (max_revisions st <=? revision_count st)%Z eqn:E.
  - apply Z.leb_le in E.
    destruct (critique_severity st); cbn; split; auto; constructor; auto.
  - apply Z.leb_gt in E. split; [|lia].
    destruct (critique_severity st); cbn; try (constructor; fail);
    destruct (call_claude env Judging i) as [[response| |] l]; cbn [fst];
    try (destruct (search_verdict env response) as [[]|]);
    cbn; constructor; auto.
Qed.

(* ----------------------------------------------------------------- *)
(** ** One pass of the debate loop *)

Lemma loop_body_run env i st :
  body_run env i st (fst (loop_body env i st)) (snd (loop_body env i st)).
Proof.
  unfold loop_body, bind, tell, assign, ret.
  destruct (adversary_shape env i st) as [cs Hcs].
  pose proof (adversary_events env i st) as Hea.
  destruct (adversary_critique env i st) as [cu ea].
  cbn [fst snd] in Hcs, Hea. subst cu.
  cbn [critique_result u_critique_history u_critique_severity u_plan_status get].
  fold (after_critique st cs).
  unfold should_continue.
  change (critique_severity (after_critique st cs)) with (max_severity_of cs).
  destruct (max_severity_of cs) eqn:Hsev.
  - cbn [fst snd app].
    pose proof (run_fatal env i st cs ea Hea Hsev) as R.
    unfold critique_events in R. rewrite Hsev in R. exact R.
  - destruct (proponent_shape env i (after_critique st cs)) as [ds Hds].
    pose proof (proponent_events env i (after_critique st cs)) as Her.
    destruct (proponent_revise env i (after_critique st cs)) as [ru er].
    cbn [fst snd] in Hds, Her. subst ru.
    cbn [defense_result u_defense_history get].
    fold (after_defense (after_critique st cs) ds).
    destruct (human_judge env i (after_defense (after_critique st cs) ds))
      as [ju ej] eqn:Hj.
    pose proof (run_major env i st cs ea ds er ju ej Hea Hsev Her Hj) as R.
    cbn [fst snd app] in *.
    destruct (route_after_judge _) eqn:Hr; unfold stops in R; rewrite Hr in R;
      cbn [app fst snd]; rewrite ?app_nil_r;
      unfold critique_events in *; rewrite ?Hsev in R; cbn [app] in *;
      repeat rewrite <- app_assoc in *; cbn [app] in *; exact R.
  - destruct (human_judge env i (after_critique st cs)) as [ju ej] eqn:Hj.
    pose proof (run_minor env i st cs ea ju ej Hea (or_introl Hsev) Hj) as R.
    cbn [fst snd app] in *.
    destruct (route_after_judge _) eqn:Hr; unfold stops in R; rewrite Hr in R;
      cbn [app fst snd]; rewrite ?app_nil_r;
      unfold critique_events in *; rewrite ?Hsev in R; cbn [app] in *;
      repeat rewrite <- app_assoc in *; cbn [app] in *; exact R.
  - destruct (human_judge env i (after_critique st cs)) as [ju ej] eqn:Hj.
    pose proof (run_minor env i st cs ea ju ej Hea (or_intror Hsev) Hj) as R.
    cbn [fst snd app] in *.
    destruct (route_after_judge _) eqn:Hr; unfold stops in R; rewrite Hr in R;
      cbn [app fst snd]; rewrite ?app_nil_r;
      unfold critique_events in *; rewrite ?Hsev in R; cbn [app] in *;
      repeat rewrite <- app_assoc in *; cbn [app] in *; exact R.
Qed.

Lemma judge_of_run env i st ju ej :
  human_judge env i st = (ju, ej) ->
  judge_outcome st ju /\
  ((max_revisions st <= revision_count st)%Z -> u_plan_status ju = Some BROKEN) /\
  Forall (oracle_event Judging) ej.
Proof.
  intros H. pose proof (judge_outcomes env i st) as [H1 H2].
  pose proof (judge_events env i st) as H3.
  rewrite H in *. cbn [fst snd] in *. auto.
Qed.

Ltac run_cases H :=
  let Hj := fresh "Hj" in
  let Jo := fresh "Jo" in
  let Jc := fresh "Jc" in
  let Je := fresh "Je" in
  inversion H as [cs ea Hea Hsev
                 |cs ea ds er ju ej Hea Hsev Her st3 st4 Hj st5
                 |cs ea ju ej Hea Hsev st3 Hj st5]; subst;
  [ | apply judge_of_run in Hj as (Jo & Jc & Je)
    | apply judge_of_run in Hj as (Jo & Jc & Je) ].

Lemma body_run_state env i st r evs :
  body_run env i st r evs ->
  max_revisions (fst r) = max_revisions st /\
  (snd r = true ->
     (plan_status (fst r) = BROKEN \/ plan_status (fst r) = VALIDATED) /\
     revision_count (fst r) = revision_count st) /\
  (snd r = false ->
     plan_status (fst r) = NEEDS_REVISION /\
     revision_count (fst r) = (revision_count st + 1)%Z /\
     (revision_count st < max_revisions st)%Z /\
     awaiting_human (fst r) = false) /\
  ((max_revisions st <= revision_count st)%Z -> snd r = true) /\
  (awaiting_human st = false -> escalation_ok (fst r)).
Proof.
  intros H. unfold escalation_ok. run_cases H.
  - cbn. rewrite Hsev. cbn. repeat split; auto; try discriminate.
  - subst st5 st4 st3. inversion Jo; subst; cbn in *;
      repeat split; auto; try discriminate; try lia; try congruence.
  - subst st5 st3. inversion Jo; subst; cbn in *;
      repeat split; auto; try discriminate; try lia; try congruence.
Qed.

Lemma oracle_events_no_store c l s :
  Forall (oracle_event c) l -> ~ In (Store s) l.
Proof.
  intros H Hin. rewrite Forall_forall in H. exact (H _ Hin).
Qed.

Lemma entered_app n l1 l2 :
  entered n (l1 ++ l2) = (entered n l1 + entered n l2)%nat.
Proof. unfold entered. now rewrite filter_app, length_app. Qed.

Lemma entered_graph_warning n w evs :
  entered n (GraphWarning w :: evs) = entered n evs.
Proof. reflexivity. Qed.

Lemma entered_oracle n c l : Forall (oracle_event c) l -> entered n l = 0%nat.
Proof.
  unfold entered. induction 1 as [|e l He _ IH]; [reflexivity|].
  destruct e; cbn in *; try contradiction; exact IH.
Qed.

Lemma body_run_history env i st r evs :
  body_run env i st r evs ->
  exists cs dl,
    critique_history (fst r)
    = critique_history st
      ++ [ {| round := (revision_count st + 1)%Z; critiques := cs |} ] /\
    critique_severity (fst r) = max_severity_of cs /\
    (snd r = false -> max_severity_of cs <> FATAL) /\
    (max_severity_of cs = FATAL -> snd r = true) /\
    defense_history (fst r) = defense_history st ++ dl /\
    (List.length dl <= 1)%nat.
Proof.
  intros H. run_cases H.
  - exists cs, []. cbn. rewrite app_nil_r. repeat split; auto; discriminate.
  - exists cs, [ {| defense_round := (revision_count st + 1)%Z;
                    defenses := ds |} ].
    subst st5 st4 st3. inversion Jo; subst; cbn;
      repeat split; auto; congruence.
  - exists cs, []. subst st5 st3. rewrite app_nil_r.
    inversion Jo; subst; cbn; repeat split; auto;
      destruct Hsev; congruence.
Qed.

Ltac in_cases H :=
  repeat match type of H with
         | In _ (_ ++ _) => apply in_app_or in H; destruct H as [H|H]
         | In _ (_ :: _) => destruct H as [H|H]
         | In _ [] => destruct H
         end.

Lemma critique_events_entered st cs ea n :
  Forall (oracle_event Critiquing) ea ->
  entered n (critique_events st cs ea)
  = entered n [Enter Node_adversary_critique].
Proof.
  intros Hea. unfold critique_events.
  change (Enter Node_adversary_critique :: ea ++ ?l)
    with ([Enter Node_adversary_critique] ++ ea ++ l).
  rewrite !entered_app, (entered_oracle n Critiquing ea Hea). cbn. lia.
Qed.

Lemma critique_events_awaiting st cs ea s :
  Forall (oracle_event Critiquing) ea ->
  In (Store s) (critique_events st cs ea) ->
  awaiting_human s = awaiting_human st.
Proof.
  intros Hea Hin. unfold critique_events in Hin. in_cases Hin;
    try discriminate;
    try (destruct (oracle_events_no_store _ _ _ Hea Hin));
    injection Hin as <-; reflexivity.
Qed.

Lemma body_run_entered env i st r evs :
  body_run env i st r evs ->
  entered Node_adversary_critique evs = 1%nat /\
  (entered Node_proponent_revise evs <= 1)%nat /\
  (entered Node_human_judge evs <= 1)%nat.
Proof.
  intros H. run_cases H.
  - rewrite !critique_events_entered by assumption. cbn. lia.
  - change (Enter Node_proponent_revise :: er ++ ?l)
      with ([Enter Node_proponent_revise] ++ er ++ l).
    change (Enter Node_human_judge :: ej ++ ?l)
      with ([Enter Node_human_judge] ++ ej ++ l).
    rewrite !entered_app, !critique_events_entered by assumption.
    rewrite !(entered_oracle _ Defending er Her),
            !(entered_oracle _ Judging ej Je).
    cbn. lia.
  - change (Enter Node_human_judge :: ej ++ ?l)
      with ([Enter Node_human_judge] ++ ej ++ l).
    rewrite !entered_app, !critique_events_entered by assumption.
    rewrite !(entered_oracle _ Judging ej Je).
    cbn. lia.
Qed.

Lemma body_run_stores env i st r evs :
  body_run env i st r evs ->
  awaiting_human st = false ->
  forall s, In (Store s) evs -> escalation_ok s.
Proof.
  intros H Ha s Hin Hs. run_cases H.
  - rewrite (critique_events_awaiting _ _ _ _ Hea Hin) in Hs. congruence.
  - in_cases Hin; try discriminate;
      try (destruct (oracle_events_no_store _ _ _ Her Hin));
      try (destruct (oracle_events_no_store _ _ _ Je Hin)).
    + rewrite (critique_events_awaiting _ _ _ _ Hea Hin) in Hs. congruence.
    + injection Hin as <-. subst st4 st3. cbn in Hs. congruence.
    + injection Hin as <-. subst st5 st4 st3.
      inversion Jo; subst; cbn in *; congruence.
  - in_cases Hin; try discriminate;
      try (destruct (oracle_events_no_store _ _ _ Je Hin)).
    + rewrite (critique_events_awaiting _ _ _ _ Hea Hin) in Hs. congruence.
    + injection Hin as <-. subst st5 st3.
      inversion Jo; subst; cbn in *; congruence.
Qed.

(* ----------------------------------------------------------------- *)
(** ** The debate loop *)

(** Unfolding one iteration of the loop. *)
Lemma debate_loop_cons env i rest st :
  debate_loop env (i :: rest) st
  = let '((st', stop), evs) := loop_body env i st in
    if stop then (st', evs ++ [])
    else (fst (debate_loop env rest st'),
          evs ++ snd (debate_loop env rest st')).
Proof.
  cbn [debate_loop]. unfold bind, ret.
  destruct (loop_body env i st) as [[st' stop] evs].
  destruct stop; [reflexivity|].
  now destruct (debate_loop env rest st').
Qed.

Ltac step_loop env i st :=
  rewrite debate_loop_cons;
  let R := fresh "R" in
  pose proof (loop_body_run env i st) as R;
  destruct (loop_body env i st) as [[?st' ?stop] ?evs];
  cbn [fst snd] in R.

(** From revision [k] with [n >= 1] iterations left up to the cap, the
    loop ends in a terminal status below the cap. *)
Lemma debate_loop_terminal env : forall n k st,
  revision_count st = Z.of_nat k ->
  (max_revisions st + 1)%Z = Z.of_nat (k + n) ->
  (1 <= n)%nat ->
  let st' := fst (debate_loop env (seq k n) st) in
  (plan_status st' = VALIDATED \/ plan_status st' = BROKEN) /\
  (revision_count st' <= max_revisions st')%Z /\
  max_revisions st' = max_revisions st.
Proof.
  induction n as [|n IH]; intros k st Hk Hm Hn; [lia|].
  cbn [seq]. step_loop env k st.
  apply body_run_state in R as (Rm & Rt & Rf & Rc & _). cbn [fst snd] in *.
  destruct stop.
  - cbn [fst]. destruct (Rt eq_refl) as [[?|?] Hr]; repeat split; auto; lia.
  - cbn [fst]. destruct (Rf eq_refl) as (Hs & Hr & Hlt & _).
    destruct (IH (S k) st') as (T1 & T2 & T3); try lia.
    repeat split; auto. congruence.
Qed.

(** States stored by the loop keep [escalation_ok]. *)
Lemma debate_loop_escalation env : forall its st,
  awaiting_human st = false ->
  escalation_ok (fst (debate_loop env its st)) /\
  forall s, In (Store s) (snd (debate_loop env its st)) -> escalation_ok s.
Proof.
  induction its as [|i rest IH]; intros st Ha.
  - cbn. split; [intros H; congruence|intros s []].
  - step_loop env i st.
    pose proof (body_run_state _ _ _ _ _ R) as (_ & _ & Rf & _ & Re).
    pose proof (body_run_stores _ _ _ _ _ R Ha) as Rs.
    cbn [fst snd] in *. destruct stop; cbn [fst snd].
    + split; [auto|]. intros s Hin. rewrite app_nil_r in Hin. auto.
    + destruct (Rf eq_refl) as (_ & _ & _ & Ha').
      destruct (IH st' Ha') as [I1 I2]. split; [exact I1|].
      intros s Hin. apply in_app_or in Hin as [Hin|Hin]; auto.
Qed.

(** Rounds and node entries are bounded by the iterations available. *)
Lemma debate_loop_bounds env : forall its st,
  let r := debate_loop env its st in
  (entered Node_adversary_critique (snd r) <= List.length its)%nat /\
  (entered Node_human_judge (snd r) <= List.length its)%nat /\
  exists cr dr,
    critique_history (fst r) = critique_history st ++ cr /\
    List.length cr = entered Node_adversary_critique (snd r) /\
    defense_history (fst r) = defense_history st ++ dr /\
    (List.length dr <= List.length its)%nat.
Proof.
  induction its as [|i rest IH]; intros st.
  - cbn. repeat split; try lia. exists [], []. now rewrite !app_nil_r.
  - cbv zeta. step_loop env i st.
    pose proof (body_run_history _ _ _ _ _ R)
      as (cs & dl & Hc & _ & _ & _ & Hd & Hdl).
    pose proof (body_run_entered _ _ _ _ _ R) as (Ea & _ & Ej).
    cbn [fst snd] in *. destruct stop; cbn [fst snd List.length].
    + rewrite app_nil_r, Ea. split; [lia|]. split; [lia|].
      exists [ {| round := (revision_count st + 1)%Z; critiques := cs |} ], dl.
      repeat split; auto. lia.
    + destruct (IH st') as (I1 & I2 & cr & dr & I3 & I4 & I5 & I6).
      rewrite !entered_app. split; [lia|]. split; [lia|].
      exists ({| round := (revision_count st + 1)%Z; critiques := cs |} :: cr),
             (dl ++ dr).
      rewrite I3, I5, Hc, Hd, <- !app_assoc. cbn [app List.length].
      rewrite length_app. repeat split; auto; lia.
Qed.

(* ----------------------------------------------------------------- *)
(** ** The run (claims C2, C9, C10) *)

Lemma invoke_unfold env d :
  MockAssumeBreakGraph.invoke env d
  = (fst (debate_loop env (range (max_revisions (prepared env d) + 1))
                      (prepared env d)),
     prelude env d
     ++ snd (debate_loop env (range (max_revisions (prepared env d) + 1))
                         (prepared env d))).
Proof.
  unfold MockAssumeBreakGraph.invoke, prelude, prepared, extracted.
  unfold bind, tell, assign, ret.
  destruct (extract_assumptions env 0 (setdefaults d)) as [u ee].
  cbn [fst snd].
  destruct (debate_loop env _ _) as [st evs]. cbn [fst snd app].
  now rewrite <- app_assoc.
Qed.

Lemma extract_shape env i st :
  exists l, fst (extract_assumptions env i st) = extraction_result l.
Proof.
  unfold extract_assumptions, bind, tell, ret.
  destruct (call_claude env Extraction i) as [[response| |] l].
  - destruct (assumption_lines env response); cbn; eauto.
  - cbn; eauto.
  - cbn; eauto.
Qed.

Lemma extract_events env i st :
  Forall (oracle_event Extraction) (snd (extract_assumptions env i st)).
Proof.
  unfold extract_assumptions, bind, tell, ret.
  pose proof (call_claude_events env Extraction i) as H.
  destruct (call_claude env Extraction i) as [[response| |] l]; cbn [snd] in *.
  - destruct (assumption_lines env response); cbn; now rewrite app_nil_r.
  - cbn. now rewrite app_nil_r.
  - cbn. apply Forall_app; split; [exact H|repeat constructor].
Qed.

Lemma fetch_shape ratio fmt db st :
  exists ctx cits,
    fetch_reality ratio fmt db st
    = {| u_assumption_tree := None;
         u_reality_context := Some ctx;
         u_reality_citations := Some cits;
         u_critique_history := None; u_defense_history := None;
         u_plan_status := None; u_critique_severity := None;
         u_revision_count := None; u_human_override := None;
         u_awaiting_human := None |}.
Proof.
  unfold fetch_reality.
  destruct (retrieve_relevant_facts ratio db (business_plan st) TOP_K);
    [eauto|].
  destruct (render fmt 1 _); eauto.
Qed.

Lemma prepared_fields env d :
  let st0 := setdefaults d in
  let st := prepared env d in
  revision_count st = revision_count st0 /\
  max_revisions st = max_revisions st0 /\
  awaiting_human st = awaiting_human st0 /\
  critique_history st = critique_history st0 /\
  defense_history st = defense_history st0 /\
  awaiting_human (extracted env d) = awaiting_human st0 /\
  plan_status (extracted env d) = UNDER_REVIEW /\
  plan_status st = UNDER_REVIEW.
Proof.
  cbv zeta. unfold prepared, extracted.
  destruct (extract_shape env 0 (setdefaults d)) as [l ->].
  destruct (fetch_shape (SequenceMatcher_ratio env) (format_1f env)
              (ZAMBIAN_REALITY_DATABASE env)
              (state_update (setdefaults d) (extraction_result l)))
    as (ctx & cits & ->).
  cbn. repeat split.
Qed.

Lemma prelude_entered env d n :
  entered n (prelude env d)
  = entered n [Enter Node_extract_assumptions; Enter Node_retrieve_reality].
Proof.
  unfold prelude.
  change (Store ?a :: Enter ?b :: ?l ++ ?r)
    with ([Store a; Enter b] ++ l ++ r).
  rewrite !entered_app,
          (entered_oracle n Extraction _ (extract_events env 0 (setdefaults d))).
  destruct n; reflexivity.
Qed.

Lemma range_length z : List.length (range z) = Z.to_nat z.
Proof. unfold range. apply length_seq. Qed.

(** Claim C2.  For every document and every cap [max_revisions >= 0],
    given or taken from the settings, [stress_test_plan] returns a
    result whose plan status is [VALIDATED] or [BROKEN] and whose
    revision count is at most the cap. *)
Theorem run_ends_decided_within_cap env business_plan cap :
  (0 <= get cap (settings_max_revisions env))%Z ->
  let r := fst (stress_test_plan env business_plan cap) in
  (r_plan_status r = VALIDATED \/ r_plan_status r = BROKEN) /\
  (r_revision_count r <= get cap (settings_max_revisions env))%Z.
Proof.
  intros Hm. unfold stress_test_plan, bind, ret.
  set (m := get cap (settings_max_revisions env)) in *.
  rewrite invoke_unfold. cbn [fst r_plan_status r_revision_count].
  pose proof (prepared_fields env (initial_state business_plan m))
    as (Hrc & Hmax & _).
  change (revision_count (setdefaults (initial_state business_plan m)))
    with 0%Z in Hrc.
  change (max_revisions (setdefaults (initial_state business_plan m)))
    with m in Hmax.
  rewrite Hmax. unfold range.
  destruct (debate_loop_terminal env (Z.to_nat (m + 1)) 0
              (prepared env (initial_state business_plan m)))
    as (T1 & T2 & T3); try lia.
  rewrite T3, Hmax in T2. auto.
Qed.

(** Claim C9.  In every state a run of [stress_test_plan] stores, from
    the initial one on, [awaiting_human = true] implies plan status
    [BROKEN]. *)
Theorem awaiting_human_only_when_broken env business_plan cap :
  forall s,
    In (Store s) (snd (stress_test_plan env business_plan cap)) ->
    awaiting_human s = true -> plan_status s = BROKEN.
Proof.
  intros s. unfold stress_test_plan, build_assume_break_graph, bind, tell, ret.
  set (m := get cap (settings_max_revisions env)).
  rewrite invoke_unfold. cbn [fst snd app]. rewrite app_nil_r.
  pose proof (prepared_fields env (initial_state business_plan m))
    as (_ & _ & Ha & _ & _ & Ha1 & _).
  change (awaiting_human (setdefaults (initial_state business_plan m)))
    with false in Ha, Ha1.
  intros [Hin|[Hin|Hin]]; try discriminate.
  apply in_app_or in Hin as [Hin|Hin].
  - unfold prelude in Hin. in_cases Hin; try discriminate;
      try (destruct (oracle_events_no_store _ _ _
                       (extract_events env 0 _) Hin));
      injection Hin as <-; intros Hs;
      first [rewrite Ha in Hs | rewrite Ha1 in Hs | cbn in Hs]; discriminate.
  - destruct (debate_loop_escalation env
                (range (max_revisions (prepared env (initial_state business_plan m)) + 1))
                (prepared env (initial_state business_plan m)) Ha) as [_ H].
    exact (H s Hin).
Qed.

(** Claim C10.  For every input dictionary, [invoke] returns, having
    entered the critique at most [max_revisions + 1] times; it appends
    at most that many rounds to [critique_history] and to
    [defense_history], and rewrites none.  ([Z.to_nat] is the number of
    elements of [range(max_revisions + 1)].) *)
Theorem mock_loop_is_bounded env (d : StateDict) :
  let r := MockAssumeBreakGraph.invoke env d in
  let bound := Z.to_nat (max_revisions (setdefaults d) + 1) in
  (entered Node_adversary_critique (snd r) <= bound)%nat /\
  exists critique_rounds defense_rounds,
    critique_history (fst r)
    = critique_history (setdefaults d) ++ critique_rounds /\
    (List.length critique_rounds <= bound)%nat /\
    defense_history (fst r)
    = defense_history (setdefaults d) ++ defense_rounds /\
    (List.length defense_rounds <= bound)%nat.
Proof.
  cbv zeta. rewrite invoke_unfold. cbn [fst snd].
  pose proof (prepared_fields env d) as (_ & Hmax & _ & Hc & Hd & _).
  cbv zeta in Hmax, Hc, Hd.
  destruct (debate_loop_bounds env
              (range (max_revisions (prepared env d) + 1)) (prepared env d))
    as (B1 & _ & cr & dr & B3 & B4 & B5 & B6).
  rewrite range_length, Hmax in *.
  rewrite entered_app, prelude_entered. cbn [entered filter List.length Node_eqb].
  split; [lia|]. exists cr, dr. rewrite B3, B5, Hc, Hd.
  repeat split; auto; lia.
Qed.

(* ----------------------------------------------------------------- *)
(** ** The gates of the judge (claims C3, C5) *)

Lemma judge_at_cap env i st :
  (max_revisions st <= revision_count st)%Z ->
  human_judge env i st
  = (judge_result BROKEN true (Some (cap_note st))
       (match critique_severity st with
        | FATAL => None
        | _ => Some (revision_count st)
        end), []).
Proof.
  intros H. unfold human_judge, cap_note, ret.
  apply Z.leb_le in H. rewrite H.
  now destruct (critique_severity st).
Qed.

Lemma judge_fallback_reached env i st :
  (revision_count st < max_revisions st)%Z ->
  critique_severity st <> FATAL ->
  no_oracle_verdict env i ->
  fst (human_judge env i st)
  = judge_fallback (critique_severity st) (revision_count st).
Proof.
  intros Hlt Hs Hn. unfold human_judge, no_oracle_verdict, bind, tell, ret in *.
  apply Z.leb_gt in Hlt. rewrite Hlt.
  destruct (critique_severity st); try congruence;
    destruct (call_claude env Judging i) as [[response| |] l];
    cbn [fst] in *; try rewrite Hn; reflexivity.
Qed.

Lemma body_run_at_cap env i st r evs :
  body_run env i st r evs ->
  (max_revisions st <= revision_count st)%Z ->
  critique_severity (fst r) <> FATAL ->
  plan_status (fst r) = BROKEN /\ awaiting_human (fst r) = true /\
  revision_count (fst r) = revision_count st /\ snd r = true.
Proof.
  intros H Hc Hs.
  inversion H as [cs ea Hea Hsev
                 |cs ea ds er ju ej Hea Hsev Her st3 st4 Hj st5
                 |cs ea ju ej Hea Hsev st3 Hj st5]; subst.
  - cbn in Hs. congruence.
  - subst st5 st4 st3. rewrite judge_at_cap in Hj by exact Hc.
    injection Hj as <- <-. cbn. rewrite Hsev. cbn. auto.
  - subst st5 st3. rewrite judge_at_cap in Hj by exact Hc.
    injection Hj as <- <-. cbn.
    destruct Hsev as [-> | ->]; cbn; auto.
Qed.

Lemma body_run_cap_note env i st r evs :
  body_run env i st r evs ->
  (max_revisions st <= revision_count st)%Z ->
  critique_severity (fst r) <> FATAL ->
  human_override (fst r) = CAP_NOTE (max_revisions st).
Proof.
  intros H Hc Hs.
  inversion H as [cs ea Hea Hsev
                 |cs ea ds er ju ej Hea Hsev Her st3 st4 Hj st5
                 |cs ea ju ej Hea Hsev st3 Hj st5]; subst.
  - cbn in Hs. congruence.
  - subst st5 st4 st3. rewrite judge_at_cap in Hj by exact Hc.
    injection Hj as <- <-. unfold cap_note. cbn. rewrite Hsev. reflexivity.
  - subst st5 st3. rewrite judge_at_cap in Hj by exact Hc.
    injection Hj as <- <-. unfold cap_note. cbn.
    destruct Hsev as [-> | ->]; reflexivity.
Qed.

Lemma cap_notes_not_empty m :
  CAP_NOTE m <> "" /\ CAP_FATAL_NOTE m <> "".
Proof. split; discriminate. Qed.

Lemma body_run_never_validated env i st r evs :
  body_run env i st r evs ->
  plan_status st <> VALIDATED -> plan_status (fst r) <> VALIDATED ->
  forall s, In (Store s) evs -> plan_status s <> VALIDATED.
Proof.
  intros H H0 H1 s Hin.
  assert (forall cs ea, Forall (oracle_event Critiquing) ea ->
            In (Store s) (critique_events st cs ea) ->
            plan_status s <> VALIDATED) as Hce.
  { intros cs ea Hea Hi. unfold critique_events in Hi. in_cases Hi;
      try discriminate;
      try (destruct (oracle_events_no_store _ _ _ Hea Hi));
      injection Hi as <-; cbn; auto;
      destruct (max_severity_of cs); discriminate. }
  run_cases H.
  - eauto.
  - in_cases Hin; try discriminate;
      try (destruct (oracle_events_no_store _ _ _ Her Hin));
      try (destruct (oracle_events_no_store _ _ _ Je Hin)); eauto.
    + injection Hin as <-. subst st4 st3. cbn. rewrite Hsev. discriminate.
    + injection Hin as <-. exact H1.
  - in_cases Hin; try discriminate;
      try (destruct (oracle_events_no_store _ _ _ Je Hin)); eauto.
    injection Hin as <-. exact H1.
Qed.

(** The first round of a loop stays the first round of its result. *)
Lemma debate_loop_first env i rest st :
  let b := loop_body env i st in
  let r := debate_loop env (i :: rest) st in
  (exists more,
     critique_history (fst r) = critique_history (fst (fst b)) ++ more) /\
  (snd (fst b) = true -> r = (fst (fst b), snd b)).
Proof.
  cbv zeta. rewrite debate_loop_cons.
  destruct (loop_body env i st) as [[st' stop] evs]. cbn [fst snd].
  destruct stop.
  - rewrite app_nil_r. cbn [fst]. split; [|reflexivity].
    exists []. now rewrite app_nil_r.
  - split; [|discriminate]. cbn [fst].
    destruct (debate_loop_bounds env rest st') as (_ & _ & cr & _ & H & _).
    eauto.
Qed.

Lemma all_minor_max cs :
  cs <> [] -> Forall (fun c => verdict c = MINOR) cs ->
  max_severity_of cs = MINOR.
Proof.
  unfold max_severity_of. destruct cs as [|c cs]; [congruence|].
  intros _ H. inversion H as [|? ? Hc Hr]; subst. cbn [fold_left].
  rewrite Hc. cbn [raise_severity]. clear Hc H.
  induction Hr as [|d cs Hd _ IH]; [reflexivity|].
  cbn [fold_left]. rewrite Hd. exact IH.
Qed.

Lemma prelude_stores env d s :
  In (Store s) (prelude env d) ->
  s = setdefaults d \/ s = extracted env d \/ s = prepared env d.
Proof.
  intros Hin. unfold prelude in Hin. in_cases Hin; try discriminate;
    try (destruct (oracle_events_no_store _ _ _
                     (extract_events env 0 _) Hin));
    injection Hin as <-; auto.
Qed.

Lemma range_succ z : (0 <= z)%Z -> range (z + 1) = 0%nat :: seq 1 (Z.to_nat z).
Proof.
  intros H. unfold range.
  replace (Z.to_nat (z + 1)) with (S (Z.to_nat z)) by lia. reflexivity.
Qed.

Lemma after_critique_history st cs :
  critique_history (after_critique st cs)
  = critique_history st
    ++ [ {| round := (revision_count st + 1)%Z; critiques := cs |} ].
Proof. reflexivity. Qed.

Lemma after_defense_history st ds :
  critique_history (after_defense st ds) = critique_history st.
Proof. reflexivity. Qed.

Lemma judge_keeps_history st st' ju :
  judge_outcome st ju ->
  critique_history (state_update st' ju) = critique_history st'.
Proof. intros Jo. now inversion Jo. Qed.

(** Claim C3.  Entered with [revision_count >= max_revisions], the judge
    returns [BROKEN] with [awaiting_human = true] and a note that the
    state then records as its [human_override].  The note reads
    "Max revisions (N) reached. Plan needs external review.", or
    "Max revisions (N) reached with FATAL issues unresolved." after a
    FATAL critique, N being the cap; it is never empty.  The judge
    returns without a request to the oracle and without a warning,
    whatever the oracle would have said; with no FATAL critique the
    revision count is kept.  And a run whose two rounds are both MAJOR,
    the cap being 1, ends [BROKEN] with [revision_count = 1],
    [awaiting_human = true] and the note of the cap, and no state it
    stores is [VALIDATED]. *)
Theorem cap_gate_forces_broken :
  (forall env i st,
     (max_revisions st <= revision_count st)%Z ->
     let u := fst (human_judge env i st) in
     let note :=
       ("Max revisions (" ++ Str.of_Z (max_revisions st)
        ++ match critique_severity st with
           | FATAL => ") reached with FATAL issues unresolved."
           | _ => ") reached. Plan needs external review."
           end)%string in
     u_plan_status u = Some BROKEN /\
     u_awaiting_human u = Some true /\
     u_human_override u = Some (cap_note st) /\
     u_human_override u = Some note /\
     human_override (state_update st u) = note /\
     note <> "" /\
     snd (human_judge env i st) = [] /\
     (critique_severity st <> FATAL ->
      human_judge env i st
      = (judge_result BROKEN true (Some (CAP_NOTE (max_revisions st)))
           (Some (revision_count st)), []) /\
      CAP_NOTE (max_revisions st)
      = ("Max revisions (" ++ Str.of_Z (max_revisions st)
         ++ ") reached. Plan needs external review.")%string)) /\
  (forall env business_plan r1 r2,
     let run := stress_test_plan env business_plan (Some 1%Z) in
     r_critiques (fst run) = [r1; r2] ->
     max_severity_of (critiques r1) = MAJOR ->
     max_severity_of (critiques r2) = MAJOR ->
     r_plan_status (fst run) = BROKEN /\
     r_revision_count (fst run) = 1%Z /\
     awaiting_human (raw_state (fst run)) = true /\
     human_override (raw_state (fst run))
     = "Max revisions (1) reached. Plan needs external review." /\
     forall s, In (Store s) (snd run) -> plan_status s <> VALIDATED).
Proof.
  split.
  - intros env i st Hcap. cbv zeta. rewrite (judge_at_cap env i st Hcap).
    cbn [fst snd judge_result u_plan_status u_awaiting_human u_human_override
         state_update human_override get].
    assert (cap_note st
            = ("Max revisions (" ++ Str.of_Z (max_revisions st)
               ++ match critique_severity st with
                  | FATAL => ") reached with FATAL issues unresolved."
                  | _ => ") reached. Plan needs external review."
                  end)%string) as E.
    { unfold cap_note, CAP_NOTE, CAP_FATAL_NOTE.
      now destruct (critique_severity st). }
    rewrite <- E.
    repeat split.
    + unfold cap_note.
      destruct (critique_severity st); apply cap_notes_not_empty.
    + unfold cap_note. destruct (critique_severity st); congruence.
  - intros env business_plan r1 r2. cbv zeta.
    unfold stress_test_plan, build_assume_break_graph, bind, tell, ret.
    cbn [get]. rewrite invoke_unfold.
    cbn [fst snd app r_critiques r_plan_status r_revision_count raw_state].
    rewrite app_nil_r.
    set (d := initial_state business_plan 1).
    pose proof (prepared_fields env d)
      as (Hrc & Hmax & Ha & Hch & _ & _ & Hse & Hsp).
    change (revision_count (setdefaults d)) with 0%Z in Hrc.
    change (max_revisions (setdefaults d)) with 1%Z in Hmax.
    change (critique_history (setdefaults d)) with (@nil CritiqueRound) in Hch.
    rewrite Hmax. change (range (1 + 1)) with [0%nat; 1%nat].
    intros Hh H1 H2.
    (* first round *)
    rewrite debate_loop_cons in *.
    pose proof (loop_body_run env 0 (prepared env d)) as R.
    destruct (loop_body env 0 (prepared env d)) as [[st1 stop1] evs1].
    cbn [fst snd] in R.
    pose proof (body_run_state _ _ _ _ _ R) as (Rm & Rt & Rf & _).
    pose proof (body_run_history _ _ _ _ _ R)
      as (cs1 & dl1 & Rh & _). cbn [fst snd] in *.
    rewrite Hch in Rh. cbn [app] in Rh.
    destruct stop1.
    { cbn [fst] in Hh. rewrite Rh in Hh. discriminate. }
    destruct (Rf eq_refl) as (Rs1 & Rrc1 & _ & _).
    (* second round, at the cap *)
    rewrite debate_loop_cons in *.
    pose proof (loop_body_run env 1 st1) as R'.
    destruct (loop_body env 1 st1) as [[st2 stop2] evs2].
    cbn [fst snd] in R'.
    pose proof (body_run_state _ _ _ _ _ R') as (_ & _ & _ & Rc' & _).
    pose proof (body_run_history _ _ _ _ _ R')
      as (cs2 & dl2 & Rh' & Rsev' & _). cbn [fst snd] in *.
    assert (max_revisions st1 <= revision_count st1)%Z as Hcap by lia.
    rewrite (Rc' Hcap) in *. cbn [fst snd] in *.
    rewrite Rh', Rh in Hh. cbn [app] in Hh.
    injection Hh as _ E2. subst r2. cbn [critiques] in H2.
    assert (critique_severity st2 <> FATAL) as Hnf by congruence.
    destruct (body_run_at_cap _ _ _ _ _ R' Hcap Hnf) as (B1 & B2 & B3 & _).
    pose proof (body_run_cap_note _ _ _ _ _ R' Hcap Hnf) as B4.
    cbn [fst] in *.
    assert (max_revisions st1 = 1%Z) as M1 by congruence.
    rewrite M1 in B4.
    split; [exact B1|]. split; [lia|]. split; [exact B2|].
    split; [exact B4|].
    intros s [Hin|[Hin|Hin]]; try discriminate.
    rewrite app_nil_r in Hin.
    apply in_app_or in Hin as [Hin|Hin].
    { apply prelude_stores in Hin as [->|[->| ->]];
        [discriminate | congruence | congruence]. }
    apply in_app_or in Hin as [Hin|Hin].
    + eapply (body_run_never_validated _ _ _ _ _ R); eauto;
        cbn [fst]; congruence.
    + eapply (body_run_never_validated _ _ _ _ _ R'); eauto;
        cbn [fst]; congruence.
Qed.

(** Claim C5.  Below the cap, with a severity other than FATAL and no
    verdict from the oracle, the judge maps MINOR to [VALIDATED] with
    [awaiting_human = false] and the revision count unchanged, and
    MAJOR or NONE to [NEEDS_REVISION] with [awaiting_human = false] and
    the revision count plus one.  And a run whose only critique round
    is all MINOR, judged by the fallback, ends [VALIDATED] with
    [awaiting_human = false]. *)
Theorem fallback_judge_verdicts :
  (forall env i st,
     (revision_count st < max_revisions st)%Z ->
     critique_severity st <> FATAL ->
     no_oracle_verdict env i ->
     let u := fst (human_judge env i st) in
     (critique_severity st = MINOR ->
      u = judge_result VALIDATED false None (Some (revision_count st))) /\
     (critique_severity st = MAJOR \/ critique_severity st = NONE ->
      u = judge_result NEEDS_REVISION false None
            (Some (revision_count st + 1)%Z))) /\
  (forall env business_plan cap rd,
     let run := stress_test_plan env business_plan cap in
     (0 < get cap (settings_max_revisions env))%Z ->
     no_oracle_verdict env 0 ->
     r_critiques (fst run) = [rd] ->
     critiques rd <> [] ->
     Forall (fun c => verdict c = MINOR) (critiques rd) ->
     r_plan_status (fst run) = VALIDATED /\
     awaiting_human (raw_state (fst run)) = false).
Proof.
  split.
  - intros env i st Hlt Hs Hn. cbv zeta.
    rewrite (judge_fallback_reached env i st Hlt Hs Hn).
    split; [intros ->; reflexivity|intros [-> | ->]; reflexivity].
  - intros env business_plan cap rd. cbv zeta.
    unfold stress_test_plan, bind, ret.
    set (m := get cap (settings_max_revisions env)).
    rewrite invoke_unfold.
    cbn [fst snd r_critiques r_plan_status raw_state].
    set (d := initial_state business_plan m).
    pose proof (prepared_fields env d)
      as (Hrc & Hmax & Ha & Hch & _).
    change (revision_count (setdefaults d)) with 0%Z in Hrc.
    change (max_revisions (setdefaults d)) with m in Hmax.
    change (critique_history (setdefaults d)) with (@nil CritiqueRound) in Hch.
    intros Hm Hn Hh Hne Hall.
    rewrite Hmax in *. rewrite range_succ in * by lia.
    destruct (debate_loop_first env 0 (seq 1 (Z.to_nat m)) (prepared env d))
      as [[more Hmore] Hstop].
    pose proof (loop_body_run env 0 (prepared env d)) as R.
    destruct (loop_body env 0 (prepared env d)) as [[st1 stop1] evs1].
    cbn [fst snd] in *.
    rewrite Hmore in Hh.
    assert (forall cs, critique_history st1
                       = [ {| round := (revision_count (prepared env d) + 1)%Z;
                              critiques := cs |} ] ->
                       max_severity_of cs = MINOR) as Hcs.
    { intros cs E. rewrite E in Hh. cbn [app] in Hh.
      injection Hh as <- _. cbn [critiques] in *.
      now apply all_minor_max. }
    inversion R as [cs ea Hea Hsev
                   |cs ea ds er ju ej Hea Hsev Her st3 st4 Hj st5
                   |cs ea ju ej Hea Hsev st3 Hj st5]; subst.
    + rewrite (Hcs cs) in Hsev; [discriminate|].
      now rewrite after_critique_history, Hch.
    + rewrite (Hcs cs) in Hsev; [discriminate|].
      subst st5 st4 st3.
      destruct (judge_of_run _ _ _ _ _ Hj) as (Jo & _).
      now rewrite (judge_keeps_history _ _ _ Jo), after_defense_history,
                  after_critique_history, Hch.
    + assert (max_severity_of cs = MINOR) as Hmin.
      { apply Hcs. subst st5 st3.
        destruct (judge_of_run _ _ _ _ _ Hj) as (Jo & _).
        now rewrite (judge_keeps_history _ _ _ Jo),
                    after_critique_history, Hch. }
      assert (fst (human_judge env 0 st3)
              = judge_fallback (critique_severity st3) (revision_count st3))
        as Hfb.
      { apply judge_fallback_reached; subst st3.
        - change (revision_count (prepared env d)
                  < max_revisions (prepared env d))%Z. lia.
        - change (max_severity_of cs <> FATAL). congruence.
        - exact Hn. }
      rewrite Hj in Hfb. cbn [fst] in Hfb. subst ju.
      assert (critique_severity st3 = MINOR) as Hs3
        by (subst st3; exact Hmin).
      subst st5. rewrite Hs3 in *. cbn [judge_fallback] in *.
      rewrite Hstop by reflexivity. cbn. auto.
Qed.

(* ----------------------------------------------------------------- *)
(** ** Fallback of the capabilities (claim C6) *)

Lemma retry_loop_requests env c call m attempts :
  Forall is_request (snd (retry_loop env c call m attempts)).
Proof.
  induction attempts as [|a r IH]; cbn [retry_loop]; [constructor|].
  unfold bind, tell, ret in *.
  destruct (messages_create env c call a);
    try (cbn; repeat constructor; fail).
  - destruct (retry_loop env c call m r) as [x l]. cbn in *.
    constructor; [exact I|exact IH].
  - destruct (Z.of_nat a <? m - 1)%Z.
    + destruct (retry_loop env c call m r) as [x l]. cbn in *.
      constructor; [exact I|exact IH].
    + cbn. repeat constructor.
Qed.

Lemma call_claude_requests env c call :
  Forall is_request (snd (call_claude env c call)).
Proof.
  unfold call_claude. destruct (String.eqb _ _); [constructor|].
  apply retry_loop_requests.
Qed.

Lemma requests_no_warning l c : Forall is_request l -> ~ In (Warning c) l.
Proof.
  intros H Hin. rewrite Forall_forall in H. exact (H _ Hin).
Qed.

(** Claim C6, amended.  For each of the four capabilities, when the
    primary strategy fails (no credentials, another error, or nothing
    parsed from the reply) the result is the one of the rule-based
    strategy.  A warning is raised exactly for another error, as the
    last event before falling back; absent credentials and a reply in
    which nothing is parsed raise none.  (The judge has a primary
    strategy only past its two gates.) *)
Theorem fallback_on_primary_failure env c call st f :
  primary_reached c st ->
  primary_failure env c call = Some f ->
  let r := run_capability env c call st in
  fst r = fallback_outcome c st /\
  (f = CredentialsAbsent -> ~ In (Warning c) (snd r)) /\
  (f = NothingParsed -> ~ In (Warning c) (snd r)) /\
  (f = OracleError ->
   exists requests,
     Forall is_request requests /\ snd r = requests ++ [Warning c]).
Proof.
  intros Hreach Hf. cbv zeta.
  unfold primary_failure, parsed_nothing in Hf.
  pose proof (call_claude_requests env c call) as Hq.
  destruct c; cbn [run_capability fallback_outcome primary_reached] in *.
  - unfold extract_assumptions, bind, tell, ret.
    destruct (call_claude env Extraction call) as [[response| |] l];
      cbn [fst snd] in *.
    + destruct (assumption_lines env response); [|discriminate].
      injection Hf as <-. cbn. rewrite app_nil_r.
      repeat split; try discriminate;
        intros _; now apply requests_no_warning.
    + injection Hf as <-. cbn. rewrite app_nil_r.
      repeat split; try discriminate;
        intros _; now apply requests_no_warning.
    + injection Hf as <-. cbn.
      repeat split; try discriminate. intros _. eauto.
  - unfold adversary_critique, bind, tell, ret.
    destruct (call_claude env Critiquing call) as [[response| |] l];
      cbn [fst snd] in *.
    + destruct (parse_structured_response env response); [|discriminate].
      injection Hf as <-. cbn. rewrite app_nil_r.
      repeat split; try discriminate;
        intros _; now apply requests_no_warning.
    + injection Hf as <-. cbn. rewrite app_nil_r.
      repeat split; try discriminate;
        intros _; now apply requests_no_warning.
    + injection Hf as <-. cbn.
      repeat split; try discriminate. intros _. eauto.
  - unfold proponent_revise, bind, tell, ret.
    destruct (call_claude env Defending call) as [[response| |] l];
      cbn [fst snd] in *.
    + destruct (defense_blocks env response); [|discriminate].
      injection Hf as <-. cbn. rewrite app_nil_r.
      repeat split; try discriminate;
        intros _; now apply requests_no_warning.
    + injection Hf as <-. cbn. rewrite app_nil_r.
      repeat split; try discriminate;
        intros _; now apply requests_no_warning.
    + injection Hf as <-. cbn.
      repeat split; try discriminate. intros _. eauto.
  - destruct Hreach as [Hlt Hs]. unfold human_judge, bind, tell, ret.
    apply Z.leb_gt in Hlt. rewrite Hlt.
    destruct (critique_severity st) eqn:Hsev; try congruence;
      destruct (call_claude env Judging call) as [[response| |] l];
      cbn [fst snd] in *;
      try (destruct (search_verdict env response); [discriminate|]);
      injection Hf as <-; cbn; rewrite ?app_nil_r;
      repeat split; try discriminate;
      intros _; try (now apply requests_no_warning); eauto.
Qed.

(* ----------------------------------------------------------------- *)
(** ** FATAL critiques (claim C1) *)

Lemma raise_severity_fold cs : forall m,
  fold_left (fun m c => raise_severity m (verdict c)) cs m = FATAL <->
  m = FATAL \/ exists c, In c cs /\ verdict c = FATAL.
Proof.
  induction cs as [|c cs IH]; intros m; cbn [fold_left].
  - split; [auto|]. intros [H|(c & [] & _)]. exact H.
  - rewrite IH. split.
    + intros [H|(c' & Hin & Hv)].
      * destruct (verdict c) eqn:Hc, m; cbn in H; try discriminate;
          try (left; reflexivity); right; exists c; split; auto; now left.
      * right. exists c'. split; [now right|exact Hv].
    + intros [->|(c' & [->|Hin] & Hv)].
      * left. now destruct (verdict c).
      * left. now rewrite Hv.
      * right. eauto.
Qed.

Lemma max_severity_fatal cs :
  max_severity_of cs = FATAL <-> exists c, In c cs /\ verdict c = FATAL.
Proof.
  unfold max_severity_of. rewrite raise_severity_fold.
  split; [intros [H|H]; [discriminate|exact H]|auto].
Qed.

Lemma has_fatal_snoc history rd :
  has_fatal (history ++ [rd]) <->
  has_fatal history \/ max_severity_of (critiques rd) = FATAL.
Proof.
  unfold has_fatal. rewrite max_severity_fatal. split.
  - intros (r & c & Hin & Hc & Hv). apply in_app_or in Hin as [Hin|[<-|[]]].
    + left. eauto.
    + right. eauto.
  - intros [(r & c & Hin & Hc & Hv)|(c & Hc & Hv)].
    + exists r, c. repeat split; auto. apply in_or_app. now left.
    + exists rd, c. repeat split; auto. apply in_or_app. right. now left.
Qed.

Lemma body_run_judge_entered env i st r evs :
  body_run env i st r evs ->
  entered Node_adversary_critique evs = 1%nat /\
  entered Node_human_judge evs
  = match critique_severity (fst r) with FATAL => 0%nat | _ => 1%nat end.
Proof.
  intros H. run_cases H.
  - rewrite !critique_events_entered by assumption.
    cbn [fst]. change (critique_severity (after_critique st cs))
      with (max_severity_of cs). rewrite Hsev. split; reflexivity.
  - change (Enter Node_proponent_revise :: er ++ ?l)
      with ([Enter Node_proponent_revise] ++ er ++ l).
    change (Enter Node_human_judge :: ej ++ ?l)
      with ([Enter Node_human_judge] ++ ej ++ l).
    rewrite !entered_app, !critique_events_entered by assumption.
    rewrite !(entered_oracle _ Defending er Her),
            !(entered_oracle _ Judging ej Je).
    cbn [fst]. subst st5 st4 st3.
    replace (critique_severity _) with (max_severity_of cs)
      by (inversion Jo; reflexivity).
    rewrite Hsev. split; reflexivity.
  - change (Enter Node_human_judge :: ej ++ ?l)
      with ([Enter Node_human_judge] ++ ej ++ l).
    rewrite !entered_app, !critique_events_entered by assumption.
    rewrite !(entered_oracle _ Judging ej Je).
    cbn [fst]. subst st5 st3.
    replace (critique_severity _) with (max_severity_of cs)
      by (inversion Jo; reflexivity).
    destruct Hsev as [-> | ->]; split; reflexivity.
Qed.

(** A loop started without escalation and without a FATAL critique:
    if its result has one, the last round found it and ended the run
    before the judge. *)
Lemma debate_loop_fatal env : forall its st,
  awaiting_human st = false ->
  ~ has_fatal (critique_history st) ->
  let r := debate_loop env its st in
  has_fatal (critique_history (fst r)) ->
  plan_status (fst r) = BROKEN /\
  critique_severity (fst r) = FATAL /\
  awaiting_human (fst r) = false /\
  (entered Node_human_judge (snd r) + 1
   = entered Node_adversary_critique (snd r))%nat.
Proof.
  induction its as [|i rest IH]; intros st Ha Hnf; cbv zeta.
  - cbn. intros H. contradiction.
  - step_loop env i st.
    pose proof (body_run_state _ _ _ _ _ R) as (_ & _ & Rf & _).
    pose proof (body_run_history _ _ _ _ _ R)
      as (cs & dl & Hc & Hsev & _ & Hfs & _).
    pose proof (body_run_judge_entered _ _ _ _ _ R) as (Ea & Ej).
    cbn [fst snd] in *.
    assert (has_fatal (critique_history st') ->
            max_severity_of cs = FATAL) as Hf.
    { rewrite Hc, has_fatal_snoc. cbn [critiques]. tauto. }
    destruct stop; cbn [fst snd].
    + rewrite app_nil_r. intros H. specialize (Hf H).
      rewrite Hsev, Hf in Ej. rewrite Ea, Ej.
      inversion R as [cs0 ea Hea Hsev0
                     |cs0 ea ds er ju ej Hea Hsev0 Her st3 st4 Hj st5
                     |cs0 ea ju ej Hea Hsev0 st3 Hj st5]; subst.
      * cbn. rewrite Hsev0. cbn. auto.
      * exfalso. subst st5 st4 st3.
        destruct (judge_of_run _ _ _ _ _ Hj) as (Jo & _).
        assert (critique_severity (state_update
                  (after_defense (after_critique st cs0) ds) ju) = MAJOR) as E
          by (inversion Jo; subst; cbn; exact Hsev0).
        congruence.
      * exfalso. subst st5 st3.
        destruct (judge_of_run _ _ _ _ _ Hj) as (Jo & _).
        assert (critique_severity (state_update (after_critique st cs0) ju)
                = max_severity_of cs0) as E
          by (inversion Jo; subst; reflexivity).
        destruct Hsev0; congruence.
    + destruct (Rf eq_refl) as (_ & _ & _ & Ha').
      assert (~ has_fatal (critique_history st')) as Hnf'.
      { intros H. specialize (Hf H). specialize (Hfs Hf). discriminate. }
      intros H. destruct (IH st' Ha' Hnf' H) as (I1 & I2 & I3 & I4).
      rewrite !entered_app, Ea, Ej.
      assert (critique_severity st' <> FATAL) as Hs'.
      { rewrite Hsev. intros E. specialize (Hfs E). discriminate. }
      repeat split; auto.
      destruct (critique_severity st'); try congruence; lia.
Qed.

(** Claim C1.  When some critique of some round of a run is FATAL, the
    run ends with plan status [BROKEN] and critique severity [FATAL],
    and the judge is not entered for that round: the graph enters the
    judge once less than it enters the critique.  But [awaiting_human]
    is still [false] at the end, where the claim asks for [true]: the
    route taken on FATAL ends the run before the only node that raises
    the flag. *)
Theorem fatal_run_ends_broken_without_escalation env business_plan cap :
  let run := stress_test_plan env business_plan cap in
  has_fatal (r_critiques (fst run)) ->
  r_plan_status (fst run) = BROKEN /\
  r_critique_severity (fst run) = FATAL /\
  awaiting_human (raw_state (fst run)) = false /\
  (entered Node_human_judge (snd run) + 1
   = entered Node_adversary_critique (snd run))%nat.
Proof.
  cbv zeta. unfold stress_test_plan, build_assume_break_graph, bind, tell, ret.
  set (m := get cap (settings_max_revisions env)).
  rewrite invoke_unfold.
  cbn [fst snd app r_critiques r_plan_status r_critique_severity raw_state].
  rewrite app_nil_r, !entered_graph_warning.
  set (d := initial_state business_plan m).
  pose proof (prepared_fields env d) as (_ & _ & Ha & Hch & _).
  change (awaiting_human (setdefaults d)) with false in Ha.
  change (critique_history (setdefaults d)) with (@nil CritiqueRound) in Hch.
  intros H.
  destruct (debate_loop_fatal env
              (range (max_revisions (prepared env d) + 1)) (prepared env d) Ha)
    as (F1 & F2 & F3 & F4); auto.
  { rewrite Hch. intros (rd & c & [] & _). }
  rewrite !entered_app, !prelude_entered. cbn [entered filter List.length Node_eqb].
  repeat split; auto.
Qed.

(* ----------------------------------------------------------------- *)
(** ** The retrieval node (claim C8) *)

Lemma render_length fmt results : forall i,
  List.length (snd (render fmt i results)) = List.length results.
Proof.
  induction results as [|[f score] rest IH]; intros i; cbn [render].
  - reflexivity.
  - specialize (IH (S i)). destruct (render fmt (S i) rest) as [cp ci].
    cbn in *. now rewrite IH.
Qed.

(** Claim C8, amended.  For a ratio that stays below the fuzzy threshold
    against the empty string, as that of [difflib] does: every fact
    none of whose keywords is empty scores 0 on empty input, so
    retrieval over empty input returns the empty list for a corpus of
    such facts.  And whenever the ranked result is empty,
    [fetch_reality] returns the sentinel context with the single
    sentinel citation; its citation list is never empty. *)
Theorem empty_input_retrieves_nothing ratio :
  low_against_empty ratio ->
  (forall f, keywords_nonempty f = true ->
     _score_fact ratio f (_tokenize "") (_detect_categories "") == 0) /\
  (forall database, forallb keywords_nonempty database = true ->
     retrieve_relevant_facts ratio database "" TOP_K = []) /\
  (forall format_1f database state,
     retrieve_relevant_facts ratio database (business_plan state) TOP_K = [] ->
     fetch_reality ratio format_1f database state = sentinel_update) /\
  (forall format_1f database state,
     u_reality_citations (fetch_reality ratio format_1f database state)
     <> Some []).
Proof.
  intros Hr.
  assert (forall f, keywords_nonempty f = true ->
            _score_fact ratio f (_tokenize "") (_detect_categories "") == 0)
    as Hz.
  { intros f Hk. change (_tokenize "") with (@nil string).
    change (_detect_categories "") with (@nil string).
    now apply score_empty_tokens. }
  split; [exact Hz|]. split; [|split].
  - intros database Hdb. unfold retrieve_relevant_facts.
    rewrite score_all_filter.
    enough (filter positive
              (map (fun f => (f, _score_fact ratio f (_tokenize "")
                                   (_detect_categories ""))) database) = [])
      as -> by reflexivity.
    induction database as [|f r IH]; [reflexivity|].
    cbn [forallb] in Hdb. apply andb_true_iff in Hdb as [Hf Hdb].
    cbn [map filter]. unfold positive at 1. cbn [snd].
    destruct (Qlt_le_dec 0 _) as [Hlt|_]; [|now apply IH].
    rewrite (Hz f Hf) in Hlt. now apply Qlt_irrefl in Hlt.
  - intros fmt database state H. unfold fetch_reality. now rewrite H.
  - intros fmt database state. unfold fetch_reality.
    destruct (retrieve_relevant_facts ratio database (business_plan state) TOP_K)
      as [|p rest] eqn:E; [discriminate|].
    pose proof (render_length fmt (p :: rest) 1) as Hl.
    destruct (render fmt 1 (p :: rest)) as [cp ci]. cbn in *.
    destruct ci; [discriminate|discriminate].
Qed.

(* ----------------------------------------------------------------- *)
(** ** Concrete runs *)

(** The amended C8 on the example corpus. *)
Lemma empty_input_retrieves_nothing_witness :
  _score_fact Difflib.ratio (hd blank_keyword_fact Offline.database)
    (_tokenize "") (_detect_categories "") == 0 /\
  retrieve_relevant_facts Difflib.ratio Offline.database "" TOP_K = [].
Proof.
  destruct (empty_input_retrieves_nothing Difflib.ratio
              difflib_low_against_empty) as (H1 & H2 & _).
  split; [apply H1; reflexivity|apply H2; reflexivity].
Defined.

(** Claim C8 as stated fails: a fact with an empty keyword scores 1.5 on
    empty input, and is retrieved. *)
Lemma blank_keyword_scores_on_empty_input :
  ~ (_score_fact Difflib.ratio blank_keyword_fact
       (_tokenize "") (_detect_categories "") == 0) /\
  retrieve_relevant_facts Difflib.ratio [blank_keyword_fact] "" TOP_K
  = [(blank_keyword_fact, 0.0 + 1.5)].
Proof.
  split; [|reflexivity].
  intros H. vm_compute in H. discriminate.
Qed.

(** C2 on the plan "crop" with the default cap. *)
Lemma run_ends_decided_within_cap_witness :
  let r := fst (stress_test_plan Offline.env "crop" None) in
  (r_plan_status r = VALIDATED \/ r_plan_status r = BROKEN) /\
  (r_revision_count r <= 3)%Z.
Proof.
  apply (run_ends_decided_within_cap Offline.env "crop" None).
  cbn. lia.
Defined.

(** C9 on the last state of the run on "we need a loan". *)
Lemma awaiting_human_only_when_broken_witness :
  plan_status (raw_state (fst loan_run)) = BROKEN.
Proof.
  apply (awaiting_human_only_when_broken Offline.env "we need a loan"
           (Some 1%Z)).
  - vm_compute. repeat (first [left; reflexivity | right]).
  - reflexivity.
Defined.

(** C3 on a state at the cap and on the run on "we need a loan". *)
Lemma cap_gate_forces_broken_witness :
  human_judge Offline.env 0 (setdefaults (initial_state "plan" 0))
  = (judge_result BROKEN true
       (Some "Max revisions (0) reached. Plan needs external review.")
       (Some 0%Z), []) /\
  r_plan_status (fst loan_run) = BROKEN /\
  r_revision_count (fst loan_run) = 1%Z /\
  awaiting_human (raw_state (fst loan_run)) = true /\
  human_override (raw_state (fst loan_run))
  = "Max revisions (1) reached. Plan needs external review.".
Proof.
  destruct cap_gate_forces_broken as [HA HB]. split.
  - destruct (HA Offline.env 0%nat (setdefaults (initial_state "plan" 0)))
      as (_ & _ & _ & _ & _ & _ & _ & H); [vm_compute; discriminate|].
    apply H. vm_compute. discriminate.
  - destruct (HB Offline.env "we need a loan"
                (nth 0 (r_critiques (fst loan_run))
                     {| round := 0; critiques := [] |})
                (nth 1 (r_critiques (fst loan_run))
                     {| round := 0; critiques := [] |}))
      as (H1 & H2 & H3 & H4 & _);
      [vm_compute; reflexivity|vm_compute; reflexivity
      |vm_compute; reflexivity|].
    exact (conj H1 (conj H2 (conj H3 H4))).
Defined.

(** C5 on a MINOR state below the cap and on the run on "crop". *)
Lemma fallback_judge_verdicts_witness :
  fst (human_judge Offline.env 0
         (set_critique_severity MINOR (setdefaults (initial_state "plan" 3))))
  = judge_result VALIDATED false None (Some 0%Z) /\
  r_plan_status (fst crop_run) = VALIDATED /\
  awaiting_human (raw_state (fst crop_run)) = false.
Proof.
  destruct fallback_judge_verdicts as [HA HB]. split.
  - destruct (HA Offline.env 0%nat
                (set_critique_severity MINOR
                   (setdefaults (initial_state "plan" 3))))
      as [H _]; [vm_compute; reflexivity|vm_compute; discriminate
                |vm_compute; exact I|].
    apply H. reflexivity.
  - apply (HB Offline.env "crop" None
              (nth 0 (r_critiques (fst crop_run))
                   {| round := 0; critiques := [] |})).
    + vm_compute. reflexivity.
    + vm_compute. exact I.
    + vm_compute. reflexivity.
    + vm_compute. discriminate.
    + vm_compute. repeat constructor.
Defined.

(** The amended C6 on the judge without credentials. *)
Lemma fallback_on_primary_failure_witness :
  fst (run_capability Offline.env Judging 0
         (set_critique_severity MAJOR road_state))
  = judge_fallback MAJOR 0 /\
  ~ In (Warning Judging)
       (snd (run_capability Offline.env Judging 0
               (set_critique_severity MAJOR road_state))).
Proof.
  destruct (fallback_on_primary_failure Offline.env Judging 0
              (set_critique_severity MAJOR road_state) CredentialsAbsent)
    as (H1 & H2 & _).
  - cbn. split; [lia|discriminate].
  - reflexivity.
  - split; [exact H1|apply H2; reflexivity].
Defined.

(** Claim C6 as stated fails: the oracle answers, no block is parsed,
    the rule-based critique is used, and no warning is raised. *)
Lemma nothing_parsed_raises_no_warning :
  primary_failure unparsed_env Critiquing 0 = Some NothingParsed /\
  fst (run_capability unparsed_env Critiquing 0 road_state)
  = fallback_outcome Critiquing road_state /\
  ~ In (Warning Critiquing)
       (snd (run_capability unparsed_env Critiquing 0 road_state)).
Proof.
  split; [reflexivity|]. split; [reflexivity|].
  vm_compute. intros [H|[]]. discriminate.
Qed.

(** C1 on the plan "road": one FATAL critique in the first round. *)
Lemma fatal_run_ends_broken_without_escalation_witness :
  r_plan_status (fst road_run) = BROKEN /\
  r_critique_severity (fst road_run) = FATAL /\
  awaiting_human (raw_state (fst road_run)) = false /\
  (entered Node_human_judge (snd road_run) + 1
   = entered Node_adversary_critique (snd road_run))%nat.
Proof.
  apply (fatal_run_ends_broken_without_escalation Offline.env "road"
           (Some 1%Z)).
  exists (nth 0 (r_critiques (fst road_run)) {| round := 0; critiques := [] |}),
         (nth 0 (critiques (nth 0 (r_critiques (fst road_run))
                               {| round := 0; critiques := [] |}))
              {| fracture := ""; reality := ""; citation := "";
                 verdict := NONE; impact := "" |}).
  vm_compute. auto.
Defined.

(* ================================================================= *)
(** * Further properties *)

(* ----------------------------------------------------------------- *)
(** ** The oracle client ([agents/llm.py]) *)

Lemma retry_loop_not_nokey env c call m attempts :
  fst (retry_loop env c call m attempts) <> NoAPIKeyError.
Proof.
  induction attempts as [|a r IH]; cbn [retry_loop]; [discriminate|].
  unfold bind, tell, ret in *.
  destruct (messages_create env c call a); try (cbn; discriminate).
  - destruct (retry_loop env c call m r) as [x l]. cbn in *. exact IH.
  - destruct (Z.of_nat a <? m - 1)%Z; [|cbn; discriminate].
    destruct (retry_loop env c call m r) as [x l]. cbn in *. exact IH.
Qed.

Lemma retry_loop_requests_prefix env c call m : forall n a,
  exists k, (k <= n)%nat /\ (1 <= n -> 1 <= k)%nat /\
    snd (retry_loop env c call m (seq a n))
    = map (Request c call) (seq a k).
Proof.
  induction n as [|n IH]; intros a.
  - exists 0%nat. cbn. repeat split; lia.
  - cbn [seq retry_loop]. unfold bind, tell, ret.
    destruct (IH (S a)) as (k & Hk & _ & He).
    destruct (messages_create env c call a).
    + exists 1%nat. cbn. repeat split; lia.
    + exists (S k). destruct (retry_loop env c call m (seq (S a) n)) as [x l].
      cbn in *. rewrite He. repeat split; lia.
    + destruct (Z.of_nat a <? m - 1)%Z.
      * exists (S k).
        destruct (retry_loop env c call m (seq (S a) n)) as [x l].
        cbn in *. rewrite He. repeat split; lia.
      * exists 1%nat. cbn. repeat split; lia.
    + exists 1%nat. cbn. repeat split; lia.
Qed.

Lemma key_eqb_false env :
  anthropic_api_key env <> "" -> String.eqb (anthropic_api_key env) "" = false.
Proof. intros H. now apply String.eqb_neq. Qed.

(** Property X1.  [call_claude] raises [NoAPIKeyError] exactly when the
    configured key is empty, and then it has sent no request.  The
    requests one call sends are the attempts [0, 1, ..] in order, at
    most three of them, and at least one when a key is configured. *)
Theorem call_claude_checks_key_first env c call :
  (fst (call_claude env c call) = NoAPIKeyError
   <-> anthropic_api_key env = "") /\
  (anthropic_api_key env = "" -> snd (call_claude env c call) = []) /\
  exists k, (k <= 3)%nat /\
    snd (call_claude env c call) = requests_upto c call k /\
    (k = 0%nat <-> anthropic_api_key env = "").
Proof.
  unfold call_claude, requests_upto.
  destruct (String.eqb (anthropic_api_key env) "") eqn:E.
  - apply String.eqb_eq in E. cbn [fst snd ret].
    split; [tauto|]. split; [reflexivity|].
    exists 0%nat. cbn. repeat split; auto; lia.
  - apply String.eqb_neq in E. cbv zeta. change (range 3) with (seq 0 3).
    destruct (retry_loop_requests_prefix env c call 3 3 0)
      as (k & Hk & H1 & He).
    split; [|split].
    + split; [|contradiction].
      intros H. now apply retry_loop_not_nokey in H.
    + contradiction.
    + exists k. repeat split; auto.
      * intros ->. specialize (H1 ltac:(lia)). lia.
      * contradiction.
Qed.

Lemma call_claude_checks_key_first_witness :
  call_claude Offline.env Critiquing 0 = (NoAPIKeyError, []).
Proof.
  destruct (call_claude_checks_key_first Offline.env Critiquing 0)
    as ([_ H1] & H2 & _).
  specialize (H1 eq_refl). specialize (H2 eq_refl).
  destruct (call_claude Offline.env Critiquing 0) as [r l].
  cbn [fst snd] in *. now subst.
Defined.

Ltac three_attempts env c call :=
  unfold call_claude, requests_upto, retryable;
  cbv zeta; change (range 3) with [0; 1; 2]%nat;
  cbn [retry_loop]; unfold bind, tell, ret;
  destruct (messages_create env c call 0) eqn:E0;
  destruct (messages_create env c call 1) eqn:E1;
  destruct (messages_create env c call 2) eqn:E2;
  cbn.

(** Property X2.  With a key, [call_claude] returns the text [t]
    exactly when some attempt [n < 3] is answered with [t] and every
    earlier attempt failed with a rate limit or another API error; it
    has then sent exactly the requests [0 .. n]. *)
Theorem call_claude_returns_first_reply env c call t :
  anthropic_api_key env <> "" ->
  (fst (call_claude env c call) = Response t <->
   exists n, (n < 3)%nat /\
     (forall a, (a < n)%nat -> retryable (messages_create env c call a)) /\
     messages_create env c call n = Text t) /\
  (forall n, (n < 3)%nat ->
     (forall a, (a < n)%nat -> retryable (messages_create env c call a)) ->
     messages_create env c call n = Text t ->
     snd (call_claude env c call) = requests_upto c call (S n)).
Proof.
  intros Hk.
  assert (forall n (P : nat -> Prop), (n < 3)%nat ->
            (forall a, (a < n)%nat -> P a) ->
            match n with
            | O => True
            | S O => P 0%nat
            | _ => P 0%nat /\ P 1%nat
            end) as cases.
  { intros n P Hn H. destruct n as [|[|n]]; auto. split; apply H; lia. }
  split; [split|].
  - intros H.
    unfold call_claude in H. rewrite (key_eqb_false env Hk) in H.
    revert H. three_attempts env c call; intros H;
      try discriminate; injection H as <-;
      first
        [ exists 0%nat; split; [lia|]; split; [intros a Ha; lia|assumption]
        | exists 1%nat; split; [lia|]; split;
          [intros a Ha; replace a with 0%nat by lia; rewrite E0; auto
          |assumption]
        | exists 2%nat; split; [lia|]; split;
          [intros a Ha; destruct a as [|[|a]]; [rewrite E0|rewrite E1|lia]; auto
          |assumption] ].
  - intros (n & Hn & Hr & Ht).
    pose proof (cases n _ Hn Hr) as Hc.
    unfold call_claude. rewrite (key_eqb_false env Hk).
    unfold retryable in Hc.
    destruct n as [|[|[|n]]]; [| | |lia]; clear Hr;
      three_attempts env c call; try congruence;
      try (destruct Hc as [? | ?]; congruence);
      try (destruct Hc as [[?|?] [?|?]]; congruence).
  - intros n Hn Hr Ht.
    pose proof (cases n _ Hn Hr) as Hc.
    unfold call_claude. rewrite (key_eqb_false env Hk).
    unfold retryable in Hc.
    destruct n as [|[|[|n]]]; [| | |lia]; clear Hr;
      three_attempts env c call; try congruence;
      try (destruct Hc as [? | ?]; congruence);
      try (destruct Hc as [[?|?] [?|?]]; congruence).
Qed.

Lemma call_claude_returns_first_reply_witness :
  call_claude flaky_env Judging 0
  = (Response "VERDICT: VALIDATED", requests_upto Judging 0 3).
Proof.
  destruct (call_claude_returns_first_reply flaky_env Judging 0
              "VERDICT: VALIDATED") as [[_ H1] H2]; [discriminate|].
  assert (forall a, (a < 2)%nat ->
            retryable (messages_create flaky_env Judging 0 a)) as Hr.
  { intros [|[|a]] Ha; [left; reflexivity|right; reflexivity|lia]. }
  specialize (H2 2%nat ltac:(lia) Hr eq_refl).
  assert (fst (call_claude flaky_env Judging 0) = Response "VERDICT: VALIDATED")
    as H by (apply H1; exists 2%nat; repeat split; [lia|exact Hr]).
  destruct (call_claude flaky_env Judging 0) as [r l]. cbn [fst snd] in *.
  now subst.
Defined.

(** Property X3.  With a key, [call_claude] gives up in two ways.  An
    exception that is not an API error is not retried: raised by
    attempt [n] after retryable failures, it ends the call after the
    requests [0 .. n].  And three retryable failures end the call
    after exactly three requests. *)
Theorem call_claude_gives_up env c call :
  anthropic_api_key env <> "" ->
  (forall n, (n < 3)%nat ->
     (forall a, (a < n)%nat -> retryable (messages_create env c call a)) ->
     messages_create env c call n = OtherError ->
     call_claude env c call = (Raised, requests_upto c call (S n))) /\
  ((forall a, (a < 3)%nat -> retryable (messages_create env c call a)) ->
   call_claude env c call = (Raised, requests_upto c call 3)).
Proof.
  intros Hk. split.
  - intros n Hn Hr Ht.
    assert (match n with
            | O => True
            | S O => retryable (messages_create env c call 0)
            | _ => retryable (messages_create env c call 0) /\
                   retryable (messages_create env c call 1)
            end) as Hc.
    { destruct n as [|[|n]]; auto. split; apply Hr; lia. }
    unfold call_claude. rewrite (key_eqb_false env Hk).
    unfold retryable in Hc.
    destruct n as [|[|[|n]]]; [| | |lia]; clear Hr;
      three_attempts env c call; try congruence;
      try (destruct Hc as [? | ?]; congruence);
      try (destruct Hc as [[?|?] [?|?]]; congruence).
  - intros Hr.
    pose proof (Hr 0%nat ltac:(lia)) as H0.
    pose proof (Hr 1%nat ltac:(lia)) as H1.
    pose proof (Hr 2%nat ltac:(lia)) as H2.
    unfold call_claude. rewrite (key_eqb_false env Hk).
    unfold retryable in *.
    three_attempts env c call; try reflexivity;
      destruct H0, H1, H2; congruence.
Qed.

Lemma call_claude_gives_up_witness :
  call_claude crashing_env Critiquing 0
  = (Raised, requests_upto Critiquing 0 2).
Proof.
  destruct (call_claude_gives_up crashing_env Critiquing 0) as [H _];
    [discriminate|].
  apply (H 1%nat); [lia| |reflexivity].
  intros [|a] Ha; [right; reflexivity|lia].
Defined.

(** Property X4.  [call_claude_async] does not test the key: it never
    raises [NoAPIKeyError] and always sends a first request, also
    when no key is configured; with a key it does what [call_claude]
    does. *)
Theorem call_claude_async_skips_key_check env c call :
  fst (call_claude_async env c call) <> NoAPIKeyError /\
  (exists rest, snd (call_claude_async env c call)
                = Request c call 0 :: rest) /\
  (anthropic_api_key env <> "" ->
   call_claude_async env c call = call_claude env c call).
Proof.
  unfold call_claude_async. cbv zeta. split; [apply retry_loop_not_nokey|].
  split.
  - destruct (retry_loop_requests_prefix env c call 3 3 0) as (k & _ & H1 & He).
    change (range 3) with (seq 0 3).
    rewrite He. specialize (H1 ltac:(lia)).
    destruct k as [|k]; [lia|]. cbn. eauto.
  - intros Hk. unfold call_claude. now rewrite (key_eqb_false env Hk).
Qed.

(* ----------------------------------------------------------------- *)
(** ** Texts, tokens and trigger words *)

Lemma mem_In x l : Str.mem x l = true <-> In x l.
Proof.
  unfold Str.mem. rewrite existsb_exists. split.
  - intros (y & Hy & E). apply String.eqb_eq in E. now subst.
  - intros H. exists x. split; [exact H|apply String.eqb_refl].
Qed.

Lemma nodupb_NoDup l : nodupb l = true -> NoDup l.
Proof.
  induction l as [|x r IH]; cbn [nodupb]; [constructor|].
  intros H. apply andb_prop in H as [H1 H2]. constructor; [|auto].
  intros Hin. apply mem_In in Hin. rewrite Hin in H1. discriminate.
Qed.

(** A loop that appends [g x] for the elements that pass [p]. *)
Lemma fold_left_collect {A B} (f : list B -> A -> list B)
  (p : A -> bool) (g : A -> B) :
  (forall acc x, f acc x = if p x then acc ++ [g x] else acc) ->
  forall l acc, fold_left f l acc = acc ++ map g (filter p l).
Proof.
  intros Hf. induction l as [|x r IH]; intros acc; cbn [fold_left filter map].
  - now rewrite app_nil_r.
  - rewrite IH, Hf. destruct (p x); [|reflexivity].
    cbn [map]. now rewrite <- app_assoc.
Qed.

Lemma lower_char_idem c : Str.lower_char (Str.lower_char c) = Str.lower_char c.
Proof. destruct c as [[] [] [] [] [] [] [] []]; reflexivity. Qed.

Lemma lower_upper_char c : Str.lower_char (Str.upper_char c) = Str.lower_char c.
Proof. destruct c as [[] [] [] [] [] [] [] []]; reflexivity. Qed.

Lemma lower_idem s : Str.lower (Str.lower s) = Str.lower s.
Proof.
  induction s as [|c r IH]; cbn [Str.lower]; [reflexivity|].
  now rewrite IH, lower_char_idem.
Qed.

Lemma lower_upper s : Str.lower (Str.upper s) = Str.lower s.
Proof.
  induction s as [|c r IH]; cbn [Str.lower Str.upper]; [reflexivity|].
  now rewrite IH, lower_upper_char.
Qed.

Lemma lower_app a b : Str.lower (a ++ b) = (Str.lower a ++ Str.lower b)%string.
Proof.
  induction a as [|c r IH]; cbn [Str.lower String.append]; [reflexivity|].
  now rewrite IH.
Qed.





Lemma findall_tokens_separator s r :
  token_char s = false ->
  forall cs cur suffix,
    findall_tokens cur suffix (cs ++ String s r)
    = findall_tokens cur suffix cs ++ findall_tokens None false r.
Proof.
  intros Hs.
  assert (Str.is_lower s = false /\ Str.is_digit s = false
          /\ Ascii.eqb s "'" = false) as (Hl & Hd & Hq).
  { unfold token_char in Hs.
    apply orb_false_elim in Hs as [Hs Hq].
    apply orb_false_elim in Hs as [Hl Hd]. auto. }
  induction cs as [|c rest IH]; intros cur suffix.
  - cbn [String.append findall_tokens]. rewrite Hl, Hd, Hq. cbn [orb andb].
    destruct cur as [t|]; [|reflexivity].
    destruct suffix; reflexivity.
  - cbn [String.append findall_tokens].
    destruct cur as [t|].
    + destruct suffix.
      * destruct (Str.is_lower c); [apply IH|]. cbn [orb].
        destruct (Str.is_digit c); cbn [app]; now rewrite IH.
      * destruct (Str.is_lower c || Str.is_digit c); [apply IH|].
        assert (match (rest ++ String s r)%string with
                | String d _ => Str.is_lower d
                | EmptyString => false
                end
                = match rest with
                  | String d _ => Str.is_lower d
                  | EmptyString => false
                  end) as ->.
        { destruct rest; cbn [String.append]; [exact Hl|reflexivity]. }
        destruct (Ascii.eqb c "'" && _); [apply IH|].
        cbn [app]. now rewrite IH.
    + destruct (Str.is_lower c || Str.is_digit c); apply IH.
Qed.

(** Property X6.  Tokens do not span a separator: for a character that
    is neither a letter, a digit nor an apostrophe, the tokens of
    [a + sep + b] are the tokens of [a] followed by the tokens of [b]. *)
Theorem tokenize_splits_at_separator a sep b :
  is_separator sep = true ->
  _tokenize (a ++ String sep b) = _tokenize a ++ _tokenize b.
Proof.
  unfold is_separator, _tokenize. intros Hs.
  apply negb_true_iff in Hs.
  rewrite lower_app. cbn [Str.lower].
  now apply findall_tokens_separator.
Qed.

Lemma tokenize_splits_at_separator_witness :
  _tokenize ("Maize farm" ++ String "," "don't wait")
  = _tokenize "Maize farm" ++ _tokenize "don't wait".
Proof.
  apply (tokenize_splits_at_separator "Maize farm" "," "don't wait").
  reflexivity.
Defined.

Lemma detect_categories_eq text :
  _detect_categories text
  = map fst (filter (fun ci => Str.any_in (snd ci) (Str.lower text))
                    CATEGORY_INDICATORS).
Proof.
  unfold _detect_categories.
  rewrite (fold_left_collect _
             (fun ci => Str.any_in (snd ci) (Str.lower text)) fst).
  - reflexivity.
  - intros acc [cat ind]. reflexivity.
Qed.

Lemma NoDup_map_filter {A B} (g : A -> B) (p : A -> bool) l :
  NoDup (map g l) -> NoDup (map g (filter p l)).
Proof.
  induction l as [|x r IH]; cbn [map filter]; [auto|].
  intros H. inversion H as [|? ? Hx Hr]; subst.
  destruct (p x); [|auto]. cbn [map]. constructor; [|auto].
  intros Hin. apply Hx. apply in_map_iff in Hin as (y & <- & Hy).
  apply filter_In in Hy as [Hy _]. now apply in_map.
Qed.

(** Property X7.  [_detect_categories] returns a category exactly
    when one of its indicators is a substring of the lower-cased plan;
    it returns each category at most once, so the list stands for the
    set the code builds. *)
Theorem detect_categories_by_indicator text cat :
  (In cat (_detect_categories text) <->
   exists indicators,
     In (cat, indicators) CATEGORY_INDICATORS /\
     Str.any_in indicators (Str.lower text) = true) /\
  NoDup (_detect_categories text).
Proof.
  rewrite detect_categories_eq. split.
  - rewrite in_map_iff. split.
    + intros ([c ind] & <- & H). apply filter_In in H as [H1 H2]. eauto.
    + intros (ind & H1 & H2). exists (cat, ind). split; [reflexivity|].
      apply filter_In. auto.
  - apply NoDup_map_filter. apply nodupb_NoDup. reflexivity.
Qed.

Lemma NoDup_snd_inj {A B} (l : list (A * B)) x y b :
  NoDup (map snd l) -> In (x, b) l -> In (y, b) l -> x = y.
Proof.
  induction l as [|[w c] l IH]; cbn [map In snd]; [intros _ []|].
  intros Hnd H1 H2. inversion Hnd as [|? ? Hx Hr]; subst.
  destruct H1 as [E1|H1], H2 as [E2|H2].
  - congruence.
  - injection E1 as -> ->. destruct Hx.
    apply (in_map snd) in H2. exact H2.
  - injection E2 as -> ->. destruct Hx.
    apply (in_map snd) in H1. exact H1.
  - eauto.
Qed.

Lemma rule_based_eq plan :
  _extract_assumptions_rule_based plan
  = match fired_rules plan with
    | [] => DEFAULT_ASSUMPTIONS
    | _ :: _ => map snd (fired_rules plan)
    end.
Proof.
  unfold _extract_assumptions_rule_based, fired_rules.
  rewrite (fold_left_collect _
             (fun r => Str.any_in (fst r) (Str.lower plan)) snd).
  - cbn [app]. destruct (filter _ EXTRACTION_RULES); reflexivity.
  - intros acc [ws a]. reflexivity.
Qed.

Lemma filter_length_le {A} (p : A -> bool) l :
  (List.length (filter p l) <= List.length l)%nat.
Proof.
  induction l as [|x r IH]; cbn [filter List.length]; [lia|].
  destruct (p x); cbn [List.length]; lia.
Qed.

Lemma rule_based_nonempty plan : _extract_assumptions_rule_based plan <> [].
Proof.
  rewrite rule_based_eq. destruct (fired_rules plan); discriminate.
Qed.

(** Property X8.  The rule-based extraction returns between one and
    thirteen assumptions, none twice.  The sentence of a rule is
    returned exactly when one of the rule's trigger words occurs in the
    lower-cased plan, and the two default assumptions are returned
    exactly when no rule fires. *)
Theorem rule_based_extraction_by_trigger plan :
  let assumptions := _extract_assumptions_rule_based plan in
  (1 <= List.length assumptions <= 13)%nat /\
  NoDup assumptions /\
  (forall ws a, In (ws, a) EXTRACTION_RULES ->
     (In a assumptions <-> Str.any_in ws (Str.lower plan) = true)) /\
  (assumptions = DEFAULT_ASSUMPTIONS <-> fired_rules plan = []).
Proof.
  cbv zeta. rewrite rule_based_eq.
  assert (NoDup (map snd EXTRACTION_RULES)) as Hnd
    by (apply nodupb_NoDup; reflexivity).
  assert (forall a, In a (map snd EXTRACTION_RULES) ->
                    ~ In a DEFAULT_ASSUMPTIONS) as Hdis.
  { intros a Ha Hd.
    assert (forallb (fun a => negb (Str.mem a DEFAULT_ASSUMPTIONS))
                    (map snd EXTRACTION_RULES) = true) as H by reflexivity.
    rewrite forallb_forall in H. specialize (H a Ha).
    apply mem_In in Hd. rewrite Hd in H. discriminate. }
  assert (forall ws a, In (ws, a) EXTRACTION_RULES ->
            (In a (map snd (fired_rules plan))
             <-> Str.any_in ws (Str.lower plan) = true)) as Hiff.
  { intros ws a Hin. unfold fired_rules. rewrite in_map_iff. split.
    - intros ([ws' a'] & E & H). cbn [snd] in E. subst a'.
      apply filter_In in H as [H1 H2]. cbn [fst] in H2.
      now rewrite <- (NoDup_snd_inj _ _ _ _ Hnd H1 Hin).
    - intros H. exists (ws, a). split; [reflexivity|].
      apply filter_In. auto. }
  pose proof (filter_length_le
                (fun r => Str.any_in (fst r) (Str.lower plan))
                EXTRACTION_RULES) as Hlen.
  change (List.length EXTRACTION_RULES) with 13%nat in Hlen.
  fold (fired_rules plan) in Hlen.
  assert (fired_rules plan = [] ->
          forall ws a, In (ws, a) EXTRACTION_RULES ->
                       Str.any_in ws (Str.lower plan) = false) as Hnone.
  { intros E ws a Hin.
    destruct (Str.any_in ws (Str.lower plan)) eqn:Ea; [|reflexivity].
    apply (Hiff ws a Hin) in Ea. rewrite E in Ea. destruct Ea. }
  destruct (fired_rules plan) as [|r rs] eqn:E.
  - split; [cbn; lia|]. split; [apply nodupb_NoDup; reflexivity|].
    split; [|tauto].
    intros ws a Hin. rewrite (Hnone eq_refl ws a Hin). split; [|discriminate].
    intros Hd. exfalso. apply (Hdis a); [|exact Hd].
    change a with (snd (ws, a)). now apply in_map.
  - split; [rewrite length_map; cbn [List.length] in *; lia|].
    split.
    { rewrite <- E. unfold fired_rules. now apply NoDup_map_filter. }
    split; [exact Hiff|].
    split; [|discriminate]. intros Hd. exfalso.
    apply (Hdis (snd r)).
    + apply in_map. assert (In r (fired_rules plan)) as Hr
        by (rewrite E; now left).
      unfold fired_rules in Hr. now apply filter_In in Hr as [Hr _].
    + rewrite <- Hd. now left.
Qed.

(** Property X9.  On text that is all ASCII, tokenisation, category
    detection and the rule-based extraction do not depend on the case
    of the text: the upper-cased and the lower-cased text give what the
    text gives. *)
Theorem text_analysis_ignores_case text :
  Str.isascii text = true ->
  (_tokenize (Str.upper text) = _tokenize text /\
   _tokenize (Str.lower text) = _tokenize text) /\
  (_detect_categories (Str.upper text) = _detect_categories text /\
   _detect_categories (Str.lower text) = _detect_categories text) /\
  (_extract_assumptions_rule_based (Str.upper text)
   = _extract_assumptions_rule_based text /\
   _extract_assumptions_rule_based (Str.lower text)
   = _extract_assumptions_rule_based text).
Proof.
  intros _.
  unfold _tokenize, _detect_categories, _extract_assumptions_rule_based.
  rewrite !lower_upper, !lower_idem. repeat split.
Qed.

Lemma text_analysis_ignores_case_witness :
  _tokenize (Str.upper "We pay VAT") = _tokenize "We pay VAT" /\
  _detect_categories (Str.upper "We pay VAT")
  = _detect_categories "We pay VAT".
Proof.
  destruct (text_analysis_ignores_case "We pay VAT") as ([H1 _] & [H2 _] & _).
  - reflexivity.
  - exact (conj H1 H2).
Defined.

Lemma extraction_nonempty env call state :
  exists assumptions,
    assumptions <> [] /\
    fst (extract_assumptions env call state) = extraction_result assumptions.
Proof.
  pose proof (rule_based_nonempty (business_plan state)) as Hrb.
  unfold extract_assumptions, bind, tell, ret.
  destruct (call_claude env Extraction call) as [[response| |] l].
  - destruct (assumption_lines env response) eqn:E; cbn; eauto.
    eexists. split; [|reflexivity]. discriminate.
  - cbn; eauto.
  - cbn; eauto.
Qed.

(* ----------------------------------------------------------------- *)
(** ** The critic, the proponent and the judge *)

Lemma raise_severity_rank m s :
  severity_rank (raise_severity m s)
  = Nat.max (severity_rank m) (severity_rank s).
Proof. destruct m, s; reflexivity. Qed.

Lemma severity_rank_inj a b : severity_rank a = severity_rank b -> a = b.
Proof. destruct a, b; cbn; congruence. Qed.

Lemma fold_severity_rank cs : forall m,
  severity_rank (fold_left (fun m c => raise_severity m (verdict c)) cs m)
  = Nat.max (severity_rank m)
            (list_max (map (fun c => severity_rank (verdict c)) cs)).
Proof.
  induction cs as [|c cs IH]; intros m; cbn [fold_left map list_max fold_right].
  - lia.
  - rewrite IH, raise_severity_rank.
    change (fold_right Nat.max 0%nat ?l) with (list_max l). lia.
Qed.

Lemma max_severity_rank cs :
  severity_rank (max_severity_of cs)
  = list_max (map (fun c => severity_rank (verdict c)) cs).
Proof. unfold max_severity_of. now rewrite fold_severity_rank. Qed.

Lemma list_max_perm l1 l2 : Permutation l1 l2 -> list_max l1 = list_max l2.
Proof.
  induction 1; cbn [list_max fold_right] in *;
    change (fold_right Nat.max 0%nat ?l) with (list_max l) in *; lia.
Qed.

Lemma list_max_attained (cs : list Critique) :
  cs <> [] ->
  exists c, In c cs /\
    severity_rank (verdict c)
    = list_max (map (fun c => severity_rank (verdict c)) cs).
Proof.
  induction cs as [|c cs IH]; [congruence|]. intros _.
  cbn [map list_max fold_right].
  change (fold_right Nat.max 0%nat ?l) with (list_max l).
  destruct cs as [|d cs].
  - exists c. split; [now left|]. cbn. lia.
  - destruct IH as (e & He & Hr); [discriminate|].
    destruct (Nat.max_spec (severity_rank (verdict c))
                (list_max (map (fun c => severity_rank (verdict c)) (d :: cs))))
      as [[_ ->]|[_ ->]].
    + exists e. split; [now right|exact Hr].
    + exists c. split; [now left|reflexivity].
Qed.

(** Property X10.  The severity of a critique round is the greatest
    verdict of its critiques in the order NONE < MINOR < MAJOR < FATAL;
    it is NONE for an empty round, at least the verdict of every
    critique, and does not depend on the order of the critiques. *)
Theorem round_severity_is_greatest_verdict cs :
  severity_rank (max_severity_of cs)
  = list_max (map (fun c => severity_rank (verdict c)) cs) /\
  (forall c, In c cs ->
     (severity_rank (verdict c) <= severity_rank (max_severity_of cs))%nat) /\
  (cs <> [] -> exists c, In c cs /\ verdict c = max_severity_of cs) /\
  (forall cs', Permutation cs cs' -> max_severity_of cs' = max_severity_of cs).
Proof.
  split; [apply max_severity_rank|]. split; [|split].
  - intros c Hin. rewrite max_severity_rank.
    assert (Forall (fun k => k <= list_max
              (map (fun c => severity_rank (verdict c)) cs))%nat
              (map (fun c => severity_rank (verdict c)) cs)) as H
      by (apply list_max_le; lia).
    rewrite Forall_forall in H. apply H.
    apply (in_map (fun c => severity_rank (verdict c))). exact Hin.
  - intros Hne.
    destruct (list_max_attained cs Hne) as (c & Hin & Hc).
    exists c. split; [exact Hin|]. apply severity_rank_inj.
    now rewrite max_severity_rank.
  - intros cs' Hp. apply severity_rank_inj. rewrite !max_severity_rank.
    symmetry. apply list_max_perm. now apply Permutation_map.
Qed.

Lemma rule_based_critique_fields reality_lower a :
  fracture (rule_based_critique reality_lower a) = a /\
  verdict (rule_based_critique reality_lower a) <> NONE.
Proof.
  unfold rule_based_critique. cbv zeta.
  repeat match goal with
         | |- context [if ?b then _ else _] => destruct b
         end; cbn; split; auto; discriminate.
Qed.

Lemma block_critique_verdict b : verdict (block_critique b) <> NONE.
Proof.
  unfold block_critique, block_severity. cbn [verdict].
  repeat match goal with
         | |- context [if ?b then _ else _] => destruct b
         end; discriminate.
Qed.

Lemma no_none_max cs :
  Forall (fun c => verdict c <> NONE) cs ->
  (max_severity_of cs = NONE <-> cs = []).
Proof.
  intros H. split; [|now intros ->].
  intros E. destruct cs as [|c cs]; [reflexivity|]. exfalso.
  destruct (list_max_attained (c :: cs)) as (d & Hd & Hr); [discriminate|].
  rewrite <- max_severity_rank, E in Hr.
  rewrite Forall_forall in H. apply (H d Hd).
  now apply severity_rank_inj.
Qed.

Lemma rule_based_critiques_fields state :
  map fracture (rule_based_critiques state) = assumption_tree state /\
  Forall (fun c => verdict c <> NONE) (rule_based_critiques state).
Proof.
  unfold rule_based_critiques.
  induction (assumption_tree state) as [|a l [IH1 IH2]]; cbn [map].
  - split; [reflexivity|constructor].
  - destruct (rule_based_critique_fields
                (Str.lower (reality_context state)) a) as [Hf Hv].
    split; [now rewrite Hf, IH1|now constructor].
Qed.

Lemma adversary_round env call state :
  exists cs,
    fst (adversary_critique env call state) = critique_result state cs /\
    Forall (fun c => verdict c <> NONE) cs /\
    (assumption_tree state <> [] -> cs <> []).
Proof.
  assert (exists cs,
            _adversary_critique_rule_based state = critique_result state cs /\
            Forall (fun c => verdict c <> NONE) cs /\
            (assumption_tree state <> [] -> cs <> [])) as Hrb.
  { exists (rule_based_critiques state).
    destruct (rule_based_critiques_fields state) as [Hf Hv].
    split; [reflexivity|]. split; [exact Hv|].
    intros Hne E. rewrite E in Hf. cbn in Hf. congruence. }
  unfold adversary_critique, bind, tell, ret.
  destruct (call_claude env Critiquing call) as [[response| |] l];
    cbn [fst]; try exact Hrb.
  destruct (map block_critique (parse_structured_response env response))
    as [|c cs] eqn:E; cbn [fst]; [exact Hrb|].
  exists (c :: cs). split; [reflexivity|]. split; [|discriminate].
  rewrite <- E. apply Forall_forall. intros x Hx.
  apply in_map_iff in Hx as (b & <- & _). apply block_critique_verdict.
Qed.

(** Property X11.  Whatever the oracle does, the critique node returns
    one round, numbered [revision_count + 1], the round severity and a
    plan status, and writes no other key.  No critique has verdict
    NONE, the round is non-empty when there are assumptions, and the
    status is [BROKEN] exactly when a critique is FATAL, and
    [UNDER_REVIEW] otherwise. *)
Theorem critique_node_result env call state :
  exists cs,
    fst (adversary_critique env call state) = critique_result state cs /\
    u_critique_history (critique_result state cs)
    = Some [ {| round := (revision_count state + 1)%Z; critiques := cs |} ] /\
    Forall (fun c => verdict c <> NONE) cs /\
    (assumption_tree state <> [] -> cs <> []) /\
    (u_plan_status (critique_result state cs) = Some BROKEN
     <-> exists c, In c cs /\ verdict c = FATAL) /\
    (u_plan_status (critique_result state cs) = Some BROKEN \/
     u_plan_status (critique_result state cs) = Some UNDER_REVIEW).
Proof.
  destruct (adversary_round env call state) as (cs & H1 & H2 & H3).
  exists cs. split; [exact H1|]. split; [reflexivity|].
  split; [exact H2|]. split; [exact H3|].
  cbn [critique_result u_plan_status]. rewrite <- max_severity_fatal.
  destruct (max_severity_of cs); split;
    try (split; [discriminate|discriminate]); auto;
    split; auto; discriminate.
Qed.

Lemma prefix_cons c s a :
  String.prefix (String c s) a = true ->
  exists r, a = String c r /\ String.prefix s r = true.
Proof.
  destruct a as [|d r]; cbn [String.prefix]; [discriminate|].
  destruct (ascii_dec c d) as [<-|]; [eauto|discriminate].
Qed.

(** Property X12.  The rule-based critic never rates MINOR an
    assumption whose lower-cased text contains "financ": it is MAJOR
    or FATAL.  Every assumption tagged [[Financial]] is one, the tag
    itself matching, so the two default assumptions always make a
    MAJOR round. *)
Theorem financial_assumptions_are_never_minor :
  (forall reality_lower a,
     Str.contains "financ" (Str.lower a) = true ->
     verdict (rule_based_critique reality_lower a) = MAJOR \/
     verdict (rule_based_critique reality_lower a) = FATAL) /\
  (forall a, String.prefix "[Financial]" a = true ->
     Str.contains "financ" (Str.lower a) = true) /\
  (forall reality_lower,
     max_severity_of (map (rule_based_critique reality_lower)
                          DEFAULT_ASSUMPTIONS) = MAJOR).
Proof.
  split; [|split].
  - intros ctx a H. unfold rule_based_critique. cbv zeta. rewrite H.
    cbn [orb].
    repeat match goal with
           | |- context [if ?b then _ else _] => destruct b
           end; cbn; auto.
  - intros a H.
    repeat (apply prefix_cons in H as (? & -> & H)).
    reflexivity.
  - intros ctx. vm_compute. reflexivity.
Qed.

Lemma financial_assumptions_are_never_minor_witness :
  verdict (rule_based_critique ""
             "[Financial] ASSUMPTION: Property costs (rent/purchase/transfer) match the assumed levels.")
  = MAJOR \/
  verdict (rule_based_critique ""
             "[Financial] ASSUMPTION: Property costs (rent/purchase/transfer) match the assumed levels.")
  = FATAL.
Proof.
  destruct financial_assumptions_are_never_minor as (H1 & H2 & _).
  apply H1, H2. reflexivity.
Defined.

(** Property X13.  The rule-based strategies answer one for one.  The
    critic returns one critique per assumption, in the order of the
    assumptions, each naming its assumption as the fracture and none
    with verdict NONE, so the round severity is NONE exactly when there
    is no assumption.  The proponent returns one defense per critique
    of the latest round, in order, each naming the critique's fracture
    and carrying a defense, a revision and a mitigation; with no
    critique round yet it returns a round without defenses.  Both
    number their round [revision_count + 1]. *)
Theorem rule_based_strategies_answer_one_for_one state :
  (_adversary_critique_rule_based state
   = critique_result state (rule_based_critiques state) /\
   map fracture (rule_based_critiques state) = assumption_tree state /\
   Forall (fun c => verdict c <> NONE) (rule_based_critiques state) /\
   (max_severity_of (rule_based_critiques state) = NONE
    <-> assumption_tree state = [])) /\
  exists ds,
    _proponent_revise_rule_based state = defense_result state ds /\
    u_defense_history (defense_result state ds)
    = Some [ {| defense_round := (revision_count state + 1)%Z;
                defenses := ds |} ] /\
    map response_to ds = map fracture (latest_critiques state) /\
    Forall complete_defense ds /\
    (forall history rd, critique_history state = history ++ [rd] ->
       map response_to ds = map fracture (critiques rd)) /\
    (critique_history state = [] -> ds = []).
Proof.
  split.
  - destruct (rule_based_critiques_fields state) as [Hf Hv].
    split; [reflexivity|]. split; [exact Hf|]. split; [exact Hv|].
    rewrite (no_none_max _ Hv). rewrite <- Hf.
    split; [now intros ->|]. intros E. now apply map_eq_nil in E.
  - exists (map rule_based_defense (latest_critiques state)).
    split; [reflexivity|]. split; [reflexivity|].
    assert (map response_to (map rule_based_defense (latest_critiques state))
            = map fracture (latest_critiques state)) as Hm.
    { rewrite map_map. apply map_ext. intros c.
      unfold rule_based_defense. now destruct (verdict c). }
    split; [exact Hm|]. split; [|split].
    + apply Forall_forall. intros d Hd.
      apply in_map_iff in Hd as (c & <- & _).
      unfold rule_based_defense, complete_defense.
      destruct (verdict c); cbn; repeat split; discriminate.
    + intros history rd E. rewrite Hm. unfold latest_critiques.
      now rewrite E, rev_unit.
    + intros E. unfold latest_critiques. now rewrite E.
Qed.

(** Property X14.  Whatever the oracle answers, the judge returns one
    of [BROKEN], [VALIDATED] and [NEEDS_REVISION], with
    [awaiting_human] true exactly for [BROKEN].  It validates or asks
    for a revision only below the cap and without a FATAL critique; it
    counts one more revision exactly when it asks for one; and at the
    cap or on a FATAL critique it decides without any request to the
    oracle. *)
Theorem judge_verdict_is_consistent env call state :
  let u := fst (human_judge env call state) in
  let below_cap := (revision_count state < max_revisions state)%Z in
  exists status,
    u_plan_status u = Some status /\
    (status = BROKEN \/ status = VALIDATED \/ status = NEEDS_REVISION) /\
    u_awaiting_human u
    = Some (match status with BROKEN => true | _ => false end) /\
    (status = VALIDATED ->
     below_cap /\ critique_severity state <> FATAL /\
     u_revision_count u = Some (revision_count state)) /\
    (status = NEEDS_REVISION ->
     below_cap /\ critique_severity state <> FATAL /\
     u_revision_count u = Some (revision_count state + 1)%Z) /\
    (status = BROKEN ->
     u_revision_count u = Some (revision_count state) \/
     u_revision_count u = None) /\
    (~ below_cap \/ critique_severity state = FATAL ->
     status = BROKEN /\ snd (human_judge env call state) = []).
Proof.
  cbv zeta. unfold human_judge, bind, tell, ret.
  destruct (max_revisions state <=? revision_count state)%Z eqn:E.
  - apply Z.leb_le in E. exists BROKEN.
    destruct (critique_severity state); cbn;
      repeat split; auto; try discriminate; try lia.
  - apply Z.leb_gt in E.
    destruct (critique_severity state) eqn:Hs.
    + exists BROKEN. cbn. repeat split; auto; discriminate.
    + destruct (call_claude env Judging call) as [[response| |] l];
        cbn [fst snd];
        try (destruct (search_verdict env response) as [[]|]);
        cbn; eexists; (split; [reflexivity|]);
        repeat split; auto; try discriminate;
        try (match goal with
             | H : _ \/ _ |- _ => destruct H as [H|H]; [lia|discriminate]
             end).
    + destruct (call_claude env Judging call) as [[response| |] l];
        cbn [fst snd];
        try (destruct (search_verdict env response) as [[]|]);
        cbn; eexists; (split; [reflexivity|]);
        repeat split; auto; try discriminate;
        try (match goal with
             | H : _ \/ _ |- _ => destruct H as [H|H]; [lia|discriminate]
             end).
    + destruct (call_claude env Judging call) as [[response| |] l];
        cbn [fst snd];
        try (destruct (search_verdict env response) as [[]|]);
        cbn; eexists; (split; [reflexivity|]);
        repeat split; auto; try discriminate;
        try (match goal with
             | H : _ \/ _ |- _ => destruct H as [H|H]; [lia|discriminate]
             end).
Qed.

(* ----------------------------------------------------------------- *)
(** ** Scores and retrieval *)

Lemma score_fact_split ratio f tokens cats :
  _score_fact ratio f tokens cats
  == Qsum (map (keyword_points ratio tokens) (keywords f))
     + category_points f cats.
Proof.
  unfold _score_fact, category_points.
  pose proof (exact_pass_eq tokens (keywords f) 0.0) as He.
  pose proof (fuzzy_pass_eq ratio tokens (keywords f)
                (fold_left (fun score keyword =>
                   exact_loop (Str.lower keyword) tokens score)
                   (keywords f) 0.0)) as Hf.
  pose proof (points_split ratio tokens (keywords f)) as Hs.
  unfold CATEGORY_BOOST_WEIGHT.
  destruct (Str.mem (category f) cats); lra.
Qed.

Lemma keyword_points_range ratio tokens kw :
  0 <= keyword_points ratio tokens kw <= 3.
Proof.
  unfold keyword_points. cbv zeta.
  destruct (Str.mem _ tokens); [lra|].
  destruct (Qle_bool 0.65 _); [lra|].
  destruct (existsb _ tokens); lra.
Qed.

Lemma keyword_sum_range ratio tokens kws :
  0 <= Qsum (map (keyword_points ratio tokens) kws)
  <= 3 * inject_Z (Z.of_nat (List.length kws)).
Proof.
  induction kws as [|kw r IH]; cbn [map Qsum List.length].
  - change (inject_Z (Z.of_nat 0)) with 0. lra.
  - pose proof (keyword_points_range ratio tokens kw).
    rewrite Nat2Z.inj_succ. unfold Z.succ. rewrite inject_Z_plus.
    change (inject_Z 1) with 1. lra.
Qed.

Lemma keyword_sum_member ratio tokens kws kw :
  In kw kws ->
  keyword_points ratio tokens kw
  <= Qsum (map (keyword_points ratio tokens) kws).
Proof.
  induction kws as [|k r IH]; cbn [map Qsum In]; [intros []|].
  intros [->|H].
  - pose proof (keyword_sum_range ratio tokens r). lra.
  - pose proof (keyword_points_range ratio tokens k).
    specialize (IH H). lra.
Qed.

(** Property X15.  For every similarity function, the score of a fact
    lies between 0 and three times its number of keywords plus 2; and
    a keyword that, lower-cased, equals a token of the plan brings the
    score to 3.0 at least. *)
Theorem score_is_bounded ratio f plan_tokens detected :
  (0 <= _score_fact ratio f plan_tokens detected
   <= 3 * inject_Z (Z.of_nat (List.length (keywords f))) + 2) /\
  (forall keyword,
     In keyword (keywords f) ->
     Str.mem (Str.lower keyword) plan_tokens = true ->
     3 <= _score_fact ratio f plan_tokens detected).
Proof.
  pose proof (score_fact_split ratio f plan_tokens detected) as Hs.
  pose proof (keyword_sum_range ratio plan_tokens (keywords f)) as Hr.
  assert (0 <= category_points f detected <= 2) as Hc
    by (unfold category_points; destruct (Str.mem _ _); lra).
  split; [lra|].
  intros kw Hin Hm.
  pose proof (keyword_sum_member ratio plan_tokens _ _ Hin) as Hk.
  unfold keyword_points at 1 in Hk. cbv zeta in Hk. rewrite Hm in Hk. lra.
Qed.

Lemma score_is_bounded_witness :
  3 <= _score_fact Difflib.ratio (hd blank_keyword_fact Offline.database)
         (_tokenize "Our turnover is small") [].
Proof.
  apply (score_is_bounded Difflib.ratio (hd blank_keyword_fact Offline.database)
           (_tokenize "Our turnover is small") [])
    with (keyword := "turnover").
  - vm_compute. auto.
  - vm_compute. reflexivity.
Defined.

(** Property X16.  The category boost is worth exactly 2.0: the score
    of a fact is its score without any detected category, plus 2.0
    when the fact's category is detected.  A fact of a detected
    category therefore scores 2.0 at least, whatever its keywords,
    and is kept by the retrieval. *)
Theorem category_boost_is_two ratio f plan_tokens detected :
  _score_fact ratio f plan_tokens detected
  == _score_fact ratio f plan_tokens []
     + (if Str.mem (category f) detected then 2 else 0) /\
  (Str.mem (category f) detected = true ->
   2 <= _score_fact ratio f plan_tokens detected /\
   positive (f, _score_fact ratio f plan_tokens detected) = true).
Proof.
  pose proof (score_fact_split ratio f plan_tokens detected) as Hs.
  pose proof (score_fact_split ratio f plan_tokens []) as H0.
  pose proof (keyword_sum_range ratio plan_tokens (keywords f)) as Hr.
  unfold category_points in *. cbn [Str.mem existsb] in H0.
  split.
  - destruct (Str.mem (category f) detected); lra.
  - intros Hm. rewrite Hm in Hs. split; [lra|].
    unfold positive. cbn [snd].
    destruct (Qlt_le_dec 0 (_score_fact ratio f plan_tokens detected));
      [reflexivity|lra].
Qed.

Lemma category_boost_is_two_witness :
  2 <= _score_fact Difflib.ratio (hd blank_keyword_fact Offline.database)
         (_tokenize "vat") (_detect_categories "vat").
Proof.
  apply (category_boost_is_two Difflib.ratio
           (hd blank_keyword_fact Offline.database)
           (_tokenize "vat") (_detect_categories "vat")).
  vm_compute. reflexivity.
Defined.

Lemma slice_to_length {A} (k : Z) (l : list A) :
  List.length (slice_to k l) = slice_length k (List.length l).
Proof.
  unfold slice_to, slice_length.
  destruct (0 <=? k)%Z; rewrite length_firstn; lia.
Qed.

Lemma slice_to_prefix {A} (k : Z) (l : list A) :
  exists rest, l = slice_to k l ++ rest.
Proof.
  unfold slice_to.
  destruct (0 <=? k)%Z; eexists; symmetry; apply firstn_skipn.
Qed.

(** Property X17.  For every bound [top_k], also a negative one, the
    retrieval returns a prefix of the full ranking: [top_k] entries
    when it is not negative and that many facts score above 0, all but
    the last [-top_k] when it is negative.  Every entry is a fact of
    the corpus with its score, and that score is above 0. *)
Theorem retrieval_respects_top_k ratio database plan_text top_k :
  let kept := filter positive (scored_corpus ratio database plan_text) in
  let out := retrieve_relevant_facts ratio database plan_text top_k in
  (exists rest, sort_desc kept = out ++ rest) /\
  List.length out = slice_length top_k (List.length kept) /\
  (forall p, In p out ->
     In (fst p) database /\
     snd p = _score_fact ratio (fst p) (_tokenize plan_text)
                         (_detect_categories plan_text) /\
     0 < snd p).
Proof.
  cbv zeta. unfold retrieve_relevant_facts. rewrite score_all_filter.
  fold (scored_corpus ratio database plan_text).
  set (kept := filter positive (scored_corpus ratio database plan_text)).
  split; [apply slice_to_prefix|]. split.
  - rewrite slice_to_length.
    now rewrite (Permutation_length (sort_desc_perm kept)).
  - intros p Hp.
    destruct (slice_to_prefix top_k (sort_desc kept)) as [rest Hrest].
    assert (In p kept) as Hk.
    { apply (Permutation_in _ (sort_desc_perm kept)).
      rewrite Hrest. apply in_or_app. now left. }
    apply filter_In in Hk as [Hk Hpos].
    unfold scored_corpus in Hk. apply in_map_iff in Hk as (f & <- & Hf).
    cbn [fst snd]. repeat split; auto.
    unfold positive in Hpos. cbn [snd] in Hpos.
    now destruct (Qlt_le_dec 0 _).
Qed.

Lemma render_citations fmt results : forall i,
  snd (render fmt i results) = citations_from i results.
Proof.
  induction results as [|[f score] rest IH]; intros i;
    cbn [render citations_from]; [reflexivity|].
  specialize (IH (S i)). destruct (render fmt (S i) rest) as [cp ci].
  cbn [snd] in *. now rewrite IH.
Qed.

Lemma citations_from_length results : forall i,
  List.length (citations_from i results) = List.length results.
Proof.
  induction results as [|p r IH]; intros i; cbn [citations_from List.length];
    [reflexivity|now rewrite IH].
Qed.

Lemma fetch_citations ratio fmt db st :
  u_reality_citations (fetch_reality ratio fmt db st)
  = Some (match retrieve_relevant_facts ratio db (business_plan st) TOP_K with
          | [] => [NO_MATCH_CITATION]
          | results => citations_from 1 results
          end).
Proof.
  unfold fetch_reality.
  destruct (retrieve_relevant_facts ratio db (business_plan st) TOP_K)
    as [|p rest]; [reflexivity|].
  pose proof (render_citations fmt (p :: rest) 1) as H.
  destruct (render fmt 1 (p :: rest)) as [cp ci]. cbn [snd] in H.
  now rewrite H.
Qed.

Lemma retrieve_default_length ratio db plan :
  (List.length (retrieve_relevant_facts ratio db plan TOP_K) <= 10)%nat.
Proof.
  unfold retrieve_relevant_facts. rewrite slice_to_length.
  unfold slice_length, TOP_K. cbn. lia.
Qed.

(** Property X18.  [fetch_reality] writes the two reality keys and no
    other.  Its citation list has between 1 and 10 entries: one per
    retrieved fact, in rank order and numbered from 1, or the single
    sentinel citation when nothing was retrieved. *)
Theorem fetch_reality_cites_each_result ratio format_1f database state :
  let results :=
    retrieve_relevant_facts ratio database (business_plan state) TOP_K in
  exists context citations,
    fetch_reality ratio format_1f database state
    = {| u_assumption_tree := None;
         u_reality_context := Some context;
         u_reality_citations := Some citations;
         u_critique_history := None; u_defense_history := None;
         u_plan_status := None; u_critique_severity := None;
         u_revision_count := None; u_human_override := None;
         u_awaiting_human := None |} /\
    (1 <= List.length citations <= 10)%nat /\
    citations = match results with
                | [] => [NO_MATCH_CITATION]
                | _ :: _ => citations_from 1 results
                end.
Proof.
  cbv zeta.
  destruct (fetch_shape ratio format_1f database state) as (ctx & cits & E).
  pose proof (fetch_citations ratio format_1f database state) as Hc.
  pose proof (retrieve_default_length ratio database (business_plan state))
    as Hl.
  rewrite E in Hc. cbn [u_reality_citations] in Hc. injection Hc as Hc.
  exists ctx, cits. split; [exact E|]. rewrite Hc.
  destruct (retrieve_relevant_facts ratio database (business_plan state) TOP_K)
    as [|p rest].
  - cbn. split; [lia|reflexivity].
  - cbn [List.length] in *. rewrite citations_from_length.
    split; [lia|reflexivity].
Qed.

(* ----------------------------------------------------------------- *)
(** ** The rounds of a run *)

(** The loop body, by the severity of the round it records. *)
Lemma loop_body_unfold env i st :
  exists cs,
    fst (adversary_critique env i st) = critique_result st cs /\
    let ea := snd (adversary_critique env i st) in
    let st3 := after_critique st cs in
    loop_body env i st
    = match max_severity_of cs with
      | FATAL => ((st3, true), critique_events st cs ea)
      | MAJOR =>
          let ru := proponent_revise env i st3 in
          let st4 := set_defense_history
                       (defense_history st3
                        ++ get (u_defense_history (fst ru)) []) st3 in
          let ju := human_judge env i st4 in
          let st5 := state_update st4 (fst ju) in
          ((st5, stops st5),
           critique_events st cs ea
           ++ Enter Node_proponent_revise :: snd ru ++ [Store st4]
           ++ Enter Node_human_judge :: snd ju ++ [Store st5])
      | _ =>
          let ju := human_judge env i st3 in
          let st5 := state_update st3 (fst ju) in
          ((st5, stops st5),
           critique_events st cs ea
           ++ Enter Node_human_judge :: snd ju ++ [Store st5])
      end.
Proof.
  destruct (adversary_shape env i st) as [cs Hcs].
  exists cs. split; [exact Hcs|]. cbv zeta.
  unfold loop_body, bind, tell, assign, ret.
  destruct (adversary_critique env i st) as [cu ea].
  cbn [fst snd] in *. subst cu.
  cbn [critique_result u_critique_history u_critique_severity u_plan_status get].
  fold (after_critique st cs).
  unfold should_continue.
  change (critique_severity (after_critique st cs)) with (max_severity_of cs).
  unfold critique_events.
  destruct (max_severity_of cs) eqn:Hsev.
  - cbn [fst snd app]. reflexivity.
  - destruct (proponent_revise env i (after_critique st cs)) as [ru er].
    cbn [fst snd].
    destruct (human_judge env i _) as [ju ej]. cbn [fst snd].
    unfold stops. destruct (route_after_judge _);
      cbn [app fst snd]; rewrite ?app_nil_r;
      repeat rewrite <- app_assoc; cbn [app]; reflexivity.
  - destruct (human_judge env i _) as [ju ej]. cbn [fst snd].
    unfold stops. destruct (route_after_judge _);
      cbn [app fst snd]; rewrite ?app_nil_r;
      repeat rewrite <- app_assoc; cbn [app]; reflexivity.
  - destruct (human_judge env i _) as [ju ej]. cbn [fst snd].
    unfold stops. destruct (route_after_judge _);
      cbn [app fst snd]; rewrite ?app_nil_r;
      repeat rewrite <- app_assoc; cbn [app]; reflexivity.
Qed.

(** What one pass of the loop body records and which nodes it enters. *)
Lemma body_run_trace env i st r evs :
  body_run env i st r evs ->
  exists cs dl,
    critique_history (fst r)
    = critique_history st
      ++ [ {| round := (revision_count st + 1)%Z; critiques := cs |} ] /\
    critique_severity (fst r) = max_severity_of cs /\
    defense_history (fst r) = defense_history st ++ dl /\
    map defense_round dl
    = (if is_major (max_severity_of cs)
       then [(revision_count st + 1)%Z] else []) /\
    entered Node_adversary_critique evs = 1%nat /\
    entered Node_proponent_revise evs = List.length dl /\
    entered Node_human_judge evs
    = (if is_fatal (max_severity_of cs) then 0 else 1)%nat /\
    (max_severity_of cs = FATAL -> snd r = true).
Proof.
  intros H. run_cases H.
  - exists cs, []. rewrite !critique_events_entered by assumption.
    cbn. rewrite Hsev, app_nil_r. cbn. repeat split; auto.
  - exists cs, [ {| defense_round := (revision_count st + 1)%Z;
                    defenses := ds |} ].
    change (Enter Node_proponent_revise :: er ++ ?l)
      with ([Enter Node_proponent_revise] ++ er ++ l).
    change (Enter Node_human_judge :: ej ++ ?l)
      with ([Enter Node_human_judge] ++ ej ++ l).
    rewrite !entered_app, !critique_events_entered by assumption.
    rewrite !(entered_oracle _ Defending er Her),
            !(entered_oracle _ Judging ej Je).
    rewrite Hsev. subst st5 st4 st3.
    inversion Jo; subst; cbn; rewrite ?Hsev;
      repeat split; auto; discriminate.
  - exists cs, [].
    change (Enter Node_human_judge :: ej ++ ?l)
      with ([Enter Node_human_judge] ++ ej ++ l).
    rewrite !entered_app, !critique_events_entered by assumption.
    rewrite !(entered_oracle _ Judging ej Je).
    subst st5 st3. rewrite app_nil_r.
    inversion Jo; subst; destruct Hsev as [Hsev|Hsev]; rewrite Hsev; cbn;
      rewrite ?Hsev; repeat split; auto; discriminate.
Qed.

Lemma round_numbers_cons k n :
  round_numbers k (S n) = (Z.of_nat k + 1)%Z :: round_numbers (S k) n.
Proof. reflexivity. Qed.

(** The loop of a run, from revision [k] with [n >= 1] iterations left
    up to the cap: what it records and which nodes it enters. *)
Lemma debate_loop_trace env : forall n k st,
  revision_count st = Z.of_nat k ->
  (max_revisions st + 1)%Z = Z.of_nat (k + n) ->
  (1 <= n)%nat ->
  let r := debate_loop env (seq k n) st in
  exists cr last dr,
    critique_history (fst r) = critique_history st ++ cr ++ [last] /\
    defense_history (fst r) = defense_history st ++ dr /\
    map round (cr ++ [last]) = round_numbers k (S (List.length cr)) /\
    map defense_round dr
    = map round (filter (fun rd => is_major (round_severity rd))
                        (cr ++ [last])) /\
    Forall (fun rd => round_severity rd <> FATAL) cr /\
    revision_count (fst r) = Z.of_nat (k + List.length cr) /\
    critique_severity (fst r) = round_severity last /\
    (S (List.length cr) <= n)%nat /\
    entered Node_adversary_critique (snd r) = S (List.length cr) /\
    entered Node_proponent_revise (snd r) = List.length dr /\
    entered Node_human_judge (snd r)
    = (if is_fatal (round_severity last)
       then List.length cr else S (List.length cr)).
Proof.
  induction n as [|n IH]; intros k st Hk Hm Hn; [lia|].
  cbv zeta. cbn [seq]. step_loop env k st.
  pose proof (body_run_state _ _ _ _ _ R) as (Rm & Rt & Rf & _ & _).
  pose proof (body_run_trace _ _ _ _ _ R)
    as (cs & dl & Hc & Hs & Hd & Hdl & Ea & Ep & Ej & Hfatal).
  cbn [fst snd] in *.
  set (rd := {| round := (revision_count st + 1)%Z; critiques := cs |}) in *.
  destruct stop; cbn [fst snd].
  - exists [], rd, dl. subst rd. rewrite app_nil_r. cbn [app List.length].
    destruct (Rt eq_refl) as [_ Hr].
    repeat split; auto; try lia.
    + cbn. unfold round_numbers. cbn. now rewrite Hk.
    + rewrite Hdl. cbn [filter].
      change (round_severity {| round := (revision_count st + 1)%Z;
                                critiques := cs |})
        with (max_severity_of cs).
      destruct (is_major (max_severity_of cs)); reflexivity.
  - destruct (Rf eq_refl) as (_ & Hr & Hlt & _).
    assert (max_severity_of cs <> FATAL) as Hnf
      by (intros E; specialize (Hfatal E); discriminate).
    destruct (IH (S k) st') as (cr & last & dr & I1 & I2 & I3 & I4 & I5 & I6
                                  & I7 & I8 & I9 & I10 & I11); try lia.
    exists (rd :: cr), last, (dl ++ dr). subst rd.
    rewrite !entered_app, Ea, Ep, Ej, I9, I10, I11.
    rewrite I1, I2, Hc, Hd, <- !app_assoc. cbn [app List.length].
    repeat split; auto; try lia.
    + cbn [map]. rewrite round_numbers_cons, <- I3. cbn [round].
      now rewrite Hk.
    + rewrite map_app, Hdl, I4. cbn [filter].
      change (round_severity {| round := (revision_count st + 1)%Z;
                                critiques := cs |})
        with (max_severity_of cs).
      destruct (is_major (max_severity_of cs)); reflexivity.
    + now rewrite length_app.
    + destruct (max_severity_of cs); try congruence;
        destruct (is_fatal (round_severity last)); cbn; lia.
Qed.

Lemma body_run_loop_nodes env i st r evs :
  body_run env i st r evs ->
  entered Node_extract_assumptions evs = 0%nat /\
  entered Node_retrieve_reality evs = 0%nat.
Proof.
  intros H. run_cases H.
  - rewrite !critique_events_entered by assumption. cbn. auto.
  - change (Enter Node_proponent_revise :: er ++ ?l)
      with ([Enter Node_proponent_revise] ++ er ++ l).
    change (Enter Node_human_judge :: ej ++ ?l)
      with ([Enter Node_human_judge] ++ ej ++ l).
    rewrite !entered_app, !critique_events_entered by assumption.
    rewrite !(entered_oracle _ Defending er Her),
            !(entered_oracle _ Judging ej Je).
    cbn. auto.
  - change (Enter Node_human_judge :: ej ++ ?l)
      with ([Enter Node_human_judge] ++ ej ++ l).
    rewrite !entered_app, !critique_events_entered by assumption.
    rewrite !(entered_oracle _ Judging ej Je).
    cbn. auto.
Qed.

Lemma debate_loop_nodes env : forall its st,
  entered Node_extract_assumptions (snd (debate_loop env its st)) = 0%nat /\
  entered Node_retrieve_reality (snd (debate_loop env its st)) = 0%nat.
Proof.
  induction its as [|i rest IH]; intros st; [cbn; auto|].
  step_loop env i st.
  apply body_run_loop_nodes in R as [R1 R2]. cbn [fst snd] in *.
  destruct stop; cbn [snd].
  - rewrite app_nil_r. auto.
  - destruct (IH st') as [I1 I2]. rewrite !entered_app. lia.
Qed.

(** A run is the prelude followed by the debate loop. *)
Lemma run_unfold env business_plan cap :
  let m := get cap (settings_max_revisions env) in
  let st := debate_start env business_plan cap in
  let loop := debate_loop env (range (m + 1)) st in
  stress_test_plan env business_plan cap
  = (result_of (fst loop),
     GraphWarning LanggraphMissing :: GraphWarning GraphExecutionFailed
     :: prelude env (initial_state business_plan m) ++ snd loop) /\
  revision_count st = 0%Z /\ max_revisions st = m /\
  awaiting_human st = false /\ critique_history st = [] /\
  defense_history st = [] /\ plan_status st = UNDER_REVIEW.
Proof.
  cbv zeta.
  unfold stress_test_plan, build_assume_break_graph, debate_start,
    bind, tell, ret.
  set (m := get cap (settings_max_revisions env)).
  rewrite invoke_unfold.
  pose proof (prepared_fields env (initial_state business_plan m))
    as (Hrc & Hmax & Ha & Hc & Hd & _ & _ & Hs).
  cbv zeta in *.
  change (max_revisions (setdefaults (initial_state business_plan m)))
    with m in Hmax.
  rewrite Hmax. cbn [fst snd app]. rewrite app_nil_r.
  repeat split; assumption.
Qed.

(** What a run records and which nodes it enters: without a debate
    when the cap is negative, and with at least one round otherwise. *)
Lemma run_trace env business_plan cap :
  let m := get cap (settings_max_revisions env) in
  let run := stress_test_plan env business_plan cap in
  let r := fst run in
  entered Node_extract_assumptions (snd run) = 1%nat /\
  entered Node_retrieve_reality (snd run) = 1%nat /\
  (((m < 0)%Z /\
    raw_state r = debate_start env business_plan cap /\
    r_critiques r = [] /\ r_defenses r = [] /\
    r_revision_count r = 0%Z /\ r_plan_status r = UNDER_REVIEW /\
    entered Node_adversary_critique (snd run) = 0%nat /\
    entered Node_proponent_revise (snd run) = 0%nat /\
    entered Node_human_judge (snd run) = 0%nat) \/
   ((0 <= m)%Z /\
    exists cr last,
      r_critiques r = cr ++ [last] /\
      map round (cr ++ [last]) = round_numbers 0 (S (List.length cr)) /\
      map defense_round (r_defenses r)
      = map round (filter (fun rd => is_major (round_severity rd))
                          (cr ++ [last])) /\
      Forall (fun rd => round_severity rd <> FATAL) cr /\
      r_revision_count r = Z.of_nat (List.length cr) /\
      r_critique_severity r = round_severity last /\
      (S (List.length cr) <= Z.to_nat (m + 1))%nat /\
      entered Node_adversary_critique (snd run) = S (List.length cr) /\
      entered Node_proponent_revise (snd run) = List.length (r_defenses r) /\
      entered Node_human_judge (snd run)
      = (if is_fatal (round_severity last)
         then List.length cr else S (List.length cr)))).
Proof.
  cbv zeta.
  destruct (run_unfold env business_plan cap)
    as (-> & Hrc & Hmax & Ha & Hc & Hd & Hs).
  set (m := get cap (settings_max_revisions env)) in *.
  set (st := debate_start env business_plan cap) in *.
  cbn [fst snd]. rewrite !entered_graph_warning.
  destruct (debate_loop_nodes env (range (m + 1)) st) as [N1 N2].
  rewrite !entered_app, !prelude_entered, N1, N2.
  split; [reflexivity|]. split; [reflexivity|].
  destruct (Z.ltb m 0) eqn:E.
  - apply Z.ltb_lt in E. left. split; [exact E|].
    unfold range. replace (Z.to_nat (m + 1)) with 0%nat by lia.
    cbn [seq debate_loop ret fst snd result_of raw_state r_critiques
         r_defenses r_revision_count r_plan_status].
    repeat split; auto.
  - apply Z.ltb_ge in E. right. split; [exact E|].
    unfold range.
    destruct (debate_loop_trace env (Z.to_nat (m + 1)) 0 st)
      as (cr & last & dr & I1 & I2 & I3 & I4 & I5 & I6 & I7 & I8 & I9
          & I10 & I11); try lia.
    rewrite Hc in I1. rewrite Hd in I2. cbn [app] in I1, I2.
    exists cr, last.
    cbn [result_of r_critiques r_defenses r_revision_count
         r_critique_severity].
    rewrite I1, I2, I9, I10, I11. cbn [Nat.add] in *.
    repeat split; auto.
Qed.

(** Property X19.  When the cap is not negative, the critique rounds
    of a run are numbered 1, 2, .. without a gap, there is at least one
    of them and at most [max_revisions + 1], and the revision count of
    the result is the number of rounds minus one. *)
Theorem rounds_are_numbered_from_one env business_plan cap :
  let m := get cap (settings_max_revisions env) in
  let r := fst (stress_test_plan env business_plan cap) in
  let n := List.length (r_critiques r) in
  (0 <= m)%Z ->
  map round (r_critiques r) = round_numbers 0 n /\
  (1 <= Z.of_nat n <= m + 1)%Z /\
  r_revision_count r = (Z.of_nat n - 1)%Z.
Proof.
  cbv zeta. intros Hm.
  destruct (run_trace env business_plan cap) as (_ & _ & [H|H]);
    [destruct H as [H _]; lia|].
  destruct H as (_ & cr & last & -> & Hr & _ & _ & Hrc & _ & Hn & _).
  rewrite length_app. cbn [List.length].
  replace (List.length cr + 1)%nat with (S (List.length cr)) by lia.
  rewrite Hr, Hrc. repeat split; lia.
Qed.

Lemma rounds_are_numbered_from_one_witness :
  r_revision_count (fst crop_run)
  = (Z.of_nat (List.length (r_critiques (fst crop_run))) - 1)%Z.
Proof.
  apply (rounds_are_numbered_from_one Offline.env "crop" None).
  cbn. lia.
Defined.

(** Property X20.  A run records a defense round exactly for the
    critique rounds of severity MAJOR, in the same order and under the
    same round number: the defense rounds answer the MAJOR rounds one
    for one. *)
Theorem defense_rounds_answer_major_rounds env business_plan cap :
  let r := fst (stress_test_plan env business_plan cap) in
  map defense_round (r_defenses r)
  = map round (filter (fun rd => is_major (round_severity rd))
                      (r_critiques r)).
Proof.
  cbv zeta.
  destruct (run_trace env business_plan cap) as (_ & _ & [H|H]).
  - destruct H as (_ & _ & -> & -> & _). reflexivity.
  - destruct H as (_ & cr & last & -> & _ & Hd & _). exact Hd.
Qed.

(** Property X21.  Only the last critique round of a run can be FATAL,
    and the critique severity of the result is the severity of that
    last round. *)
Theorem only_the_last_round_can_be_fatal env business_plan cap :
  let r := fst (stress_test_plan env business_plan cap) in
  forall earlier last,
    r_critiques r = earlier ++ [last] ->
    Forall (fun rd => round_severity rd <> FATAL) earlier /\
    r_critique_severity r = round_severity last.
Proof.
  cbv zeta. intros earlier last E.
  destruct (run_trace env business_plan cap) as (_ & _ & [H|H]).
  - destruct H as (_ & _ & H & _). rewrite H in E.
    now destruct earlier.
  - destruct H as (_ & cr & l & Hc & _ & _ & Hf & _ & Hs & _).
    rewrite Hc in E. apply app_inj_tail in E as [<- <-]. auto.
Qed.

Lemma only_the_last_round_can_be_fatal_witness :
  r_critique_severity (fst loan_run)
  = round_severity (nth 1 (r_critiques (fst loan_run))
                        {| round := 0; critiques := [] |}).
Proof.
  apply (only_the_last_round_can_be_fatal Offline.env "we need a loan"
           (Some 1%Z)
           [nth 0 (r_critiques (fst loan_run))
                {| round := 0; critiques := [] |}]).
  vm_compute. reflexivity.
Defined.

(** Property X22.  A run enters the extraction and the retrieval once
    each, the critique once per critique round, the proponent once per
    defense round, and the judge once per critique round, except for a
    last round that is FATAL. *)
Theorem nodes_are_entered_once_per_round env business_plan cap :
  let run := stress_test_plan env business_plan cap in
  let r := fst run in
  entered Node_extract_assumptions (snd run) = 1%nat /\
  entered Node_retrieve_reality (snd run) = 1%nat /\
  entered Node_adversary_critique (snd run) = List.length (r_critiques r) /\
  entered Node_proponent_revise (snd run) = List.length (r_defenses r) /\
  (entered Node_human_judge (snd run)
   + (if is_fatal (r_critique_severity r) then 1 else 0)
   = List.length (r_critiques r))%nat.
Proof.
  cbv zeta.
  destruct (run_trace env business_plan cap) as (E1 & E2 & [H|H]).
  - destruct H as (Hm & Hst & Hc & Hd & _ & _ & Ea & Ep & Ej).
    rewrite E1, E2, Ea, Ep, Ej, Hc, Hd.
    destruct (run_unfold env business_plan cap) as (Hrun & _).
    rewrite Hrun. cbn [fst result_of r_critique_severity].
    cbv zeta in Hrun. unfold range.
    replace (Z.to_nat (get cap (settings_max_revisions env) + 1))
      with 0%nat by lia.
    cbn [seq debate_loop ret fst].
    unfold debate_start.
    pose proof (prepared_fields env
                  (initial_state business_plan
                     (get cap (settings_max_revisions env)))) as P.
    cbv zeta in P.
    assert (critique_severity
              (prepared env (initial_state business_plan
                               (get cap (settings_max_revisions env))))
            = NONE) as ->; [|cbn; auto].
    unfold prepared, extracted.
    destruct (extract_shape env 0
                (setdefaults (initial_state business_plan
                                (get cap (settings_max_revisions env)))))
      as [l ->].
    destruct (fetch_shape (SequenceMatcher_ratio env) (format_1f env)
                (ZAMBIAN_REALITY_DATABASE env)
                (state_update
                   (setdefaults (initial_state business_plan
                                   (get cap (settings_max_revisions env))))
                   (extraction_result l)))
      as (ctx & cits & ->).
    reflexivity.
  - destruct H as (_ & cr & last & Hc & _ & _ & _ & _ & Hs & _ & Ea & Ep & Ej).
    rewrite E1, E2, Ea, Ep, Ej, Hc, Hs, length_app. cbn [List.length].
    repeat split; auto; try lia.
    destruct (is_fatal (round_severity last)); lia.
Qed.

(** Property X23.  Given a dictionary whose cap is negative,
    [MockAssumeBreakGraph.invoke] does not run its debate loop: it
    returns the state as the extraction and the retrieval left it,
    with status [UNDER_REVIEW], neither [VALIDATED] nor [BROKEN], a
    non-empty assumption tree, and the histories and the revision
    count of its input; the critique, the proponent and the judge are
    never entered. *)
Theorem negative_cap_skips_the_debate env d :
  (max_revisions (setdefaults d) < 0)%Z ->
  let run := MockAssumeBreakGraph.invoke env d in
  let st := fst run in
  st = prepared env d /\
  snd run = prelude env d /\
  plan_status st = UNDER_REVIEW /\
  assumption_tree st <> [] /\
  critique_history st = critique_history (setdefaults d) /\
  defense_history st = defense_history (setdefaults d) /\
  revision_count st = revision_count (setdefaults d) /\
  entered Node_adversary_critique (snd run) = 0%nat /\
  entered Node_proponent_revise (snd run) = 0%nat /\
  entered Node_human_judge (snd run) = 0%nat.
Proof.
  intros Hm. cbv zeta. rewrite invoke_unfold.
  pose proof (prepared_fields env d)
    as (Hrc & Hmax & _ & Hc & Hd & _ & _ & Hs).
  cbv zeta in *. rewrite Hmax. unfold range.
  replace (Z.to_nat (max_revisions (setdefaults d) + 1)) with 0%nat by lia.
  cbn [seq debate_loop ret fst snd]. rewrite app_nil_r, !prelude_entered.
  repeat split; auto.
  unfold prepared, extracted.
  destruct (extraction_nonempty env 0 (setdefaults d)) as (l & Hl & ->).
  destruct (fetch_shape (SequenceMatcher_ratio env) (format_1f env)
              (ZAMBIAN_REALITY_DATABASE env)
              (state_update (setdefaults d) (extraction_result l)))
    as (ctx & cits & ->).
  exact Hl.
Qed.

Lemma negative_cap_skips_the_debate_witness :
  plan_status
    (fst (MockAssumeBreakGraph.invoke Offline.env
            (initial_state "crop" (-1))))
  = UNDER_REVIEW.
Proof.
  apply (negative_cap_skips_the_debate Offline.env
           (initial_state "crop" (-1))).
  reflexivity.
Defined.

(* ----------------------------------------------------------------- *)
(** ** The oracle budget of a run *)

Lemma requests_app l1 l2 :
  requests (l1 ++ l2) = (requests l1 + requests l2)%nat.
Proof. unfold requests. now rewrite filter_app, length_app. Qed.

Lemma quiet_app l1 l2 : quiet (l1 ++ l2) = quiet l1 && quiet l2.
Proof. unfold quiet. apply forallb_app. Qed.

Lemma requests_map_Request c call l :
  requests (map (Request c call) l) = List.length l.
Proof.
  unfold requests. induction l as [|a l IH]; cbn; [reflexivity|].
  now rewrite IH.
Qed.

Lemma call_claude_budget env c call :
  (requests (snd (call_claude env c call)) <= 3)%nat /\
  (anthropic_api_key env = "" -> call_claude env c call = (NoAPIKeyError, [])).
Proof.
  split.
  - unfold call_claude. destruct (String.eqb _ _); [cbn; lia|].
    cbv zeta. change (range 3) with (seq 0 3).
    destruct (retry_loop_requests_prefix env c call 3 3 0) as (k & Hk & _ & ->).
    rewrite requests_map_Request, length_seq. exact Hk.
  - intros Hk. unfold call_claude. now rewrite Hk.
Qed.

Ltac node_budget env c call :=
  let Hb := fresh "Hb" in
  let Hq := fresh "Hq" in
  destruct (call_claude_budget env c call) as [Hb Hq];
  split;
  [ unfold bind, tell, ret;
    destruct (call_claude env c call) as [[response| |] l]; cbn [snd] in Hb
  | let Hk := fresh "Hk" in
    intros Hk; unfold bind, tell, ret; rewrite (Hq Hk) ].

Lemma extract_budget env call st :
  (requests (snd (extract_assumptions env call st)) <= 3)%nat /\
  (anthropic_api_key env = "" ->
   extract_assumptions env call st
   = (extraction_result (_extract_assumptions_rule_based (business_plan st)),
      [])).
Proof.
  unfold extract_assumptions. node_budget env Extraction call.
  - destruct (assumption_lines env response); cbn [snd];
      rewrite requests_app; cbn; lia.
  - cbn [snd]. rewrite requests_app. cbn. lia.
  - cbn [snd]. rewrite !requests_app. cbn. lia.
  - reflexivity.
Qed.

Lemma adversary_budget env call st :
  (requests (snd (adversary_critique env call st)) <= 3)%nat /\
  (anthropic_api_key env = "" ->
   adversary_critique env call st
   = (critique_result st (rule_based_critiques st), [])).
Proof.
  unfold adversary_critique. node_budget env Critiquing call.
  - destruct (map block_critique _); cbn [snd];
      rewrite requests_app; cbn; lia.
  - cbn [snd]. rewrite requests_app. cbn. lia.
  - cbn [snd]. rewrite !requests_app. cbn. lia.
  - reflexivity.
Qed.

Lemma proponent_budget env call st :
  (requests (snd (proponent_revise env call st)) <= 3)%nat /\
  (anthropic_api_key env = "" ->
   proponent_revise env call st
   = (defense_result st (map rule_based_defense (latest_critiques st)), [])).
Proof.
  unfold proponent_revise. node_budget env Defending call.
  - destruct (defense_blocks env response); cbn [snd];
      rewrite requests_app; cbn; lia.
  - cbn [snd]. rewrite requests_app. cbn. lia.
  - cbn [snd]. rewrite !requests_app. cbn. lia.
  - reflexivity.
Qed.

Lemma judge_budget env call st :
  (requests (snd (human_judge env call st)) <= 3)%nat /\
  (anthropic_api_key env = "" -> snd (human_judge env call st) = []).
Proof.
  unfold human_judge.
  destruct (max_revisions st <=? revision_count st)%Z.
  - destruct (critique_severity st); cbn; split; auto; lia.
  - destruct (critique_severity st); try (cbn; split; auto; lia);
      node_budget env Judging call;
      try (destruct (search_verdict env response) as [[]|]);
      cbn [snd]; rewrite ?requests_app; cbn; try lia; reflexivity.
Qed.

Lemma requests_critique_events st cs ea :
  requests (critique_events st cs ea) = requests ea.
Proof.
  unfold critique_events.
  change (Enter Node_adversary_critique :: ea ++ ?l)
    with ([Enter Node_adversary_critique] ++ ea ++ l).
  rewrite !requests_app. cbn. lia.
Qed.

Lemma quiet_critique_events st cs : quiet (critique_events st cs []) = true.
Proof. reflexivity. Qed.

Lemma loop_body_budget env i st :
  (requests (snd (loop_body env i st)) <= 9)%nat /\
  (anthropic_api_key env = "" -> quiet (snd (loop_body env i st)) = true).
Proof.
  destruct (loop_body_unfold env i st) as (cs & _ & E). cbv zeta in E.
  rewrite E. clear E.
  destruct (adversary_budget env i st) as [Ba Qa].
  set (st3 := after_critique st cs).
  destruct (max_severity_of cs); cbn [snd].
  - rewrite requests_critique_events. split; [lia|].
    intros Hk. now rewrite (Qa Hk).
  - destruct (proponent_budget env i st3) as [Bp Qp].
    set (st4 := set_defense_history _ st3).
    destruct (judge_budget env i st4) as [Bj Qj].
    change (Enter Node_proponent_revise :: ?a ++ ?l)
      with ([Enter Node_proponent_revise] ++ a ++ l).
    change (Enter Node_human_judge :: ?a ++ ?l)
      with ([Enter Node_human_judge] ++ a ++ l).
    rewrite !requests_app, requests_critique_events. split; [cbn; lia|].
    intros Hk. rewrite !quiet_app, (Qj Hk), (Qa Hk).
    assert (snd (proponent_revise env i st3) = []) as ->
      by now rewrite (Qp Hk).
    reflexivity.
  - destruct (judge_budget env i st3) as [Bj Qj].
    change (Enter Node_human_judge :: ?a ++ ?l)
      with ([Enter Node_human_judge] ++ a ++ l).
    rewrite !requests_app, requests_critique_events. split; [cbn; lia|].
    intros Hk. rewrite !quiet_app, (Qa Hk), (Qj Hk). reflexivity.
  - destruct (judge_budget env i st3) as [Bj Qj].
    change (Enter Node_human_judge :: ?a ++ ?l)
      with ([Enter Node_human_judge] ++ a ++ l).
    rewrite !requests_app, requests_critique_events. split; [cbn; lia|].
    intros Hk. rewrite !quiet_app, (Qa Hk), (Qj Hk). reflexivity.
Qed.

Lemma debate_loop_budget env : forall its st,
  (requests (snd (debate_loop env its st)) <= 9 * List.length its)%nat /\
  (anthropic_api_key env = "" -> quiet (snd (debate_loop env its st)) = true).
Proof.
  induction its as [|i rest IH]; intros st; [cbn; split; auto|].
  rewrite debate_loop_cons.
  destruct (loop_body_budget env i st) as [B Q].
  destruct (loop_body env i st) as [[st' stop] evs]. cbn [snd] in *.
  destruct stop; cbn [snd List.length].
  - rewrite app_nil_r. split; [lia|exact Q].
  - destruct (IH st') as [IB IQ]. rewrite requests_app, quiet_app.
    split; [lia|]. intros Hk. now rewrite (Q Hk), (IQ Hk).
Qed.

(** Property X24.  [MockAssumeBreakGraph.invoke] sends at most three
    requests for the extraction and nine per iteration of its debate
    loop, at most [3 + 9 * (max_revisions + 1)] in all.  Without a key
    it sends none and raises no warning: every event of the call is a
    node entry or a store of the state. *)
Theorem requests_of_a_run_are_bounded env d :
  let run := MockAssumeBreakGraph.invoke env d in
  (requests (snd run)
   <= 3 + 9 * Z.to_nat (max_revisions (setdefaults d) + 1))%nat /\
  (anthropic_api_key env = "" -> quiet (snd run) = true).
Proof.
  cbv zeta. rewrite invoke_unfold.
  pose proof (prepared_fields env d) as (_ & Hmax & _).
  cbv zeta in Hmax. rewrite Hmax. cbn [snd].
  destruct (debate_loop_budget env
              (range (max_revisions (setdefaults d) + 1))
              (prepared env d)) as [B Q].
  rewrite range_length in B.
  destruct (extract_budget env 0 (setdefaults d)) as [Be Qe].
  unfold prelude.
  change (Store ?a :: Enter ?b :: ?l ++ ?r)
    with ([Store a; Enter b] ++ l ++ r).
  rewrite !requests_app, !quiet_app. split.
  - cbn [requests filter is_requestb List.length Nat.add] in *. lia.
  - intros Hk. rewrite (Q Hk), (Qe Hk). reflexivity.
Qed.

Lemma requests_of_a_run_are_bounded_witness :
  quiet (snd (MockAssumeBreakGraph.invoke Offline.env
                (initial_state "we need a loan" 1)))
  = true.
Proof.
  apply (requests_of_a_run_are_bounded Offline.env
           (initial_state "we need a loan" 1)).
  reflexivity.
Defined.

(* ----------------------------------------------------------------- *)
(** ** Runs without credentials *)

Lemma critique_result_inj st cs cs' :
  critique_result st cs = critique_result st cs' -> cs = cs'.
Proof.
  intros H. apply (f_equal u_critique_history) in H. cbn in H.
  now injection H.
Qed.

Lemma latest_after_critique st cs :
  latest_critiques (after_critique st cs) = cs.
Proof.
  unfold latest_critiques. rewrite after_critique_history, rev_unit.
  reflexivity.
Qed.

Lemma judge_offline env i st :
  anthropic_api_key env = "" ->
  fst (human_judge env i st)
  = if (max_revisions st <=? revision_count st)%Z
    then judge_result BROKEN true (Some (cap_note st))
           (match critique_severity st with
            | FATAL => None
            | _ => Some (revision_count st)
            end)
    else match critique_severity st with
         | FATAL =>
             judge_result BROKEN true (Some FATAL_NOTE)
                          (Some (revision_count st))
         | s => judge_fallback s (revision_count st)
         end.
Proof.
  intros Hk.
  destruct (max_revisions st <=? revision_count st)%Z eqn:E.
  - apply Z.leb_le in E. now rewrite judge_at_cap.
  - apply Z.leb_gt in E.
    destruct (critique_severity st) eqn:Hs;
      try (rewrite <- Hs; apply judge_fallback_reached;
           [exact E|congruence
           |unfold no_oracle_verdict, call_claude; now rewrite Hk]).
    unfold human_judge. apply Z.leb_gt in E. rewrite E, Hs. reflexivity.
Qed.

(** The loop body without credentials: every capability runs its
    rule-based strategy. *)
Lemma loop_body_offline env i st :
  anthropic_api_key env = "" ->
  let cs := rule_based_critiques st in
  let st3 := after_critique st cs in
  fst (loop_body env i st)
  = match max_severity_of cs with
    | FATAL => (st3, true)
    | MAJOR =>
        let st4 := after_defense st3 (map rule_based_defense cs) in
        let st5 := state_update st4 (fst (human_judge env i st4)) in
        (st5, stops st5)
    | _ =>
        let st5 := state_update st3 (fst (human_judge env i st3)) in
        (st5, stops st5)
    end.
Proof.
  intros Hk. cbv zeta.
  destruct (loop_body_unfold env i st) as (cs & Hcs & E). cbv zeta in E.
  destruct (adversary_budget env i st) as [_ Qa].
  rewrite (Qa Hk) in Hcs. cbn [fst] in Hcs.
  apply critique_result_inj in Hcs. subst cs.
  rewrite E. clear E.
  destruct (max_severity_of (rule_based_critiques st)); cbn [fst];
    try reflexivity.
  destruct (proponent_budget env i
              (after_critique st (rule_based_critiques st))) as [_ Qp].
  rewrite (Qp Hk). cbn [fst defense_result u_defense_history get].
  rewrite latest_after_critique. reflexivity.
Qed.

Lemma rule_based_critiques_frame st st' :
  assumption_tree st' = assumption_tree st ->
  reality_context st' = reality_context st ->
  rule_based_critiques st' = rule_based_critiques st.
Proof. unfold rule_based_critiques. now intros -> ->. Qed.

(** A debate without credentials whose first round is MAJOR repeats
    that round until the cap gate ends it. *)
Lemma offline_major_loop env :
  anthropic_api_key env = "" ->
  forall n k st,
    revision_count st = Z.of_nat k ->
    (max_revisions st + 1)%Z = Z.of_nat (k + n) ->
    (1 <= n)%nat ->
    max_severity_of (rule_based_critiques st) = MAJOR ->
    let r := fst (debate_loop env (seq k n) st) in
    plan_status r = BROKEN /\ awaiting_human r = true /\
    revision_count r = max_revisions st /\
    critique_severity r = MAJOR /\
    critique_history r
    = critique_history st
      ++ repeated_critique_rounds (rule_based_critiques st) k n /\
    defense_history r
    = defense_history st
      ++ repeated_defense_rounds (rule_based_critiques st) k n.
Proof.
  intros Hkey. induction n as [|n IH]; intros k st Hk Hm Hn Hsev; [lia|].
  cbv zeta. cbn [seq]. rewrite debate_loop_cons.
  pose proof (loop_body_offline env k st Hkey) as Hb. cbv zeta in Hb.
  rewrite Hsev in Hb.
  destruct (loop_body env k st) as [[st' stop] evs]. cbn [fst] in Hb.
  set (cs := rule_based_critiques st) in *.
  set (st4 := after_defense (after_critique st cs) (map rule_based_defense cs))
    in *.
  assert (revision_count st4 = revision_count st) as Hrc4 by reflexivity.
  assert (max_revisions st4 = max_revisions st) as Hmax4 by reflexivity.
  assert (critique_severity st4 = MAJOR) as Hs4 by exact Hsev.
  pose proof (judge_offline env k st4 Hkey) as Hj.
  rewrite Hrc4, Hmax4, Hs4 in Hj.
  rewrite Hj in Hb.
  unfold repeated_critique_rounds, repeated_defense_rounds. cbn [seq map].
  destruct (max_revisions st <=? revision_count st)%Z eqn:E.
  - apply Z.leb_le in E. assert (n = 0%nat) as -> by lia.
    injection Hb as Hst' Hstop. subst st' stop. cbn [seq map].
    unfold stops, route_after_judge. cbn. rewrite Hsev, Hk.
    repeat split; auto; lia.
  - apply Z.leb_gt in E. cbn [judge_fallback] in Hb.
    injection Hb as Hst' Hstop. subst st' stop.
    set (st5 := state_update st4 _) in *.
    assert (stops st5 = false) as -> by reflexivity.
    cbn [fst].
    destruct (IH (S k) st5) as (I1 & I2 & I3 & I4 & I5 & I6); try lia.
    + change (revision_count st5) with (revision_count st + 1)%Z. lia.
    + change (max_revisions st5) with (max_revisions st). lia.
    + rewrite (rule_based_critiques_frame st st5); [exact Hsev| |];
        reflexivity.
    + rewrite (rule_based_critiques_frame st st5) in I5, I6
        by reflexivity.
      fold cs in I5, I6.
      unfold repeated_critique_rounds, repeated_defense_rounds in I5, I6.
      rewrite I1, I2, I3, I4, I5, I6.
      change (critique_history st5)
        with (critique_history st
              ++ [ {| round := (revision_count st + 1)%Z; critiques := cs |} ]).
      change (defense_history st5)
        with (defense_history st
              ++ [ {| defense_round := (revision_count st + 1)%Z;
                      defenses := map rule_based_defense cs |} ]).
      rewrite <- !app_assoc, Hk. cbn [app].
      repeat split; auto.
Qed.

(** A debate without credentials whose first round is FATAL or MINOR
    ends after that round. *)
Lemma offline_single_round env :
  anthropic_api_key env = "" ->
  forall n k st,
    revision_count st = Z.of_nat k ->
    (max_revisions st + 1)%Z = Z.of_nat (k + n) ->
    (1 <= n)%nat ->
    let cs := rule_based_critiques st in
    let r := fst (debate_loop env (seq k n) st) in
    (max_severity_of cs = FATAL ->
     plan_status r = BROKEN /\ awaiting_human r = awaiting_human st /\
     critique_severity r = FATAL) /\
    (max_severity_of cs = MINOR ->
     plan_status r
     = (if (revision_count st <? max_revisions st)%Z
        then VALIDATED else BROKEN) /\
     awaiting_human r = negb (revision_count st <? max_revisions st)%Z /\
     critique_severity r = MINOR) /\
    (max_severity_of cs = FATAL \/ max_severity_of cs = MINOR ->
     revision_count r = revision_count st /\
     critique_history r
     = critique_history st ++ repeated_critique_rounds cs k 1 /\
     defense_history r = defense_history st).
Proof.
  intros Hkey n k st Hk Hm Hn. cbv zeta.
  destruct n as [|n]; [lia|]. cbn [seq]. rewrite debate_loop_cons.
  pose proof (loop_body_offline env k st Hkey) as Hb. cbv zeta in Hb.
  destruct (loop_body env k st) as [[st' stop] evs]. cbn [fst] in Hb.
  set (cs := rule_based_critiques st) in *.
  unfold repeated_critique_rounds. cbn [seq map]. rewrite <- Hk.
  pose proof (judge_offline env k (after_critique st cs) Hkey) as Hj.
  change (revision_count (after_critique st cs)) with (revision_count st)
    in Hj.
  change (max_revisions (after_critique st cs)) with (max_revisions st)
    in Hj.
  change (critique_severity (after_critique st cs))
    with (max_severity_of cs) in Hj.
  split; [|split].
  - intros Hsev. rewrite Hsev in Hb. injection Hb as -> ->. cbn [fst].
    cbn. rewrite Hsev. auto.
  - intros Hsev. rewrite Hsev in Hb, Hj. rewrite Hj in Hb.
    injection Hb as Hst' Hstop. subst st' stop.
    destruct (max_revisions st <=? revision_count st)%Z eqn:E.
    + apply Z.leb_le in E.
      assert ((revision_count st <? max_revisions st)%Z = false) as ->
        by (apply Z.ltb_ge; lia).
      cbn. rewrite Hsev. auto.
    + apply Z.leb_gt in E.
      assert ((revision_count st <? max_revisions st)%Z = true) as ->
        by (apply Z.ltb_lt; lia).
      cbn. rewrite Hsev. auto.
  - intros [Hsev|Hsev]; rewrite Hsev in Hb.
    + injection Hb as -> ->. cbn [fst]. cbn. auto.
    + rewrite Hsev in Hj. rewrite Hj in Hb.
      injection Hb as Hst' Hstop. subst st' stop.
      destruct (max_revisions st <=? revision_count st)%Z; cbn; auto.
Qed.

(** The debate leaves the plan, the assumptions and the reality keys
    as the prelude wrote them. *)
Lemma body_run_frame env i st r evs :
  body_run env i st r evs ->
  business_plan (fst r) = business_plan st /\
  assumption_tree (fst r) = assumption_tree st /\
  reality_context (fst r) = reality_context st /\
  reality_citations (fst r) = reality_citations st.
Proof.
  intros H. run_cases H.
  - cbn. auto.
  - subst st5 st4 st3. inversion Jo; subst; cbn; auto.
  - subst st5 st3. inversion Jo; subst; cbn; auto.
Qed.

Lemma debate_loop_frame env : forall its st,
  let r := fst (debate_loop env its st) in
  business_plan r = business_plan st /\
  assumption_tree r = assumption_tree st /\
  reality_context r = reality_context st /\
  reality_citations r = reality_citations st.
Proof.
  induction its as [|i rest IH]; intros st; [cbn; auto|].
  cbv zeta. step_loop env i st.
  apply body_run_frame in R as (R1 & R2 & R3 & R4). cbn [fst] in *.
  destruct stop; cbn [fst]; [auto|].
  destruct (IH st') as (I1 & I2 & I3 & I4). cbv zeta in *.
  repeat split; congruence.
Qed.

(** The round one pass records is the one the critique node returned. *)
Lemma loop_body_round env i st :
  exists cs,
    fst (adversary_critique env i st) = critique_result st cs /\
    critique_history (fst (fst (loop_body env i st)))
    = critique_history st
      ++ [ {| round := (revision_count st + 1)%Z; critiques := cs |} ].
Proof.
  destruct (loop_body_unfold env i st) as (cs & Hcs & E). cbv zeta in E.
  exists cs. split; [exact Hcs|]. rewrite E. clear E.
  destruct (max_severity_of cs); cbn [fst]; try reflexivity;
    match goal with
    | |- critique_history (state_update ?s (fst (human_judge env i ?s'))) = _ =>
        rewrite (judge_keeps_history s' s _
                   (proj1 (judge_outcomes env i s')))
    end; reflexivity.
Qed.

Lemma debate_loop_substantive env : forall its st,
  assumption_tree st <> [] ->
  exists cr,
    critique_history (fst (debate_loop env its st))
    = critique_history st ++ cr /\
    Forall substantive_round cr.
Proof.
  induction its as [|i rest IH]; intros st Hne.
  - exists []. cbn. now rewrite app_nil_r.
  - destruct (loop_body_round env i st) as (cs & Hcs & Hh).
    destruct (adversary_round env i st) as (cs' & Hcs' & Hv & Hn).
    rewrite Hcs in Hcs'. apply critique_result_inj in Hcs'. subst cs'.
    pose proof (loop_body_run env i st) as R.
    apply body_run_frame in R as (_ & Ha & _).
    rewrite debate_loop_cons.
    destruct (loop_body env i st) as [[st' stop] evs]. cbn [fst snd] in *.
    assert (substantive_round
              {| round := (revision_count st + 1)%Z; critiques := cs |})
      as Hsub by (split; cbn; auto).
    destruct stop; cbn [fst].
    + eexists. split; [exact Hh|]. now constructor.
    + destruct (IH st') as (cr & I1 & I2); [congruence|].
      exists ({| round := (revision_count st + 1)%Z; critiques := cs |} :: cr).
      rewrite I1, Hh, <- app_assoc. split; [reflexivity|].
      now constructor.
Qed.

Lemma debate_start_fields env plan cap :
  let st := debate_start env plan cap in
  assumption_tree st <> [] /\
  (1 <= List.length (reality_citations st) <= 10)%nat /\
  (anthropic_api_key env = "" ->
   assumption_tree st = _extract_assumptions_rule_based plan).
Proof.
  cbv zeta. unfold debate_start, prepared, extracted.
  set (d := initial_state plan (get cap (settings_max_revisions env))).
  destruct (extract_budget env 0 (setdefaults d)) as [_ Qe].
  destruct (extraction_nonempty env 0 (setdefaults d)) as (l & Hl & E).
  rewrite E in *.
  set (st1 := state_update (setdefaults d) (extraction_result l)).
  pose proof (fetch_citations (SequenceMatcher_ratio env) (format_1f env)
                (ZAMBIAN_REALITY_DATABASE env) st1) as Hc.
  pose proof (retrieve_default_length (SequenceMatcher_ratio env)
                (ZAMBIAN_REALITY_DATABASE env) (business_plan st1)) as Hlen.
  destruct (fetch_shape (SequenceMatcher_ratio env) (format_1f env)
              (ZAMBIAN_REALITY_DATABASE env) st1) as (ctx & cits & F).
  rewrite F in *. cbn [u_reality_citations] in Hc. injection Hc as Hc.
  cbn [state_update assumption_tree reality_citations u_assumption_tree
       u_reality_citations get extraction_result].
  split; [exact Hl|]. split.
  - rewrite Hc.
    destruct (retrieve_relevant_facts _ _ _ TOP_K) as [|p rest].
    + cbn. lia.
    + cbn [List.length] in *. rewrite citations_from_length. lia.
  - intros Hk. rewrite (Qe Hk) in E. cbn [fst] in E.
    apply (f_equal u_assumption_tree) in E.
    cbn [extraction_result u_assumption_tree] in E.
    injection E as <-. reflexivity.
Qed.

(** Property X25.  Without a key every round of the debate repeats the
    rule-based critiques of the first one, since nothing rewrites the
    assumptions: the run is decided by the severity of that first
    round.  FATAL ends it [BROKEN] at once, without escalation; MINOR
    is [VALIDATED] after one round, or [BROKEN] when the cap is 0;
    MAJOR is never validated: the run records [max_revisions + 1]
    identical rounds, each with the same defenses, and ends [BROKEN]
    at the cap with [awaiting_human] set. *)
Theorem offline_run_is_decided_by_first_round env business_plan cap :
  anthropic_api_key env = "" ->
  (0 <= get cap (settings_max_revisions env))%Z ->
  let m := get cap (settings_max_revisions env) in
  let cs := rule_based_critiques (debate_start env business_plan cap) in
  let r := fst (stress_test_plan env business_plan cap) in
  r_assumptions r = _extract_assumptions_rule_based business_plan /\
  match max_severity_of cs with
  | FATAL =>
      r_plan_status r = BROKEN /\ awaiting_human (raw_state r) = false /\
      r_revision_count r = 0%Z /\
      r_critiques r = repeated_critique_rounds cs 0 1 /\
      r_defenses r = []
  | MAJOR =>
      r_plan_status r = BROKEN /\ awaiting_human (raw_state r) = true /\
      r_revision_count r = m /\
      r_critiques r = repeated_critique_rounds cs 0 (Z.to_nat (m + 1)) /\
      r_defenses r = repeated_defense_rounds cs 0 (Z.to_nat (m + 1))
  | MINOR =>
      r_plan_status r = (if (0 <? m)%Z then VALIDATED else BROKEN) /\
      awaiting_human (raw_state r) = negb (0 <? m)%Z /\
      r_revision_count r = 0%Z /\
      r_critiques r = repeated_critique_rounds cs 0 1 /\
      r_defenses r = []
  | NONE => False
  end.
Proof.
  intros Hkey Hm. cbv zeta.
  destruct (run_unfold env business_plan cap)
    as (-> & Hrc & Hmax & Ha & Hc & Hd & _).
  set (m := get cap (settings_max_revisions env)) in *.
  set (st := debate_start env business_plan cap) in *.
  destruct (debate_start_fields env business_plan cap) as (Hne & _ & Hrb).
  fold st in Hne, Hrb.
  destruct (debate_loop_frame env (range (m + 1)) st) as (_ & Hf & _).
  cbn [fst result_of r_assumptions r_plan_status r_revision_count
       r_critiques r_defenses raw_state].
  split; [rewrite Hf; auto|].
  unfold range.
  destruct (offline_single_round env Hkey (Z.to_nat (m + 1)) 0 st)
    as (SF & SM & SB); try lia.
  cbv zeta in SF, SM, SB. rewrite Hrc, Hmax, Hc, Hd, Ha in *.
  destruct (max_severity_of (rule_based_critiques st)) eqn:Hsev.
  - destruct (SF eq_refl) as (S1 & S2 & _).
    destruct (SB (or_introl eq_refl)) as (S3 & S4 & S5). auto.
  - destruct (offline_major_loop env Hkey (Z.to_nat (m + 1)) 0 st)
      as (M1 & M2 & M3 & _ & M5 & M6); try lia; try exact Hsev.
    rewrite Hc in M5. rewrite Hd in M6. rewrite Hmax in M3. auto.
  - destruct (SM eq_refl) as (S1 & S2 & _).
    destruct (SB (or_intror eq_refl)) as (S3 & S4 & S5). auto.
  - destruct (rule_based_critiques_fields st) as [Hfr Hv].
    apply (no_none_max _ Hv) in Hsev.
    rewrite Hsev in Hfr. cbn [map] in Hfr. apply Hne. now rewrite <- Hfr.
Qed.

Lemma offline_run_is_decided_by_first_round_witness :
  r_plan_status (fst loan_run) = BROKEN /\
  awaiting_human (raw_state (fst loan_run)) = true /\
  r_revision_count (fst loan_run) = 1%Z.
Proof.
  pose proof (offline_run_is_decided_by_first_round Offline.env
                "we need a loan" (Some 1%Z) eq_refl) as H.
  cbv zeta in H. specialize (H ltac:(cbn; lia)).
  destruct H as [_ H].
  assert (max_severity_of
            (rule_based_critiques
               (debate_start Offline.env "we need a loan" (Some 1%Z)))
          = MAJOR) as E by (vm_compute; reflexivity).
  rewrite E in H. destruct H as (H1 & H2 & H3 & _).
  exact (conj H1 (conj H2 H3)).
Defined.

Lemma default_assumptions_major reality_lower :
  max_severity_of (map (rule_based_critique reality_lower)
                       DEFAULT_ASSUMPTIONS) = MAJOR.
Proof. vm_compute. reflexivity. Qed.

(** Property X26.  Without a key, a plan in which no trigger word of
    the extraction rules occurs is never validated: its two default
    assumptions make every round MAJOR, and the run ends [BROKEN] with
    [awaiting_human] set after [max_revisions] revisions. *)
Theorem untriggered_plan_is_broken_offline env business_plan cap :
  anthropic_api_key env = "" ->
  (0 <= get cap (settings_max_revisions env))%Z ->
  fired_rules business_plan = [] ->
  let r := fst (stress_test_plan env business_plan cap) in
  r_assumptions r = DEFAULT_ASSUMPTIONS /\
  r_plan_status r = BROKEN /\
  r_critique_severity r = MAJOR /\
  awaiting_human (raw_state r) = true /\
  r_revision_count r = get cap (settings_max_revisions env).
Proof.
  intros Hkey Hm Hfired. cbv zeta.
  destruct (run_unfold env business_plan cap)
    as (-> & Hrc & Hmax & Ha & Hc & Hd & _).
  set (m := get cap (settings_max_revisions env)) in *.
  set (st := debate_start env business_plan cap) in *.
  destruct (debate_start_fields env business_plan cap) as (_ & _ & Hrb).
  fold st in Hrb. specialize (Hrb Hkey).
  rewrite rule_based_eq, Hfired in Hrb.
  destruct (debate_loop_frame env (range (m + 1)) st) as (_ & Hf & _).
  cbn [fst result_of r_assumptions r_plan_status r_revision_count
       r_critique_severity raw_state].
  split; [now rewrite Hf|].
  assert (max_severity_of (rule_based_critiques st) = MAJOR) as Hsev.
  { unfold rule_based_critiques. rewrite Hrb.
    apply default_assumptions_major. }
  unfold range.
  destruct (offline_major_loop env Hkey (Z.to_nat (m + 1)) 0 st)
    as (M1 & M2 & M3 & M4 & _); try lia; try exact Hsev.
  rewrite Hmax in M3. auto.
Qed.

Lemma untriggered_plan_is_broken_offline_witness :
  r_plan_status (fst (stress_test_plan Offline.env
                        "Open a bakery in Lusaka" None)) = BROKEN.
Proof.
  apply (untriggered_plan_is_broken_offline Offline.env
           "Open a bakery in Lusaka" None).
  - reflexivity.
  - cbn. lia.
  - vm_compute. reflexivity.
Defined.

(** Property X27.  Whatever the oracle does, the result of a run is
    never empty-handed: it lists at least one assumption and between 1
    and 10 citations, every critique round holds at least one critique
    and no critique is without a verdict, and when the cap is not
    negative the critique severity of the result is not NONE. *)
Theorem run_reports_are_never_empty env business_plan cap :
  let r := fst (stress_test_plan env business_plan cap) in
  r_assumptions r <> [] /\
  (1 <= List.length (r_reality_citations r) <= 10)%nat /\
  Forall substantive_round (r_critiques r) /\
  ((0 <= get cap (settings_max_revisions env))%Z ->
   r_critique_severity r <> NONE).
Proof.
  cbv zeta.
  pose proof (run_trace env business_plan cap) as T. cbv zeta in T.
  destruct (run_unfold env business_plan cap)
    as (E & Hrc & Hmax & Ha & Hc & Hd & _).
  rewrite E in *. clear E.
  set (m := get cap (settings_max_revisions env)) in *.
  set (st := debate_start env business_plan cap) in *.
  destruct (debate_start_fields env business_plan cap) as (Hne & Hcit & _).
  fold st in Hne, Hcit.
  destruct (debate_loop_frame env (range (m + 1)) st) as (_ & Hf & _ & Hfc).
  destruct (debate_loop_substantive env (range (m + 1)) st Hne)
    as (cr & Hcr & Hsub).
  rewrite Hc in Hcr. cbn [app] in Hcr.
  cbn [fst snd result_of r_assumptions r_reality_citations r_critiques
       r_critique_severity] in *.
  rewrite Hf, Hfc, Hcr. repeat split; auto; try lia.
  intros Hm. destruct T as (_ & _ & [T|T]); [lia|].
  destruct T as (_ & cr' & last & T1 & _ & _ & _ & _ & T2 & _).
  rewrite T2. rewrite Hcr in T1. subst cr.
  apply Forall_app in Hsub as [_ Hl]. inversion Hl as [|? ? [Hn Hv] _]; subst.
  unfold round_severity. intros Hs.
  apply (no_none_max _ Hv) in Hs. contradiction.
Qed.

Lemma run_reports_are_never_empty_witness :
  r_critique_severity (fst crop_run) <> NONE.
Proof.
  apply (run_reports_are_never_empty Offline.env "crop" None).
  cbn. lia.
Defined.

(* ----------------------------------------------------------------- *)
(** ** The stored states *)

Lemma continues_refl a : continues a a.
Proof.
  unfold continues. repeat split; try lia;
    exists []; now rewrite app_nil_r.
Qed.

Lemma continues_trans a b c : continues a b -> continues b c -> continues a c.
Proof.
  intros ([l1 H1] & [l2 H2] & H3 & H4 & H5) ([m1 K1] & [m2 K2] & K3 & K4 & K5).
  unfold continues. repeat split; try lia; try congruence.
  - exists (l1 ++ m1). now rewrite K1, H1, app_assoc.
  - exists (l2 ++ m2). now rewrite K2, H2, app_assoc.
Qed.

Lemma stored_app l1 l2 : stored (l1 ++ l2) = stored l1 ++ stored l2.
Proof.
  induction l1 as [|e l1 IH]; [reflexivity|].
  destruct e; cbn [app stored]; now rewrite IH.
Qed.

Lemma stored_oracle c l : Forall (oracle_event c) l -> stored l = [].
Proof.
  induction 1 as [|e l He _ IH]; [reflexivity|].
  destruct e; cbn in *; try contradiction; exact IH.
Qed.

(** A chain from [a]: each state continues the one before it. *)
Lemma chain_app (a : AgentState) l1 b l2 :
  Sorted continues (a :: l1 ++ [b]) ->
  Sorted continues (b :: l2) ->
  Sorted continues (a :: (l1 ++ [b]) ++ l2).
Proof.
  revert a. induction l1 as [|x l1 IH]; intros a H1 H2; cbn [app] in *.
  - inversion H1 as [|? ? _ Hd]; subst. constructor; [exact H2|].
    inversion Hd; subst. now constructor.
  - inversion H1 as [|? ? Hs Hd]; subst. constructor.
    + apply IH; assumption.
    + inversion Hd; subst. now constructor.
Qed.

Lemma body_run_stored env i st r evs :
  body_run env i st r evs ->
  exists l, stored evs = l ++ [fst r] /\
            Sorted continues (st :: l ++ [fst r]).
Proof.
  assert (forall cs, continues st
            (set_critique_history
               (critique_history st
                ++ [ {| round := (revision_count st + 1)%Z;
                        critiques := cs |} ]) st)) as C1.
  { intros cs. unfold continues. cbn. repeat split; try lia; eauto.
    exists []. now rewrite app_nil_r. }
  assert (forall a b, critique_history b = critique_history a ->
            defense_history b = defense_history a ->
            revision_count b = revision_count a ->
            max_revisions b = max_revisions a ->
            business_plan b = business_plan a -> continues a b) as Csame.
  { intros a b H1 H2 H3 H4 H5. unfold continues.
    repeat split; try lia; auto; exists []; now rewrite app_nil_r. }
  assert (forall a ju, judge_outcome a ju -> forall b,
            revision_count b = revision_count a ->
            continues b (state_update b ju)) as Cj.
  { intros a ju Jo b Hb. unfold continues.
    inversion Jo; subst; cbn; repeat split; try lia;
      exists []; now rewrite app_nil_r. }
  intros H. run_cases H.
  - unfold critique_events.
    repeat (rewrite stored_app || cbn [stored app]).
    rewrite (stored_oracle _ _ Hea). cbn [app stored].
    eexists [_; _]. cbn [app fst]. split; [reflexivity|].
    repeat (constructor; [|constructor]); try constructor;
      first [apply C1 | apply Csame; reflexivity].
  - unfold critique_events.
    repeat (rewrite stored_app || cbn [stored app]).
    rewrite (stored_oracle _ _ Hea), (stored_oracle _ _ Her),
            (stored_oracle _ _ Je). cbn [app stored fst].
    eexists [_; _; _; _]. cbn [app]. split; [reflexivity|].
    repeat (constructor; [|constructor]); try constructor;
      first [ apply C1
            | apply (Cj _ _ Jo); reflexivity
            | apply Csame; reflexivity
            | idtac ].
    + exists []. now rewrite app_nil_r.
    + eexists. reflexivity.
  - unfold critique_events.
    repeat (rewrite stored_app || cbn [stored app]).
    rewrite (stored_oracle _ _ Hea), (stored_oracle _ _ Je).
    cbn [app stored fst].
    eexists [_; _; _]. cbn [app]. split; [reflexivity|].
    repeat (constructor; [|constructor]); try constructor;
      first [ apply C1
            | apply (Cj _ _ Jo); reflexivity
            | apply Csame; reflexivity ].
Qed.

Lemma last_chain (a b : AgentState) l1 l2 d :
  last (a :: (l1 ++ [b]) ++ l2) d = last (b :: l2) d.
Proof.
  revert a. induction l1 as [|x l1 IH]; intros a; [reflexivity|].
  cbn [app]. change (last (a :: x :: ?l) d) with (last (x :: l) d).
  apply IH.
Qed.

Lemma last_default (x : AgentState) l d d' :
  last (x :: l) d = last (x :: l) d'.
Proof.
  revert x. induction l as [|y l IH]; intros x; [reflexivity|].
  change (last (x :: y :: l) d) with (last (y :: l) d).
  change (last (x :: y :: l) d') with (last (y :: l) d').
  apply IH.
Qed.

Lemma debate_loop_stored env : forall its st,
  Sorted continues (st :: stored (snd (debate_loop env its st))) /\
  last (st :: stored (snd (debate_loop env its st))) st
  = fst (debate_loop env its st).
Proof.
  induction its as [|i rest IH]; intros st.
  - cbn. split; [repeat constructor|reflexivity].
  - step_loop env i st.
    apply body_run_stored in R as (l & Hl & Hs). cbn [fst snd] in *.
    destruct stop; cbn [fst snd].
    + rewrite app_nil_r, Hl. split; [exact Hs|].
      change (st :: l ++ [st']) with ((st :: l) ++ [st']).
      apply last_last.
    + destruct (IH st') as [I1 I2].
      rewrite stored_app, Hl. split.
      * now apply chain_app.
      * rewrite last_chain, <- I2. apply last_default.
Qed.

Lemma prelude_stored env d :
  stored (prelude env d) = [setdefaults d; extracted env d; prepared env d] /\
  Sorted continues [setdefaults d; extracted env d; prepared env d].
Proof.
  split.
  - unfold prelude. cbn [stored]. rewrite stored_app.
    rewrite (stored_oracle _ _ (extract_events env 0 (setdefaults d))).
    reflexivity.
  - unfold prepared, extracted.
    destruct (extract_shape env 0 (setdefaults d)) as [l ->].
    destruct (fetch_shape (SequenceMatcher_ratio env) (format_1f env)
                (ZAMBIAN_REALITY_DATABASE env)
                (state_update (setdefaults d) (extraction_result l)))
      as (ctx & cits & ->).
    repeat (constructor; [|constructor]); try constructor;
      unfold continues; cbn; repeat split; try lia;
      exists []; now rewrite app_nil_r.
Qed.

Lemma continues_transitive : Relations_1.Transitive continues.
Proof. intros a b c. apply continues_trans. Qed.

(** Property X28.  The states a run stores form a chain from the
    initial state to the final one: the critique history and the
    defense history of each stored state extend those of every earlier
    one at the end, the revision count never decreases, and the plan
    and the cap never change.  Recorded rounds are never rewritten or
    dropped. *)
Theorem stored_states_only_grow env business_plan cap :
  let m := get cap (settings_max_revisions env) in
  let run := stress_test_plan env business_plan cap in
  StronglySorted continues (stored (snd run)) /\
  exists between,
    stored (snd run)
    = setdefaults (initial_state business_plan m)
      :: between ++ [raw_state (fst run)].
Proof.
  cbv zeta.
  destruct (run_unfold env business_plan cap) as (-> & _).
  set (m := get cap (settings_max_revisions env)).
  set (d := initial_state business_plan m).
  cbn [fst snd result_of raw_state stored]. rewrite stored_app.
  destruct (prelude_stored env d) as [-> Hp].
  unfold debate_start. fold m. fold d.
  destruct (debate_loop_stored env (range (m + 1)) (prepared env d))
    as [L1 L2].
  set (ls := stored (snd (debate_loop env (range (m + 1)) (prepared env d))))
    in *.
  assert (Sorted continues
            (setdefaults d :: ([extracted env d] ++ [prepared env d]) ++ ls))
    as Hs by (apply chain_app; assumption).
  split.
  - apply Sorted_StronglySorted; [exact continues_transitive|exact Hs].
  - rewrite <- L2. cbn [app].
    destruct ls as [|x ls] using rev_ind.
    + exists [extracted env d]. reflexivity.
    + exists (extracted env d :: prepared env d :: ls).
      cbn [app].
      change (prepared env d :: ls ++ [x])
        with ((prepared env d :: ls) ++ [x]).
      now rewrite last_last.
Qed.

(* ----------------------------------------------------------------- *)
(** ** The line filter of the extraction *)

Lemma lstrip_idem s : lstrip (lstrip s) = lstrip s.
Proof.
  induction s as [|c r IH]; [reflexivity|]. cbn [lstrip].
  destruct (is_space c) eqn:E; [exact IH|]. cbn [lstrip]. now rewrite E.
Qed.

Lemma rstrip_idem s : rstrip (rstrip s) = rstrip s.
Proof.
  induction s as [|c r IH]; [reflexivity|]. cbn [rstrip].
  destruct (rstrip r) as [|d r'] eqn:E.
  - destruct (is_space c) eqn:Ec; [reflexivity|]. cbn [rstrip]. now rewrite Ec.
  - change (rstrip (String c (String d r')))
      with (match rstrip (String d r') with
            | EmptyString =>
                if is_space c then EmptyString else String c EmptyString
            | String _ _ as r' => String c r'
            end).
    now rewrite IH.
Qed.

Lemma strip_comm s : rstrip (lstrip s) = lstrip (rstrip s).
Proof.
  induction s as [|c r IH]; [reflexivity|]. cbn [lstrip rstrip].
  destruct (is_space c) eqn:Ec.
  - rewrite IH. destruct (rstrip r) as [|d r']; [reflexivity|].
    cbn [lstrip]. now rewrite Ec.
  - cbn [rstrip]. destruct (rstrip r) as [|d r']; cbn [lstrip]; now rewrite Ec.
Qed.

Lemma strip_idem s : strip (strip s) = strip s.
Proof.
  unfold strip. now rewrite strip_comm, rstrip_idem, lstrip_idem.
Qed.

Lemma strip_fixed l : strip l = l -> lstrip l = l /\ rstrip l = l.
Proof.
  unfold strip. intros H. split.
  - rewrite <- H at 1. rewrite lstrip_idem. exact H.
  - rewrite <- H at 1. rewrite strip_comm, rstrip_idem. exact H.
Qed.

Lemma no_newline_lstrip s : no_newline s = true -> no_newline (lstrip s) = true.
Proof.
  unfold no_newline. induction s as [|c r IH]; [auto|].
  cbn [lstrip all_chars]. intros H. apply andb_prop in H as [H1 H2].
  destruct (is_space c); [auto|]. cbn [all_chars]. now rewrite H1, H2.
Qed.

Lemma no_newline_rstrip s : no_newline s = true -> no_newline (rstrip s) = true.
Proof.
  unfold no_newline. induction s as [|c r IH]; [auto|].
  cbn [rstrip all_chars]. intros H. apply andb_prop in H as [H1 H2].
  specialize (IH H2).
  destruct (rstrip r) as [|d r'].
  - destruct (is_space c); [reflexivity|]. cbn [all_chars]. now rewrite H1.
  - cbn [all_chars] in *. now rewrite H1, IH.
Qed.

Lemma split_newline_lines s :
  forallb no_newline (split_newline s) = true.
Proof.
  induction s as [|c r IH]; [reflexivity|]. cbn [split_newline].
  destruct (Ascii.eqb c newline) eqn:E.
  - cbn [forallb]. now rewrite IH.
  - destruct (split_newline r) as [|x xs].
    + cbn. now rewrite E.
    + cbn [forallb] in *. apply andb_prop in IH as [H1 H2].
      unfold no_newline in *. cbn [all_chars]. now rewrite E, H1, H2.
Qed.

Lemma match_assumption_nonempty l : match_assumption l = true -> l <> "".
Proof. intros H ->. discriminate. Qed.

Lemma assumption_filter_output response :
  forallb assumption_line (parse_assumption_lines response) = true.
Proof.
  unfold parse_assumption_lines. apply forallb_forall. intros l Hl.
  apply filter_In in Hl as [Hin Hm].
  apply in_map_iff in Hin as (x & <- & Hx).
  pose proof (split_newline_lines (strip response)) as Hn.
  rewrite forallb_forall in Hn. specialize (Hn x Hx).
  unfold assumption_line. rewrite Hm, strip_idem, String.eqb_refl.
  cbn [andb]. unfold strip.
  now apply no_newline_lstrip, no_newline_rstrip.
Qed.

(** Property X29.  The line filter of the extraction keeps a line
    only if, stripped, it starts with one of the five category tags in
    brackets followed by [ASSUMPTION:], case ignored.  Every line it
    returns is stripped, holds no line feed and matches the pattern,
    and a reply of white space only yields no line. *)
Theorem assumption_filter_keeps_tagged_lines response :
  forallb assumption_line (parse_assumption_lines response) = true /\
  (strip response = "" -> parse_assumption_lines response = []).
Proof.
  split; [apply assumption_filter_output|].
  unfold parse_assumption_lines. intros ->. reflexivity.
Qed.

Lemma assumption_filter_keeps_tagged_lines_witness :
  parse_assumption_lines "   " = [].
Proof.
  apply (assumption_filter_keeps_tagged_lines "   ").
  reflexivity.
Defined.

Lemma append_assoc_str (a b c : string) :
  ((a ++ b) ++ c = a ++ (b ++ c))%string.
Proof.
  induction a as [|x a IH]; cbn [String.append]; [reflexivity|].
  now rewrite IH.
Qed.

Lemma rstrip_fixed_app a b :
  rstrip b = b -> b <> "" -> rstrip (a ++ b)%string = (a ++ b)%string.
Proof.
  intros Hb Hne. induction a as [|c a IH]; cbn [String.append]; [exact Hb|].
  cbn [rstrip]. rewrite IH.
  destruct (a ++ b)%string eqn:E; [|reflexivity].
  destruct a; cbn [String.append] in E; [congruence|discriminate].
Qed.

Lemma split_newline_line a :
  no_newline a = true -> split_newline a = [a].
Proof.
  unfold no_newline. induction a as [|c a IH]; [reflexivity|].
  cbn [all_chars split_newline]. intros H. apply andb_prop in H as [H1 H2].
  apply negb_true_iff in H1. rewrite H1, (IH H2). reflexivity.
Qed.

Lemma split_newline_app a rest :
  no_newline a = true ->
  split_newline (a ++ String newline rest) = a :: split_newline rest.
Proof.
  unfold no_newline. induction a as [|c a IH];
    cbn [all_chars String.append split_newline].
  - intros _. now rewrite Ascii.eqb_refl.
  - intros H. apply andb_prop in H as [H1 H2].
    apply negb_true_iff in H1. rewrite H1, (IH H2). reflexivity.
Qed.

Lemma concat_cons sep x y r :
  String.concat sep (x :: y :: r)
  = (x ++ sep ++ String.concat sep (y :: r))%string.
Proof. reflexivity. Qed.

Lemma assumption_line_facts l :
  assumption_line l = true ->
  match_assumption l = true /\ strip l = l /\ no_newline l = true /\ l <> "".
Proof.
  unfold assumption_line. intros H.
  apply andb_prop in H as [H H3]. apply andb_prop in H as [H1 H2].
  apply String.eqb_eq in H2. repeat split; auto.
  now apply match_assumption_nonempty.
Qed.

Lemma concat_nonempty sep x r : x <> "" -> String.concat sep (x :: r) <> "".
Proof.
  intros Hx. destruct r as [|y r]; [exact Hx|]. rewrite concat_cons.
  destruct x; [congruence|discriminate].
Qed.

Lemma split_concat ls :
  ls <> [] -> forallb assumption_line ls = true ->
  split_newline (String.concat (String newline "") ls) = ls.
Proof.
  induction ls as [|x ls IH]; [congruence|]. intros _ H.
  cbn [forallb] in H. apply andb_prop in H as [Hx Hr].
  apply assumption_line_facts in Hx as (_ & _ & Hn & _).
  destruct ls as [|y ls]; [now apply split_newline_line|].
  rewrite concat_cons. cbn [String.append].
  rewrite split_newline_app by exact Hn.
  now rewrite IH.
Qed.

Lemma strip_concat ls :
  forallb assumption_line ls = true ->
  strip (String.concat (String newline "") ls)
  = String.concat (String newline "") ls.
Proof.
  intros H. destruct ls as [|x ls]; [reflexivity|].
  assert (rstrip (String.concat (String newline "") (x :: ls))
          = String.concat (String newline "") (x :: ls)) as Hr.
  { revert x H. induction ls as [|y ls IH]; intros x H;
      cbn [forallb] in H; apply andb_prop in H as [Hx Hrest].
    - apply assumption_line_facts in Hx as (_ & Hs & _).
      now apply strip_fixed in Hs as [_ Hs].
    - rewrite concat_cons, <- append_assoc_str.
      apply rstrip_fixed_app; [now apply IH|].
      apply concat_nonempty.
      cbn [forallb] in Hrest. apply andb_prop in Hrest as [Hy _].
      now apply assumption_line_facts in Hy as (_ & _ & _ & Hy). }
  unfold strip. rewrite Hr.
  cbn [forallb] in H. apply andb_prop in H as [Hx _].
  apply assumption_line_facts in Hx as (_ & Hs & _ & Hne).
  apply strip_fixed in Hs as [Hl _].
  destruct x as [|c x]; [congruence|].
  cbn [lstrip] in Hl. destruct (is_space c) eqn:Ec.
  - exfalso. clear - Hl.
    assert (forall s, String.length (lstrip s) <= String.length s)%nat as Hlen.
    { induction s as [|d s IH]; cbn [lstrip]; [lia|].
      destruct (is_space d); cbn [String.length]; lia. }
    specialize (Hlen x). rewrite Hl in Hlen. cbn [String.length] in Hlen. lia.
  - destruct ls as [|y ls]; [cbn [String.concat lstrip]; now rewrite Ec|].
    rewrite concat_cons. cbn [String.append lstrip]. now rewrite Ec.
Qed.

Lemma parse_lines_roundtrip ls :
  forallb assumption_line ls = true ->
  parse_assumption_lines (String.concat (String newline "") ls) = ls.
Proof.
  intros H. unfold parse_assumption_lines. rewrite (strip_concat _ H).
  destruct ls as [|x ls]; [reflexivity|].
  assert (x :: ls <> []) as Hne by discriminate.
  rewrite (split_concat _ Hne H).
  clear - H. induction (x :: ls) as [|l r IH]; [reflexivity|].
  cbn [forallb] in H. apply andb_prop in H as [Hl Hr].
  apply assumption_line_facts in Hl as (Hm & Hs & _).
  cbn [map filter]. rewrite Hs, Hm. now rewrite (IH Hr).
Qed.

Lemma rule_based_lines plan :
  forallb assumption_line (_extract_assumptions_rule_based plan) = true.
Proof.
  assert (forallb assumption_line
            (map snd EXTRACTION_RULES ++ DEFAULT_ASSUMPTIONS) = true) as H
    by (vm_compute; reflexivity).
  rewrite forallb_forall in H. apply forallb_forall. intros l Hl.
  apply H. apply in_or_app. rewrite rule_based_eq in Hl.
  destruct (fired_rules plan) as [|r rs] eqn:E; [now right|left].
  rewrite <- E in Hl. unfold fired_rules in Hl.
  apply in_map_iff in Hl as (x & <- & Hx). apply filter_In in Hx as [Hx _].
  now apply in_map.
Qed.

(** Property X30.  The rule-based assumptions are lines the filter of
    the primary strategy accepts: written out one per line they are
    read back unchanged.  And with that filter, whatever the oracle
    does, every assumption the extraction node returns is such a
    tagged line, the list is not empty and the status is
    [UNDER_REVIEW]. *)
Theorem extracted_assumptions_are_tagged_lines :
  (forall plan,
     parse_assumption_lines
       (String.concat (String newline "")
          (_extract_assumptions_rule_based plan))
     = _extract_assumptions_rule_based plan) /\
  (forall env call state,
     assumption_lines env = parse_assumption_lines ->
     exists assumptions,
       fst (extract_assumptions env call state)
       = extraction_result assumptions /\
       assumptions <> [] /\
       forallb assumption_line assumptions = true).
Proof.
  split.
  - intros plan. apply parse_lines_roundtrip, rule_based_lines.
  - intros env call state Hp.
    assert (exists assumptions,
              extraction_result
                (_extract_assumptions_rule_based (business_plan state))
              = extraction_result assumptions /\
              assumptions <> [] /\
              forallb assumption_line assumptions = true) as Hrb.
    { eexists. split; [reflexivity|].
      split; [apply rule_based_nonempty|apply rule_based_lines]. }
    unfold extract_assumptions, bind, tell, ret.
    destruct (call_claude env Extraction call) as [[response| |] l];
      cbn [fst]; try exact Hrb.
    rewrite Hp.
    destruct (parse_assumption_lines response) as [|a r] eqn:E;
      cbn [fst]; [exact Hrb|].
    exists (a :: r). split; [reflexivity|]. split; [discriminate|].
    rewrite <- E. apply assumption_filter_output.
Qed.

Lemma extracted_assumptions_are_tagged_lines_witness :
  exists assumptions,
    fst (extract_assumptions
           (env_replying "Sure.
 [market] assumption: Maize sells at K5 per kg. 
Thanks")
           0 road_state)
    = extraction_result assumptions /\
    assumptions <> [] /\
    forallb assumption_line assumptions = true.
Proof.
  destruct extracted_assumptions_are_tagged_lines as [_ H].
  apply H. reflexivity.
Defined.
